(** * FovePythonBindings: a Rocq model of [src/bindings.cpp]

    The binding layer exposes the FOVE C API to Python through pybind11.
    This development embeds the parts of [bindings.cpp] that carry behaviour
    of their own: the flag-set operators of [ClientCapabilities], the buffer
    protocol helpers, the default-argument constructors, the vector and
    quaternion operators, the tagged union of [ObjectCollider], the mesh
    buffer constructors, the hundred functions registered by [bind_CAPIs]
    as programs over the entry points of the native library, and the table
    of classes and enums the module registers.

    The definitions come first, in the order of the source; the properties
    follow, one module of facts per subject. *)

From Stdlib Require Import ZArith List String Ascii Bool Lia.
From Stdlib Require Import Floats.SpecFloat.
Import ListNotations.

Local Open Scope string_scope.
Local Open Scope Z_scope.

Set Implicit Arguments.

(** ** C integers

    [int] is 32 bits wide on every platform the binding is built for. The
    bitwise operators never leave the range of [int]; the casts to
    [unsigned int] reduce modulo [2^32]. *)

Module CInt.

Definition int_min : Z := - 2 ^ 31.
Definition int_max : Z := 2 ^ 31 - 1.
Definition in_int (z : Z) : Prop := int_min <= z <= int_max.

(** [static_cast<unsigned int>(z)] *)
Definition to_unsigned_int (z : Z) : Z := z mod 2 ^ 32.

(** [static_cast<int>(z)] on a two's complement machine *)
Definition to_int (z : Z) : Z := (z + 2 ^ 31) mod 2 ^ 32 - 2 ^ 31.

End CInt.

(** ** [Fove_ClientCapabilities]

    An [enum class] over [int] used as a flag set.  The three operators are
    the ones copied from [FoveAPI.h] at the top of [bindings.cpp]; the Python
    methods are the lambdas of [defenum_ClientCapabilities]. *)

Module ClientCapabilities.

Definition Fove_ClientCapabilities := Z.

(** [operator|], [operator&], [operator~] *)
Definition operator_or (a b : Fove_ClientCapabilities) : Fove_ClientCapabilities :=
  Z.lor a b.
Definition operator_and (a b : Fove_ClientCapabilities) : Fove_ClientCapabilities :=
  Z.land a b.
Definition operator_not (a : Fove_ClientCapabilities) : Fove_ClientCapabilities :=
  Z.lnot a.

Definition __eq__ (cap1 cap2 : Fove_ClientCapabilities) : bool := cap1 =? cap2.
Definition __and__ (cap1 cap2 : Fove_ClientCapabilities) := operator_and cap1 cap2.
Definition __or__ (cap1 cap2 : Fove_ClientCapabilities) := operator_or cap1 cap2.
Definition __add__ (cap1 cap2 : Fove_ClientCapabilities) := operator_or cap1 cap2.
Definition __sub__ (cap1 cap2 : Fove_ClientCapabilities) :=
  operator_and cap1 (operator_not cap2).
Definition __contains__ (cap1 cap2 : Fove_ClientCapabilities) : bool :=
  operator_and cap1 cap2 =? cap2.

End ClientCapabilities.

(** ** The buffer protocol helpers *)

Module BufferProtocol.

(** An element type of the helpers, any type with
    [std::is_arithmetic<Elem>]: its size in bytes, which is at least one,
    and its format string, [py::format_descriptor<Elem>::format()]. *)
Record Elem : Type := mkElem {
  sizeof : Z;
  format_descriptor : string;
  sizeof_pos : 0 < sizeof
}.

(** The element types the binding instantiates the helpers and the buffer
    constructors with. *)
Definition c_float : Elem := {| sizeof := 4; format_descriptor := "f"; sizeof_pos := eq_refl |}.
Definition c_int : Elem := {| sizeof := 4; format_descriptor := "i"; sizeof_pos := eq_refl |}.
Definition c_unsigned_int : Elem :=
  {| sizeof := 4; format_descriptor := "I"; sizeof_pos := eq_refl |}.
Definition c_unsigned_char : Elem :=
  {| sizeof := 1; format_descriptor := "B"; sizeof_pos := eq_refl |}.

(** [py::buffer_info]; [ptr] is the address of the first element. *)
Record buffer_info : Type := {
  ptr : Z;
  itemsize : Z;
  format : string;
  ndim : Z;
  shape : list Z;
  strides : list Z
}.

Definition define_1D_buffer_protocol (e : Elem) (data : Z) (Size : nat) : buffer_info :=
  {| ptr := data;
     itemsize := sizeof e;
     format := format_descriptor e;
     ndim := 1;
     shape := [Z.of_nat Size];
     strides := [sizeof e] |}.

Definition define_2D_buffer_protocol (e : Elem) (data : Z) (Rows Cols : nat) : buffer_info :=
  {| ptr := data;
     itemsize := sizeof e;
     format := format_descriptor e;
     ndim := 2;
     shape := [Z.of_nat Rows; Z.of_nat Cols];
     strides := [sizeof e * Z.of_nat Cols; sizeof e] |}.

(** What a consumer of the buffer protocol reads: the byte offset of the
    element at every index tuple, the tuples taken in C (row-major) order. *)
Fixpoint offsets (shape strides : list Z) : list Z :=
  match shape, strides with
  | n :: sh, s :: st =>
      flat_map (fun i => map (Z.add (Z.of_nat i * s)) (offsets sh st))
               (seq 0 (Z.to_nat n))
  | _, _ => [0]
  end.

Definition element_offsets (b : buffer_info) : list Z :=
  offsets (shape b) (strides b).

(** The byte offsets of the [n] elements of a C array of [e], in memory
    order: [(char* )&data[k] - (char* )&data[0]]. *)
Definition native_layout (e : Elem) (n : nat) : list Z :=
  map (fun k => sizeof e * Z.of_nat k) (seq 0 n).

End BufferProtocol.


(** ** C [float]

    IEEE 754 binary32 with round-to-nearest-even, as the generic
    specification of the standard library gives it at precision 24 and
    maximal exponent 128.  Expressions are evaluated operation by operation
    in [float], left to right, as the C++ source writes them. *)

Module Float32.

Definition prec : Z := 24.
Definition emax : Z := 128.

Definition float : Type := spec_float.

Definition fadd : float -> float -> float := SFadd prec emax.
Definition fsub : float -> float -> float := SFsub prec emax.
Definition fmul : float -> float -> float := SFmul prec emax.
Definition fdiv : float -> float -> float := SFdiv prec emax.
Definition fsqrt : float -> float := SFsqrt prec emax.
Definition fneg : float -> float := SFopp.
(** [a == b]: false on NaN, true on zeros of either sign *)
Definition feqb : float -> float -> bool := SFeqb.

(** The float nearest to [m * 2^e]; literals and the conversion of [int]
    constants go through it. *)
Definition of_binary (m e : Z) : float := binary_normalize prec emax m e false.
Definition of_int (z : Z) : float := of_binary z 0.

Definition f0 : float := of_int 0.       (* 0.0f *)
Definition f1 : float := of_int 1.       (* 1.0f *)
Definition f0_5 : float := of_binary 1 (-1). (* 0.5f *)

Declare Scope float32_scope.
Delimit Scope float32_scope with f32.
Infix "+" := fadd : float32_scope.
Infix "-" := fsub : float32_scope.
Infix "*" := fmul : float32_scope.
Infix "/" := fdiv : float32_scope.
Notation "- x" := (fneg x) : float32_scope.
Infix "==" := feqb (at level 70, no associativity) : float32_scope.

End Float32.

(** ** The types of [FoveAPI.h] as the binding uses them

    [FoveAPI.h] is included with [FOVE_STRUCT_VAL(member, default)] expanding
    to the bare member, so the structs are plain aggregates without default
    member initialisers.  Each enum and struct is a module named after the
    C++ type; the fields are those the binding reads or writes. *)

Definition pointer : Type := Z.
Definition nullptr : pointer := 0.

(** A NUL-terminated C string read as [std::string(const char* )], and
    what a C callee sees of [std::string::c_str()]: the characters before
    the first NUL. *)
Fixpoint c_string (s : string) : string :=
  match s with
  | EmptyString => EmptyString
  | String c s' => if Ascii.eqb c "000"%char then EmptyString else String c (c_string s')
  end.

Module Fove_ErrorCode.
Inductive t : Type :=
| None_
| Connect_NotConnected | Connect_RuntimeVersionTooOld | Connect_ClientVersionTooOld
| API_InvalidArgument | API_NotRegistered | API_NullInPointer | API_InvalidEnumValue
| API_NullOutPointersOnly | API_OverlappingOutPointers | API_MissingArgument
| API_Timeout | API_AlreadyInTheDesiredState
| Data_Unreadable | Data_NoUpdate | Data_Uncalibrated | Data_Unreliable | Data_LowAccuracy
| Hardware_Disconnected | Hardware_WrongFirmwareVersion
| Code_NotImplementedYet | Code_FunctionDeprecated
| Position_ObjectNotTracked
| Compositor_NotSwapped | Compositor_UnableToCreateDeviceAndContext
| Compositor_UnableToUseTexture | Compositor_DeviceMismatch
| Compositor_DisconnectedFromRuntime | Compositor_ErrorCreatingTexturesOnDevice
| Compositor_NoEyeSpecifiedForSubmit
| UnknownError
| Object_AlreadyRegistered
| Render_OtherRendererPrioritized
| License_FeatureAccessDenied
| Profile_DoesntExist | Profile_NotAvailable | Profile_InvalidName
| Config_DoesntExist | Config_TypeMismatch
| System_UnknownError | System_PathNotFound | System_AccessDenied.

Definition eq_dec (a b : t) : {a = b} + {a <> b}.
Proof. decide equality. Defined.

(** [error != Fove_ErrorCode::None] *)
Definition is_error (e : t) : bool :=
  match e with None_ => false | _ => true end.
End Fove_ErrorCode.

Module Fove_LogLevel.
Inductive t : Type := Debug | Warning | Error.
End Fove_LogLevel.

Module Fove_Eye.
Inductive t : Type := Left | Right.
End Fove_Eye.

Module Fove_EyeState.
Inductive t : Type := NotDetected | Opened | Closed.
End Fove_EyeState.

Module Fove_CompositorLayerType.
Inductive t : Type := Base | Overlay | Diagnostic.
End Fove_CompositorLayerType.

Module Fove_ColliderType.
Inductive t : Type := Cube | Sphere | Mesh.
Definition eqb (a b : t) : bool :=
  match a, b with
  | Cube, Cube | Sphere, Sphere | Mesh, Mesh => true
  | _, _ => false
  end.
End Fove_ColliderType.

Module Fove_GraphicsAPI.
Inductive t : Type := DirectX | OpenGL | Metal.
End Fove_GraphicsAPI.

Module Fove_AlphaMode.
Inductive t : Type := Auto | One | Sample.
End Fove_AlphaMode.

Module Fove_CalibrationState.
Inductive t : Type :=
| NotStarted | HeadsetAdjustment | WaitingForUser | CollectingData | ProcessingData
| Successful_HighQuality | Successful_MediumQuality | Successful_LowQuality
| Failed_Unknown | Failed_InaccurateData | Failed_NoRenderer | Failed_NoUser
| Failed_Aborted.
End Fove_CalibrationState.

Module Fove_CalibrationMethod.
Inductive t : Type :=
| Default | OnePoint | Spiral | OnePointWithNoGlassesSpiralWithGlasses | ZeroPoint
| DefaultCalibration.
End Fove_CalibrationMethod.

Module Fove_EyeByEyeCalibration.
Inductive t : Type := Default | Disabled | Enabled.
End Fove_EyeByEyeCalibration.

Module Fove_EyeTorsionCalibration.
Inductive t : Type := Default | IfEnabled | Always.
End Fove_EyeTorsionCalibration.

(** [Fove_ObjectGroup] is a flag set over [int], like
    [Fove_ClientCapabilities]. *)
Definition Fove_ObjectGroup : Type := Z.

Import Float32.

Module Fove_Quaternion.
Record t : Type := mk { x : float; y : float; z : float; w : float }.
End Fove_Quaternion.

Module Fove_Vec3.
Record t : Type := mk { x : float; y : float; z : float }.
End Fove_Vec3.

Module Fove_Vec2.
Record t : Type := mk { x : float; y : float }.
End Fove_Vec2.

Module Fove_Vec2i.
Record t : Type := mk { x : Z; y : Z }.
End Fove_Vec2i.

Module Fove_Ray.
Record t : Type := mk { origin : Fove_Vec3.t; direction : Fove_Vec3.t }.
End Fove_Ray.

Module Fove_FrameTimestamp.
Record t : Type := mk { id : Z; timestamp : Z }.
End Fove_FrameTimestamp.

Module Fove_Pose.
Record t : Type := mk {
  id : Z;
  timestamp : Z;
  orientation : Fove_Quaternion.t;
  angularVelocity : Fove_Vec3.t;
  angularAcceleration : Fove_Vec3.t;
  position : Fove_Vec3.t;
  standingPosition : Fove_Vec3.t;
  velocity : Fove_Vec3.t;
  acceleration : Fove_Vec3.t
}.
End Fove_Pose.

(** [float mat[4][4]], row by row *)
Module Fove_Matrix44.
Record t : Type := mk { mat : list (list float) }.
End Fove_Matrix44.

Module Fove_ProjectionParams.
Record t : Type := mk { left : float; right : float; top : float; bottom : float }.
End Fove_ProjectionParams.

Module Fove_BoundingBox.
Record t : Type := mk { center : Fove_Vec3.t; extend : Fove_Vec3.t }.
End Fove_BoundingBox.

Module Fove_ObjectPose.
Record t : Type := mk {
  scale : Fove_Vec3.t;
  rotation : Fove_Quaternion.t;
  position : Fove_Vec3.t;
  velocity : Fove_Vec3.t
}.
End Fove_ObjectPose.

Module Fove_ColliderCube.
Record t : Type := mk { size : Fove_Vec3.t }.
End Fove_ColliderCube.

Module Fove_ColliderSphere.
Record t : Type := mk { radius : float }.
End Fove_ColliderSphere.

Module Fove_ColliderMesh.
Record t : Type := mk {
  vertices : pointer;
  vertexCount : Z;
  indices : pointer;
  triangleCount : Z;
  boundingBox : Fove_BoundingBox.t
}.
End Fove_ColliderMesh.

(** [Fove_ObjectCollider] holds a tag and a C union of the three shapes.
    [shapeDefinition] records the member of the union that was written
    last; the other members then hold no meaningful value. *)
Module Fove_ObjectCollider.
Inductive shape : Type :=
| cube (c : Fove_ColliderCube.t)
| sphere (s : Fove_ColliderSphere.t)
| mesh (m : Fove_ColliderMesh.t).

Record t : Type := mk {
  center : Fove_Vec3.t;
  shapeType : Fove_ColliderType.t;
  shapeDefinition : shape
}.
End Fove_ObjectCollider.

(** [colliders] points into the vector of a [ColliderArray]; the model
    keeps the pointed-to colliders. *)
Module Fove_GazableObject.
Record t : Type := mk {
  id : Z;
  pose : Fove_ObjectPose.t;
  group : Fove_ObjectGroup;
  colliders : list Fove_ObjectCollider.t;
  colliderCount : Z
}.
End Fove_GazableObject.

Module Fove_CameraObject.
Record t : Type := mk { id : Z; pose : Fove_ObjectPose.t; groupMask : Fove_ObjectGroup }.
End Fove_CameraObject.

Module Fove_CompositorLayerCreateInfo.
Record t : Type := mk {
  type : Fove_CompositorLayerType.t;
  disableTimeWarp : bool;
  alphaMode : Fove_AlphaMode.t;
  disableFading : bool;
  disableDistortion : bool
}.
End Fove_CompositorLayerCreateInfo.

Module Fove_CompositorLayer.
Record t : Type := mk { layerId : Z; idealResolutionPerEye : Fove_Vec2i.t }.
End Fove_CompositorLayer.

Module Fove_CompositorTexture.
Record t : Type := mk { graphicsAPI : Fove_GraphicsAPI.t }.
End Fove_CompositorTexture.

Module Fove_DX11Texture.
Record t : Type := mk { parent : Fove_CompositorTexture.t; texture : pointer }.
End Fove_DX11Texture.

Module Fove_GLTexture.
Record t : Type := mk {
  parent : Fove_CompositorTexture.t; textureId : Z; context : pointer }.
End Fove_GLTexture.

Module Fove_MetalTexture.
Record t : Type := mk { parent : Fove_CompositorTexture.t; texture : pointer }.
End Fove_MetalTexture.

Module Fove_TextureBounds.
Record t : Type := mk { left : float; top : float; right : float; bottom : float }.
End Fove_TextureBounds.

Module Fove_CompositorLayerEyeSubmitInfo.
Record t : Type := mk { texInfo : pointer; bounds : Fove_TextureBounds.t }.
End Fove_CompositorLayerEyeSubmitInfo.

Module Fove_CompositorLayerSubmitInfo.
Record t : Type := mk {
  layerId : Z;
  pose : Fove_Pose.t;
  left : Fove_CompositorLayerEyeSubmitInfo.t;
  right : Fove_CompositorLayerEyeSubmitInfo.t
}.
End Fove_CompositorLayerSubmitInfo.

Module Fove_AdapterId.
Record t : Type := mk { lowPart : Z; highPart : Z }.
End Fove_AdapterId.

Module Fove_Buffer.
Record t : Type := mk { data : pointer; length : Z }.
End Fove_Buffer.

(** [Fove_Vec2 outline[12]] *)
Module Fove_EyeShape.
Record t : Type := mk { outline : list Fove_Vec2.t }.
End Fove_EyeShape.

Module Fove_PupilShape.
Record t : Type := mk { center : Fove_Vec2.t; size : Fove_Vec2.t; angle : float }.
End Fove_PupilShape.

Module Fove_BitmapImage.
Record t : Type := mk { timestamp : Z; image : Fove_Buffer.t }.
End Fove_BitmapImage.

Module Fove_CalibrationTarget.
Record t : Type := mk { position : Fove_Vec3.t; recommendedSize : float }.
End Fove_CalibrationTarget.

(** [stateInfo] is a [const char*] on the native side. *)
Module Fove_CalibrationData.
Record t : Type := mk {
  method : Fove_CalibrationMethod.t;
  state : Fove_CalibrationState.t;
  stateInfo : string;
  targetL : Fove_CalibrationTarget.t;
  targetR : Fove_CalibrationTarget.t
}.
End Fove_CalibrationData.

Module Fove_HmdAdjustmentData.
Record t : Type := mk {
  translation : Fove_Vec2.t;
  rotation : float;
  adjustmentNeeded : bool;
  hasTimeout : bool;
  idealPositionL : Fove_Vec2.t;
  idealPositionR : Fove_Vec2.t;
  idealPositionSpanL : float;
  idealPositionSpanR : float;
  estimatedPositionL : Fove_Vec2.t;
  estimatedPositionR : Fove_Vec2.t
}.
End Fove_HmdAdjustmentData.

Module Fove_CalibrationOptions.
Record t : Type := mk {
  lazy : bool;
  restart : bool;
  eyeByEye : Fove_EyeByEyeCalibration.t;
  method : Fove_CalibrationMethod.t;
  eyeTorsion : Fove_EyeTorsionCalibration.t
}.
End Fove_CalibrationOptions.

(** The hashes are [char] arrays holding C strings. *)
Module Fove_Versions.
Record t : Type := mk {
  clientMajor : Z;
  clientMinor : Z;
  clientBuild : Z;
  clientProtocol : Z;
  clientHash : string;
  runtimeMajor : Z;
  runtimeMinor : Z;
  runtimeBuild : Z;
  runtimeHash : string;
  firmware : Z;
  maxFirmware : Z;
  minFirmware : Z;
  tooOldHeadsetConnected : bool
}.
End Fove_Versions.

Module Fove_LicenseInfo.
Record t : Type := mk {
  uuid : list Z;
  expirationYear : Z;
  expirationMonth : Z;
  expirationDay : Z;
  licenseType : string;
  licensee : string
}.
End Fove_LicenseInfo.

Module Fove_HeadsetHardwareInfo.
Record t : Type := mk { serialNumber : string; manufacturer : string; modelName : string }.
End Fove_HeadsetHardwareInfo.

(** ** Helpers of the binding *)

(** [template <typename T> struct Obj]: the mutable box that carries out
    parameters and C arrays across the Python boundary. *)
Record Obj (T : Type) : Type := mkObj { val : T }.
Arguments mkObj {T} val.
Arguments val {T} o.

(** A keyword argument with a default: [py::arg("x") = d]. *)
Definition arg {A : Type} (default : A) (given : option A) : A :=
  match given with
  | Some a => a
  | None => default
  end.

(** The outcome of a lambda that may [throw std::runtime_error(what)];
    pybind11 turns the exception into a Python [RuntimeError]. *)
Inductive except (A : Type) : Type :=
| Ok (a : A)
| Throw (what : string).
Arguments Ok {A} a.
Arguments Throw {A} what.

Definition succeeds {A : Type} (r : except A) : bool :=
  match r with Ok _ => true | Throw _ => false end.

Local Open Scope float32_scope.

(** *** [operator==] on the structs *)

Definition operator_eq_Quaternion (self other : Fove_Quaternion.t) : bool :=
  (Fove_Quaternion.x self == Fove_Quaternion.x other)
  && (Fove_Quaternion.y self == Fove_Quaternion.y other)
  && (Fove_Quaternion.z self == Fove_Quaternion.z other)
  && (Fove_Quaternion.w self == Fove_Quaternion.w other).

Definition operator_eq_Vec3 (self other : Fove_Vec3.t) : bool :=
  (Fove_Vec3.x self == Fove_Vec3.x other)
  && (Fove_Vec3.y self == Fove_Vec3.y other)
  && (Fove_Vec3.z self == Fove_Vec3.z other).

Definition operator_eq_Vec2 (self other : Fove_Vec2.t) : bool :=
  (Fove_Vec2.x self == Fove_Vec2.x other) && (Fove_Vec2.y self == Fove_Vec2.y other).

Definition operator_eq_Vec2i (self other : Fove_Vec2i.t) : bool :=
  (Fove_Vec2i.x self =? Fove_Vec2i.x other)%Z && (Fove_Vec2i.y self =? Fove_Vec2i.y other)%Z.

Definition operator_eq_Ray (self other : Fove_Ray.t) : bool :=
  operator_eq_Vec3 (Fove_Ray.origin self) (Fove_Ray.origin other)
  && operator_eq_Vec3 (Fove_Ray.direction self) (Fove_Ray.direction other).

(** *** The [default_*] helpers *)

Definition default_Quaternion : Fove_Quaternion.t := Fove_Quaternion.mk f0 f0 f0 f1.
Definition default_Vec3 : Fove_Vec3.t := Fove_Vec3.mk f0 f0 f0.
Definition default_Vec2 : Fove_Vec2.t := Fove_Vec2.mk f0 f0.
Definition default_Vec2i : Fove_Vec2i.t := Fove_Vec2i.mk 0 0.
Definition default_Pose : Fove_Pose.t :=
  Fove_Pose.mk 0 0 default_Quaternion default_Vec3 default_Vec3 default_Vec3
               default_Vec3 default_Vec3 default_Vec3.
Definition default_TextureBounds : Fove_TextureBounds.t := Fove_TextureBounds.mk f0 f0 f0 f0.
Definition default_CompositorLayerEyeSubmitInfo : Fove_CompositorLayerEyeSubmitInfo.t :=
  Fove_CompositorLayerEyeSubmitInfo.mk nullptr default_TextureBounds.
Definition default_Buffer : Fove_Buffer.t := Fove_Buffer.mk nullptr 0.
Definition default_ObjectPose : Fove_ObjectPose.t :=
  Fove_ObjectPose.mk (Fove_Vec3.mk (of_int 1) (of_int 1) (of_int 1))
                     default_Quaternion default_Vec3 default_Vec3.
Definition default_CalibrationTarget : Fove_CalibrationTarget.t :=
  Fove_CalibrationTarget.mk (Fove_Vec3.mk (of_int 0) (of_int 0) (of_int 0)) (of_int 0).

(** ** The Python classes

    One module per [py::class_]; [__init__] is the [py::init] constructor
    with its keyword defaults, [None] standing for an argument the caller
    left out. *)

Module Quaternion.
Import Fove_Quaternion.

Definition __init__ (x y z w : option float) : t :=
  mk (arg f0 x) (arg f0 y) (arg f0 z) (arg f1 w).

Definition __eq__ (self other : t) : bool := operator_eq_Quaternion self other.
Definition __ne__ (self other : t) : bool := negb (operator_eq_Quaternion self other).

Definition __mul__ (self other : t) : t :=
  let q1 := self in
  let q2 := other in
  mk (w q1 * x q2 + x q1 * w q2 + y q1 * z q2 - z q1 * y q2)
     (w q1 * y q2 + y q1 * w q2 + z q1 * x q2 - x q1 * z q2)
     (w q1 * z q2 + z q1 * w q2 + x q1 * y q2 - y q1 * x q2)
     (w q1 * w q2 - x q1 * x q2 - y q1 * y q2 - z q1 * z q2).

(** the [float] overload of [__mul__], and [__rmul__] *)
Definition __mul__float (self : t) (other : float) : t :=
  let q := self in
  let a := other in
  mk (a * x q) (a * y q) (a * z q) (a * w q).

Definition __rmul__ (self : t) (other : float) : t :=
  let q := self in
  let a := other in
  mk (a * x q) (a * y q) (a * z q) (a * w q).

Definition __neg__ (self : t) : t :=
  let q := self in
  mk (- x q) (- y q) (- z q) (- w q).

Definition norm2 (self : t) : float :=
  x self * x self + y self * y self + z self * z self + w self * w self.

Definition normalise (self : t) : t :=
  let q := self in
  let a := f1 / fsqrt (norm2 self) in
  mk (a * x q) (a * y q) (a * z q) (a * w q).

Definition conjugate (self : t) : t :=
  let q := self in
  mk (- x q) (- y q) (- z q) (w q).

Definition invert (self : t) : t :=
  let q := self in
  let a := f1 / norm2 self in
  mk ((- a) * x q) ((- a) * y q) ((- a) * z q) (a * w q).

End Quaternion.

Module Vec3.
Import Fove_Vec3.

Definition __init__ (x y z : option float) : t :=
  mk (arg f0 x) (arg f0 y) (arg f0 z).

Definition __eq__ (self other : t) : bool := operator_eq_Vec3 self other.
Definition __ne__ (self other : t) : bool := negb (operator_eq_Vec3 self other).
Definition __add__ (self other : t) : t :=
  mk (x self + x other) (y self + y other) (z self + z other).
Definition __sub__ (self other : t) : t :=
  mk (x self - x other) (y self - y other) (z self - z other).
Definition __mul__ (self : t) (a : float) : t :=
  mk (a * x self) (a * y self) (a * z self).
Definition __rmul__ (a : float) (self : t) : t :=
  mk (a * x self) (a * y self) (a * z self).

End Vec3.

Module Vec2.
Import Fove_Vec2.

Definition __init__ (x y : option float) : t := mk (arg f0 x) (arg f0 y).

Definition __eq__ (self other : t) : bool := operator_eq_Vec2 self other.
Definition __ne__ (self other : t) : bool := negb (operator_eq_Vec2 self other).
Definition __add__ (self other : t) : t := mk (x self + x other) (y self + y other).
Definition __sub__ (self other : t) : t := mk (x self - x other) (y self - y other).
Definition __mul__ (self : t) (a : float) : t := mk (a * x self) (a * y self).
Definition __rmul__ (a : float) (self : t) : t := mk (a * x self) (a * y self).

End Vec2.

(** [int] addition; an overflowing sum is undefined in C++ and is taken
    to wrap here, as the targeted machines do. *)
Module Vec2i.
Import Fove_Vec2i.

Definition __init__ (x y : option Z) : t := mk (arg 0%Z x) (arg 0%Z y).

Definition __eq__ (self other : t) : bool := operator_eq_Vec2i self other.
Definition __ne__ (self other : t) : bool := negb (operator_eq_Vec2i self other).
Definition __add__ (self other : t) : t :=
  mk (CInt.to_int (x self + x other)%Z) (CInt.to_int (y self + y other)%Z).
Definition __sub__ (self other : t) : t :=
  mk (CInt.to_int (x self - x other)%Z) (CInt.to_int (y self - y other)%Z).

End Vec2i.

Module Ray.
Import Fove_Ray.

Definition __init__ (origin direction : option Fove_Vec3.t) : t :=
  mk (arg (Fove_Vec3.mk (of_int 0) (of_int 0) (of_int 0)) origin)
     (arg (Fove_Vec3.mk (of_int 0) (of_int 0) (of_int 1)) direction).

Definition __eq__ (self other : t) : bool := operator_eq_Ray self other.
Definition __ne__ (self other : t) : bool := negb (operator_eq_Ray self other).

End Ray.

Module FrameTimestamp.
Definition __init__ (id timestamp : option Z) : Fove_FrameTimestamp.t :=
  Fove_FrameTimestamp.mk (arg 0%Z id) (arg 0%Z timestamp).
End FrameTimestamp.

Module Pose.
Definition __init__ (id timestamp : option Z) (orientation : option Fove_Quaternion.t)
    (angularVelocity angularAcceleration position standingPosition velocity
       acceleration : option Fove_Vec3.t) : Fove_Pose.t :=
  Fove_Pose.mk (arg 0%Z id) (arg 0%Z timestamp)
               (arg default_Quaternion orientation)
               (arg default_Vec3 angularVelocity)
               (arg default_Vec3 angularAcceleration)
               (arg default_Vec3 position)
               (arg default_Vec3 standingPosition)
               (arg default_Vec3 velocity)
               (arg default_Vec3 acceleration).
End Pose.

Module ProjectionParams.
Definition __init__ (left right top bottom : option float) : Fove_ProjectionParams.t :=
  Fove_ProjectionParams.mk (arg (- f1) left) (arg f1 right) (arg f1 top) (arg (- f1) bottom).
End ProjectionParams.

Module BoundingBox.
Definition __init__ (center extend : option Fove_Vec3.t) : Fove_BoundingBox.t :=
  Fove_BoundingBox.mk (arg default_Vec3 center) (arg default_Vec3 extend).
End BoundingBox.

Module ObjectPose.
Definition __init__ (scale : option Fove_Vec3.t) (rotation : option Fove_Quaternion.t)
    (position velocity : option Fove_Vec3.t) : Fove_ObjectPose.t :=
  Fove_ObjectPose.mk (arg (Fove_Vec3.mk (of_int 1) (of_int 1) (of_int 1)) scale)
                     (arg default_Quaternion rotation)
                     (arg default_Vec3 position)
                     (arg default_Vec3 velocity).
End ObjectPose.

Module ColliderCube.
Definition __init__ (size : option Fove_Vec3.t) : Fove_ColliderCube.t :=
  Fove_ColliderCube.mk (arg (Fove_Vec3.mk (of_int 1) (of_int 1) (of_int 1)) size).
End ColliderCube.

Module ColliderSphere.
Definition __init__ (radius : option float) : Fove_ColliderSphere.t :=
  Fove_ColliderSphere.mk (arg f0_5 radius).
End ColliderSphere.

Module CompositorLayerCreateInfo.
Definition __init__ (type : option Fove_CompositorLayerType.t) (disableTimeWarp : option bool)
    (alphaMode : option Fove_AlphaMode.t) (disableFading disableDistortion : option bool)
    : Fove_CompositorLayerCreateInfo.t :=
  Fove_CompositorLayerCreateInfo.mk
    (arg Fove_CompositorLayerType.Base type)
    (arg false disableTimeWarp)
    (arg Fove_AlphaMode.Auto alphaMode)
    (arg false disableFading)
    (arg false disableDistortion).
End CompositorLayerCreateInfo.

Module CompositorLayer.
Definition __init__ (layerId : option Z) (idealResolutionPerEye : option Fove_Vec2i.t)
    : Fove_CompositorLayer.t :=
  Fove_CompositorLayer.mk (arg 0%Z layerId) (arg default_Vec2i idealResolutionPerEye).
End CompositorLayer.

Module CompositorTexture.
Definition __init__ (graphicsAPI : option Fove_GraphicsAPI.t) : Fove_CompositorTexture.t :=
  Fove_CompositorTexture.mk (arg Fove_GraphicsAPI.DirectX graphicsAPI).
End CompositorTexture.

Module DX11Texture.
Definition __init__ : Fove_DX11Texture.t :=
  Fove_DX11Texture.mk (Fove_CompositorTexture.mk Fove_GraphicsAPI.DirectX) nullptr.
End DX11Texture.

Module GLTexture.
Definition __init__ : Fove_GLTexture.t :=
  Fove_GLTexture.mk (Fove_CompositorTexture.mk Fove_GraphicsAPI.OpenGL) 0 nullptr.
End GLTexture.

Module MetalTexture.
Definition __init__ : Fove_MetalTexture.t :=
  Fove_MetalTexture.mk (Fove_CompositorTexture.mk Fove_GraphicsAPI.Metal) nullptr.
End MetalTexture.

Module TextureBounds.
Definition __init__ (left top right bottom : option float) : Fove_TextureBounds.t :=
  Fove_TextureBounds.mk (arg f0 left) (arg f0 top) (arg f0 right) (arg f0 bottom).
End TextureBounds.

Module CompositorLayerEyeSubmitInfo.
Definition __init__ (texInfo : option pointer) (bounds : option Fove_TextureBounds.t)
    : Fove_CompositorLayerEyeSubmitInfo.t :=
  Fove_CompositorLayerEyeSubmitInfo.mk (arg nullptr texInfo) (arg default_TextureBounds bounds).
End CompositorLayerEyeSubmitInfo.

Module CompositorLayerSubmitInfo.
Definition __init__ (layerId : option Z) (pose : option Fove_Pose.t)
    (left right : option Fove_CompositorLayerEyeSubmitInfo.t)
    : Fove_CompositorLayerSubmitInfo.t :=
  Fove_CompositorLayerSubmitInfo.mk
    (arg 0%Z layerId)
    (arg default_Pose pose)
    (arg default_CompositorLayerEyeSubmitInfo left)
    (arg default_CompositorLayerEyeSubmitInfo right).
End CompositorLayerSubmitInfo.

Module Buffer.
Definition __init__ (data : option pointer) (length : option Z) : Fove_Buffer.t :=
  Fove_Buffer.mk (arg nullptr data) (arg 0%Z length).
End Buffer.

Module PupilShape.
Definition __init__ (center size : option Fove_Vec2.t) (angle : option float)
    : Fove_PupilShape.t :=
  Fove_PupilShape.mk (arg default_Vec2 center) (arg default_Vec2 size) (arg f0 angle).
End PupilShape.

Module BitmapImage.
Definition __init__ (timestamp : option Z) (image : option Fove_Buffer.t) : Fove_BitmapImage.t :=
  Fove_BitmapImage.mk (arg 0%Z timestamp) (arg default_Buffer image).
End BitmapImage.

Module CalibrationTarget.
Definition __init__ (position : option Fove_Vec3.t) (scale : option float)
    : Fove_CalibrationTarget.t :=
  Fove_CalibrationTarget.mk (arg default_Vec3 position) (arg (of_int 0) scale).
End CalibrationTarget.

Module HmdAdjustmentData.
Definition __init__ (translation : option Fove_Vec2.t) (rotation : option float)
    (adjustmentNeeded hasTimeout : option bool)
    (idealPositionL idealPositionR : option Fove_Vec2.t)
    (idealPositionSpanL idealPositionSpanR : option float)
    (estimatedPositionL estimatedPositionR : option Fove_Vec2.t)
    : Fove_HmdAdjustmentData.t :=
  Fove_HmdAdjustmentData.mk
    (arg default_Vec2 translation) (arg (of_int 0) rotation)
    (arg false adjustmentNeeded) (arg false hasTimeout)
    (arg default_Vec2 idealPositionL) (arg default_Vec2 idealPositionR)
    (arg (of_int 0) idealPositionSpanL) (arg (of_int 0) idealPositionSpanR)
    (arg default_Vec2 estimatedPositionL) (arg default_Vec2 estimatedPositionR).
End HmdAdjustmentData.

Module CalibrationOptions.
Definition __init__ (lazy restart : option bool)
    (eyeByEye : option Fove_EyeByEyeCalibration.t)
    (method : option Fove_CalibrationMethod.t)
    (eyeTorsion : option Fove_EyeTorsionCalibration.t) : Fove_CalibrationOptions.t :=
  Fove_CalibrationOptions.mk
    (arg false lazy) (arg false restart)
    (arg Fove_EyeByEyeCalibration.Default eyeByEye)
    (arg Fove_CalibrationMethod.Default method)
    (arg Fove_EyeTorsionCalibration.Default eyeTorsion).
End CalibrationOptions.

(** [Bool], [Int], [Float], [String], [EyeStateObj], [CalibrationStateObj]:
    the boxes of [defstruct_Wrappers]. *)
Module Wrappers.
Module Bool.
Definition __init__ (val : option bool) : Obj bool := mkObj (arg false val).
End Bool.

Module Int.
Definition __init__ (val : option Z) : Obj Z := mkObj (arg 0%Z val).
Definition __neg__ (self : Obj Z) : Obj Z := mkObj (CInt.to_int (- val self)%Z).
End Int.

Module Float.
Definition __init__ (val : option float) : Obj float := mkObj (arg f0 val).
Definition __neg__ (self : Obj float) : Obj float := mkObj (- val self).
End Float.

Module String.
Definition __init__ (val : option string) : Obj string := mkObj (arg ""%string val).
End String.

Module EyeStateObj.
Definition __init__ (val : option Fove_EyeState.t) : Obj Fove_EyeState.t :=
  mkObj (arg Fove_EyeState.NotDetected val).
End EyeStateObj.

Module CalibrationStateObj.
Definition __init__ (val : option Fove_CalibrationState.t) : Obj Fove_CalibrationState.t :=
  mkObj (arg Fove_CalibrationState.NotStarted val).
End CalibrationStateObj.

End Wrappers.

Local Close Scope float32_scope.

(** ** Types the binding defines for itself *)

Local Open Scope float32_scope.

(** [struct Python_Versions], with its default member initialisers *)
Module Python_Versions.
Record t : Type := mk {
  clientMajor : Z;
  clientMinor : Z;
  clientBuild : Z;
  clientProtocol : Z;
  clientHash : string;
  runtimeMajor : Z;
  runtimeMinor : Z;
  runtimeBuild : Z;
  runtimeHash : string;
  firmware : Z;
  maxFirmware : Z;
  minFirmware : Z;
  tooOldHeadsetConnected : bool
}.
End Python_Versions.

Module Versions.
Definition __init__ (clientMajor clientMinor clientBuild clientProtocol : option Z)
    (clientHash : option string) (runtimeMajor runtimeMinor runtimeBuild : option Z)
    (runtimeHash : option string) (firmware maxFirmware minFirmware : option Z)
    (tooOldHeadsetConnected : option bool) : Python_Versions.t :=
  Python_Versions.mk
    (arg (-1)%Z clientMajor) (arg (-1)%Z clientMinor) (arg (-1)%Z clientBuild)
    (arg (-1)%Z clientProtocol) (arg ""%string clientHash)
    (arg (-1)%Z runtimeMajor) (arg (-1)%Z runtimeMinor) (arg (-1)%Z runtimeBuild)
    (arg ""%string runtimeHash)
    (arg (-1)%Z firmware) (arg (-1)%Z maxFirmware) (arg (-1)%Z minFirmware)
    (arg false tooOldHeadsetConnected).
End Versions.

Module Python_LicenseInfo.
Record t : Type := mk {
  uuid : string;
  expirationYear : Z;
  expirationMonth : Z;
  expirationDay : Z;
  licenseType : string;
  licensee : string
}.
(** the value of a default-constructed [Python_LicenseInfo] *)
Definition default : t := mk "" 0 0 0 "" "".
End Python_LicenseInfo.

Module Python_HeadsetHardwareInfo.
Record t : Type := mk { serialNumber : string; manufacturer : string; modelName : string }.
Definition default : t := mk "" "" "".
End Python_HeadsetHardwareInfo.

(** [py::init<>()] over the two structs above default-constructs them. *)
Module LicenseInfo.
Definition __init__ : Python_LicenseInfo.t := Python_LicenseInfo.default.
End LicenseInfo.

Module HeadsetHardwareInfo.
Definition __init__ : Python_HeadsetHardwareInfo.t := Python_HeadsetHardwareInfo.default.
End HeadsetHardwareInfo.

(** Registered on Windows builds only. *)
(** The constructor of [AdapterId] is registered under [#ifdef _WIN32]
    only; in a build without [_WIN32] the class has no constructor and
    [AdapterId()] raises a [TypeError]: there is no value, [None]. *)
Module AdapterId.
Definition __init__ (_WIN32 : bool) (lowPart highPart : option Z)
    : option Fove_AdapterId.t :=
  if _WIN32 then Some (Fove_AdapterId.mk (arg 0%Z lowPart) (arg 0%Z highPart))
  else None.
End AdapterId.

(** The classes registered with [py::init<>()] alone.  pybind11 builds
    the object with [new T()]: the value is the value-initialised [T].
    [bindings.cpp] includes [FoveAPI.h] with [FOVE_STRUCT_VAL] expanding to
    the bare member, so the structs have no initialisers of their own and
    value-initialisation zeroes every member: a null pointer in the boxes
    of [Fove_Headset*] and [Fove_Compositor*], sixteen zeros in the
    [float[4][4]] of [Fove_Matrix44], twelve zero points in the [outline]
    of [Fove_EyeShape]. *)
Module Fove_Headset.
Definition __init__ : Obj pointer := mkObj nullptr.
End Fove_Headset.

Module Fove_Compositor.
Definition __init__ : Obj pointer := mkObj nullptr.
End Fove_Compositor.

Module Matrix44.
Definition __init__ : Obj Fove_Matrix44.t :=
  mkObj (Fove_Matrix44.mk (repeat (repeat f0 4) 4)).
End Matrix44.

Module EyeShape.
Definition __init__ : Obj Fove_EyeShape.t :=
  mkObj (Fove_EyeShape.mk (repeat (Fove_Vec2.mk f0 f0) 12)).
End EyeShape.

(** [struct CalibrationData] and its [FromNative] *)
Module CalibrationData.
Record t : Type := mk {
  method : Fove_CalibrationMethod.t;
  state : Fove_CalibrationState.t;
  stateInfo : string;
  targetL : Fove_CalibrationTarget.t;
  targetR : Fove_CalibrationTarget.t
}.

Definition FromNative (nativeData : Fove_CalibrationData.t) : t :=
  mk (Fove_CalibrationData.method nativeData)
     (Fove_CalibrationData.state nativeData)
     (c_string (Fove_CalibrationData.stateInfo nativeData))
     (Fove_CalibrationData.targetL nativeData)
     (Fove_CalibrationData.targetR nativeData).

Definition __init__ (method : option Fove_CalibrationMethod.t)
    (state : option Fove_CalibrationState.t) (stateInfo : option string)
    (targetL targetR : option Fove_CalibrationTarget.t) : t :=
  mk (arg Fove_CalibrationMethod.Spiral method)
     (arg Fove_CalibrationState.NotStarted state)
     (arg ""%string stateInfo)
     (arg default_CalibrationTarget targetL)
     (arg default_CalibrationTarget targetR).
End CalibrationData.

(** *** Mesh buffers *)

(** What [py::buffer::request()] hands to the constructors: the
    [py::buffer_info] of the Python object. *)
Import BufferProtocol.

Module VertexBuffer.
Record t : Type := mk { vertices : pointer; vertexCount : Z }.

Definition __init__ (info : buffer_info) : except t :=
  if negb (String.eqb (format info) (format_descriptor c_float)) then
    Throw ("Incompatible format: expected a float array! received:" ++ format info)
  else if negb (ndim info =? 2)%Z then
    Throw "Incompatible buffer dimension!"
  else if negb (nth 1 (shape info) 0 =? 3)%Z then
    Throw "Vertex should be composed of 3 components (x,y,z)!"
  else if negb (nth 0 (strides info) 0 =? 3 * sizeof c_float)%Z then
    Throw "Row stride should be 3 floats"
  else if negb (nth 1 (strides info) 0 =? sizeof c_float)%Z then
    Throw "Col stride should be 1 float"
  else
    Ok (mk (ptr info) (CInt.to_unsigned_int (nth 0 (shape info) 0 * 3)%Z)).
End VertexBuffer.

Module IndexBuffer.
Record t : Type := mk { indices : pointer; triangleCount : Z }.

Definition __init__ (info : buffer_info) : except t :=
  if negb (ndim info =? 1)%Z then
    Throw "Incompatible buffer dimension!"
  else if negb (nth 0 (strides info) 0 =? sizeof c_unsigned_int)%Z then
    Throw "Row stride should be 1 unsigned int"
  else if negb (Z.rem (nth 0 (shape info) 0) 3 =? 0)%Z then
    Throw "Index buffer index count should be a multiple of 3 as it represent triangles"
  else
    Ok (mk (ptr info) (CInt.to_unsigned_int (Z.quot (nth 0 (shape info) 0) 3))).
End IndexBuffer.

Module ColliderMesh.
Import Fove_ColliderMesh.

(** [py::init<>()]: the value-initialised [Fove_ColliderMesh], every
    member zero. *)
Definition __init__ : t :=
  mk nullptr 0 nullptr 0
     (Fove_BoundingBox.mk (Fove_Vec3.mk f0 f0 f0) (Fove_Vec3.mk f0 f0 f0)).

Definition get_vertexBuffer (self : t) : VertexBuffer.t :=
  VertexBuffer.mk (vertices self) (vertexCount self).
Definition set_vertexBuffer (self : t) (value : VertexBuffer.t) : t :=
  mk (VertexBuffer.vertices value) (VertexBuffer.vertexCount value)
     (indices self) (triangleCount self) (boundingBox self).
Definition get_indexBuffer (self : t) : IndexBuffer.t :=
  IndexBuffer.mk (indices self) (triangleCount self).
Definition set_indexBuffer (self : t) (value : IndexBuffer.t) : t :=
  mk (vertices self) (vertexCount self)
     (IndexBuffer.indices value) (IndexBuffer.triangleCount value) (boundingBox self).
End ColliderMesh.

(** *** [ObjectCollider]: the properties over the tagged union

    A getter first compares [shapeType] and throws on a mismatch; it then
    reads its member of the union.  Reading a member other than the one
    written last has no defined value: the getter then yields [None]. *)
Module ObjectCollider.
Import Fove_ObjectCollider.

(** [py::init<Fove_Vec3>()] initialises the aggregate from [center] alone.
    What the tag and the union then hold is fixed by [FoveAPI.h], which
    declares them, and is taken as parameters. *)
Definition __init__ (shapeType0 : Fove_ColliderType.t) (shapeDefinition0 : shape)
    (center : option Fove_Vec3.t) : t :=
  mk (arg default_Vec3 center) shapeType0 shapeDefinition0.

Definition get_cubeDefinition (self : t) : except (option Fove_ColliderCube.t) :=
  if negb (Fove_ColliderType.eqb (shapeType self) Fove_ColliderType.Cube) then
    Throw "Error the collider is not of cube type"
  else
    Ok (match shapeDefinition self with cube c => Some c | _ => None end).

Definition set_cubeDefinition (self : t) (value : Fove_ColliderCube.t) : t :=
  mk (center self) Fove_ColliderType.Cube (cube value).

Definition get_sphereDefinition (self : t) : except (option Fove_ColliderSphere.t) :=
  if negb (Fove_ColliderType.eqb (shapeType self) Fove_ColliderType.Sphere) then
    Throw "Error the collider is not of sphere type"
  else
    Ok (match shapeDefinition self with sphere s => Some s | _ => None end).

Definition set_sphereDefinition (self : t) (value : Fove_ColliderSphere.t) : t :=
  mk (center self) Fove_ColliderType.Sphere (sphere value).

Definition get_meshDefinition (self : t) : except (option Fove_ColliderMesh.t) :=
  if negb (Fove_ColliderType.eqb (shapeType self) Fove_ColliderType.Mesh) then
    Throw "Error the collider is not of mesh type"
  else
    Ok (match shapeDefinition self with mesh m => Some m | _ => None end).

Definition set_meshDefinition (self : t) (value : Fove_ColliderMesh.t) : t :=
  mk (center self) Fove_ColliderType.Mesh (mesh value).

End ObjectCollider.

(** [struct ColliderArray] *)
Module ColliderArray.
Record t : Type := mk { colliders : list Fove_ObjectCollider.t }.
Definition __init__ : t := mk [].
Definition add (colliderArray : t) (collider : Fove_ObjectCollider.t) : t :=
  mk (colliders colliderArray ++ [collider]).
End ColliderArray.

(** [fove_ObjectIdInvalid] and [Fove_ObjectGroup::Group0] are constants of
    [FoveAPI.h]; the constructors take them as parameters. *)
Module GazableObject.
Definition __init__ (fove_ObjectIdInvalid : Z) (Group0 : Fove_ObjectGroup)
    (id : option Z) (pose : option Fove_ObjectPose.t) (group : option Fove_ObjectGroup)
    : Fove_GazableObject.t :=
  Fove_GazableObject.mk (arg fove_ObjectIdInvalid id) (arg default_ObjectPose pose)
                        (arg Group0 group) [] 0.

Definition setColliders (self : Fove_GazableObject.t) (value : ColliderArray.t)
    : Fove_GazableObject.t :=
  Fove_GazableObject.mk
    (Fove_GazableObject.id self) (Fove_GazableObject.pose self)
    (Fove_GazableObject.group self)
    (ColliderArray.colliders value)
    (CInt.to_unsigned_int (Z.of_nat (List.length (ColliderArray.colliders value)))).
End GazableObject.

Module CameraObject.
Definition __init__ (fove_ObjectIdInvalid : Z)
    (id : option Z) (pose : option Fove_ObjectPose.t) (groupMask : option Fove_ObjectGroup)
    : Fove_CameraObject.t :=
  Fove_CameraObject.mk (arg fove_ObjectIdInvalid id) (arg default_ObjectPose pose)
                       (arg (CInt.to_int 4294967295) groupMask).
End CameraObject.

Local Close Scope float32_scope.

(** ** The native library and the wrappers of [bind_CAPIs]

    The FOVE client library is an external collaborator.  A wrapper is a
    program over the entry points [fove_*]: each call names the entry point
    with its value arguments, carries what the out parameters hold before
    the call, and continues with the returned [Fove_ErrorCode] and what the
    out parameters hold after it. *)

Module CAPI.

(** [using Headset = Obj<Fove_Headset*>], [using Compositor = Obj<Fove_Compositor*>] *)
Definition Headset : Type := Obj pointer.
Definition Compositor : Type := Obj pointer.

(** The entry points, indexed by the type of their out parameters. *)
Inductive call : Type -> Type :=
| fove_logText (level : Fove_LogLevel.t) (utf8Text : string) : call unit
| fove_createHeadset (capabilities : ClientCapabilities.Fove_ClientCapabilities)
    : call pointer
| fove_Headset_destroy (headset : pointer) : call unit
| fove_Headset_isHardwareConnected (headset : pointer) : call bool
| fove_Headset_isMotionReady (headset : pointer) : call bool
| fove_Headset_checkSoftwareVersions (headset : pointer) : call unit
| fove_Headset_querySoftwareVersions (headset : pointer) : call Fove_Versions.t
| fove_Headset_queryLicenses (headset : pointer)
    : call (option (list Fove_LicenseInfo.t) * Z)
| fove_Headset_queryHardwareInfo (headset : pointer) : call Fove_HeadsetHardwareInfo.t
| fove_Headset_registerCapabilities (headset : pointer)
    (caps : ClientCapabilities.Fove_ClientCapabilities) : call unit
| fove_Headset_registerPassiveCapabilities (headset : pointer)
    (caps : ClientCapabilities.Fove_ClientCapabilities) : call unit
| fove_Headset_unregisterCapabilities (headset : pointer)
    (caps : ClientCapabilities.Fove_ClientCapabilities) : call unit
| fove_Headset_unregisterPassiveCapabilities (headset : pointer)
    (caps : ClientCapabilities.Fove_ClientCapabilities) : call unit
| fove_Headset_waitForProcessedEyeFrame (headset : pointer) : call unit
| fove_Headset_fetchEyeTrackingData (headset : pointer)
    : call (option Fove_FrameTimestamp.t)
| fove_Headset_fetchEyesImage (headset : pointer) : call (option Fove_FrameTimestamp.t)
| fove_Headset_getEyeTrackingDataTimestamp (headset : pointer)
    : call (option Fove_FrameTimestamp.t)
| fove_Headset_getEyesImageTimestamp (headset : pointer)
    : call (option Fove_FrameTimestamp.t)
| fove_Headset_getGazeVector (headset : pointer) (eye : Fove_Eye.t) : call Fove_Vec3.t
| fove_Headset_getGazeVectorRaw (headset : pointer) (eye : Fove_Eye.t)
    : call Fove_Vec3.t
| fove_Headset_getGazeScreenPosition (headset : pointer) (eye : Fove_Eye.t)
    : call Fove_Vec2.t
| fove_Headset_getGazeScreenPositionCombined (headset : pointer) : call Fove_Vec2.t
| fove_Headset_getCombinedGazeRay (headset : pointer) : call Fove_Ray.t
| fove_Headset_getCombinedGazeDepth (headset : pointer) : call float
| fove_Headset_isUserShiftingAttention (headset : pointer) : call bool
| fove_Headset_getEyeState (headset : pointer) (eye : Fove_Eye.t) : call Fove_EyeState.t
| fove_Headset_isEyeBlinking (headset : pointer) (eye : Fove_Eye.t) : call bool
| fove_Headset_getEyeBlinkCount (headset : pointer) (eye : Fove_Eye.t) : call Z
| fove_Headset_isEyeTrackingEnabled (headset : pointer) : call bool
| fove_Headset_isEyeTrackingCalibrated (headset : pointer) : call bool
| fove_Headset_isEyeTrackingCalibrating (headset : pointer) : call bool
| fove_Headset_isEyeTrackingCalibratedForGlasses (headset : pointer) : call bool
| fove_Headset_isHmdAdjustmentGuiVisible (headset : pointer) : call bool
| fove_Headset_hasHmdAdjustmentGuiTimeout (headset : pointer) : call bool
| fove_Headset_isEyeTrackingReady (headset : pointer) : call bool
| fove_Headset_isUserPresent (headset : pointer) : call bool
| fove_Headset_getEyesImage (headset : pointer) : call Fove_BitmapImage.t
| fove_Headset_getUserIPD (headset : pointer) : call float
| fove_Headset_getUserIOD (headset : pointer) : call float
| fove_Headset_getPupilRadius (headset : pointer) (eye : Fove_Eye.t) : call float
| fove_Headset_getIrisRadius (headset : pointer) (eye : Fove_Eye.t) : call float
| fove_Headset_getEyeballRadius (headset : pointer) (eye : Fove_Eye.t) : call float
| fove_Headset_getEyeTorsion (headset : pointer) (eye : Fove_Eye.t) : call float
| fove_Headset_getEyeShape (headset : pointer) (eye : Fove_Eye.t) : call Fove_EyeShape.t
| fove_Headset_getPupilShape (headset : pointer) (eye : Fove_Eye.t)
    : call Fove_PupilShape.t
| fove_Headset_startHmdAdjustmentProcess (headset : pointer) (lazy : bool) : call unit
| fove_Headset_tickHmdAdjustmentProcess (headset : pointer) (deltaTime : float)
    (isVisible : bool) : call Fove_HmdAdjustmentData.t
| fove_Headset_startEyeTrackingCalibration (headset : pointer)
    (options : Fove_CalibrationOptions.t) : call unit
| fove_Headset_stopEyeTrackingCalibration (headset : pointer) : call unit
| fove_Headset_getEyeTrackingCalibrationState (headset : pointer)
    : call Fove_CalibrationState.t
| fove_Headset_getEyeTrackingCalibrationStateDetails (headset : pointer)
    : call (list Fove_CalibrationData.t)
| fove_Headset_tickEyeTrackingCalibration (headset : pointer) (deltaTime : float)
    (isVisible : bool) : call (list Fove_CalibrationData.t)
| fove_Headset_getGazedObjectId (headset : pointer) : call Z
| fove_Headset_registerGazableObject (headset : pointer)
    (gazableObj : Fove_GazableObject.t) : call unit
| fove_Headset_updateGazableObject (headset : pointer) (id : Z)
    (pose : Fove_ObjectPose.t) : call unit
| fove_Headset_removeGazableObject (headset : pointer) (id : Z) : call unit
| fove_Headset_registerCameraObject (headset : pointer)
    (cameraObj : Fove_CameraObject.t) : call unit
| fove_Headset_updateCameraObject (headset : pointer) (id : Z)
    (pose : Fove_ObjectPose.t) : call unit
| fove_Headset_removeCameraObject (headset : pointer) (id : Z) : call unit
| fove_Headset_tareOrientationSensor (headset : pointer) : call unit
| fove_Headset_isPositionReady (headset : pointer) : call bool
| fove_Headset_tarePositionSensors (headset : pointer) : call unit
| fove_Headset_fetchPoseData (headset : pointer) : call (option Fove_FrameTimestamp.t)
| fove_Headset_fetchPositionImage (headset : pointer)
    : call (option Fove_FrameTimestamp.t)
| fove_Headset_getPoseDataTimestamp (headset : pointer)
    : call (option Fove_FrameTimestamp.t)
| fove_Headset_getPositionImageTimestamp (headset : pointer)
    : call (option Fove_FrameTimestamp.t)
| fove_Headset_getPose (headset : pointer) : call Fove_Pose.t
| fove_Headset_getPositionImage (headset : pointer) : call Fove_BitmapImage.t
| fove_Headset_getProjectionMatricesLH (headset : pointer) (zNear : float)
    (zFar : float) : call (Fove_Matrix44.t * Fove_Matrix44.t)
| fove_Headset_getProjectionMatricesRH (headset : pointer) (zNear : float)
    (zFar : float) : call (Fove_Matrix44.t * Fove_Matrix44.t)
| fove_Headset_getRawProjectionValues (headset : pointer)
    : call (Fove_ProjectionParams.t * Fove_ProjectionParams.t)
| fove_Headset_getEyeToHeadMatrices (headset : pointer)
    : call (Fove_Matrix44.t * Fove_Matrix44.t)
| fove_Headset_getRenderIOD (headset : pointer) : call float
| fove_Headset_createProfile (headset : pointer) (profileName : string) : call unit
| fove_Headset_renameProfile (headset : pointer) (oldName : string) (newName : string)
    : call unit
| fove_Headset_deleteProfile (headset : pointer) (profileName : string) : call unit
| fove_Headset_listProfiles (headset : pointer) : call (list string)
| fove_Headset_setCurrentProfile (headset : pointer) (profileName : string) : call unit
| fove_Headset_queryCurrentProfile (headset : pointer) : call (list string)
| fove_Headset_queryProfileDataPath (headset : pointer) (profileName : string)
    : call (list string)
| fove_Headset_hasAccessToFeature (headset : pointer) (featureName : string) : call bool
| fove_Headset_activateLicense (headset : pointer) (licenseKey : string) : call unit
| fove_Headset_deactivateLicense (headset : pointer) (licenseData : string) : call unit
| fove_Headset_createCompositor (headset : pointer) : call pointer
| fove_Compositor_destroy (compositor : pointer) : call unit
| fove_Compositor_createLayer (compositor : pointer)
    (layerInfo : Fove_CompositorLayerCreateInfo.t) : call Fove_CompositorLayer.t
| fove_Compositor_submit (compositor : pointer)
    (submitInfo : Fove_CompositorLayerSubmitInfo.t) (layerCount : Z) : call unit
| fove_Compositor_waitForRenderPose (compositor : pointer) : call Fove_Pose.t
| fove_Compositor_getLastRenderPose (compositor : pointer) : call Fove_Pose.t
| fove_Compositor_isReady (compositor : pointer) : call bool
| fove_Compositor_queryAdapterId (compositor : pointer) : call Fove_AdapterId.t
| fove_Config_getValue_bool (key : string) : call bool
| fove_Config_getValue_int (key : string) : call Z
| fove_Config_getValue_float (key : string) : call float
| fove_Config_getValue_string (key : string) : call (list string)
| fove_Config_setValue_bool (key : string) (value : bool) : call unit
| fove_Config_setValue_int (key : string) (value : Z) : call unit
| fove_Config_setValue_float (key : string) (value : float) : call unit
| fove_Config_setValue_string (key : string) (value : string) : call unit
| fove_Config_clearValue (key : string) : call unit.

Definition entry_name {O : Type} (c : call O) : string :=
  match c with
  | fove_logText _ _ => "fove_logText"
  | fove_createHeadset _ => "fove_createHeadset"
  | fove_Headset_destroy _ => "fove_Headset_destroy"
  | fove_Headset_isHardwareConnected _ => "fove_Headset_isHardwareConnected"
  | fove_Headset_isMotionReady _ => "fove_Headset_isMotionReady"
  | fove_Headset_checkSoftwareVersions _ => "fove_Headset_checkSoftwareVersions"
  | fove_Headset_querySoftwareVersions _ => "fove_Headset_querySoftwareVersions"
  | fove_Headset_queryLicenses _ => "fove_Headset_queryLicenses"
  | fove_Headset_queryHardwareInfo _ => "fove_Headset_queryHardwareInfo"
  | fove_Headset_registerCapabilities _ _ => "fove_Headset_registerCapabilities"
  | fove_Headset_registerPassiveCapabilities _ _ => "fove_Headset_registerPassiveCapabilities"
  | fove_Headset_unregisterCapabilities _ _ => "fove_Headset_unregisterCapabilities"
  | fove_Headset_unregisterPassiveCapabilities _ _ => "fove_Headset_unregisterPassiveCapabilities"
  | fove_Headset_waitForProcessedEyeFrame _ => "fove_Headset_waitForProcessedEyeFrame"
  | fove_Headset_fetchEyeTrackingData _ => "fove_Headset_fetchEyeTrackingData"
  | fove_Headset_fetchEyesImage _ => "fove_Headset_fetchEyesImage"
  | fove_Headset_getEyeTrackingDataTimestamp _ => "fove_Headset_getEyeTrackingDataTimestamp"
  | fove_Headset_getEyesImageTimestamp _ => "fove_Headset_getEyesImageTimestamp"
  | fove_Headset_getGazeVector _ _ => "fove_Headset_getGazeVector"
  | fove_Headset_getGazeVectorRaw _ _ => "fove_Headset_getGazeVectorRaw"
  | fove_Headset_getGazeScreenPosition _ _ => "fove_Headset_getGazeScreenPosition"
  | fove_Headset_getGazeScreenPositionCombined _ => "fove_Headset_getGazeScreenPositionCombined"
  | fove_Headset_getCombinedGazeRay _ => "fove_Headset_getCombinedGazeRay"
  | fove_Headset_getCombinedGazeDepth _ => "fove_Headset_getCombinedGazeDepth"
  | fove_Headset_isUserShiftingAttention _ => "fove_Headset_isUserShiftingAttention"
  | fove_Headset_getEyeState _ _ => "fove_Headset_getEyeState"
  | fove_Headset_isEyeBlinking _ _ => "fove_Headset_isEyeBlinking"
  | fove_Headset_getEyeBlinkCount _ _ => "fove_Headset_getEyeBlinkCount"
  | fove_Headset_isEyeTrackingEnabled _ => "fove_Headset_isEyeTrackingEnabled"
  | fove_Headset_isEyeTrackingCalibrated _ => "fove_Headset_isEyeTrackingCalibrated"
  | fove_Headset_isEyeTrackingCalibrating _ => "fove_Headset_isEyeTrackingCalibrating"
  | fove_Headset_isEyeTrackingCalibratedForGlasses _ => "fove_Headset_isEyeTrackingCalibratedForGlasses"
  | fove_Headset_isHmdAdjustmentGuiVisible _ => "fove_Headset_isHmdAdjustmentGuiVisible"
  | fove_Headset_hasHmdAdjustmentGuiTimeout _ => "fove_Headset_hasHmdAdjustmentGuiTimeout"
  | fove_Headset_isEyeTrackingReady _ => "fove_Headset_isEyeTrackingReady"
  | fove_Headset_isUserPresent _ => "fove_Headset_isUserPresent"
  | fove_Headset_getEyesImage _ => "fove_Headset_getEyesImage"
  | fove_Headset_getUserIPD _ => "fove_Headset_getUserIPD"
  | fove_Headset_getUserIOD _ => "fove_Headset_getUserIOD"
  | fove_Headset_getPupilRadius _ _ => "fove_Headset_getPupilRadius"
  | fove_Headset_getIrisRadius _ _ => "fove_Headset_getIrisRadius"
  | fove_Headset_getEyeballRadius _ _ => "fove_Headset_getEyeballRadius"
  | fove_Headset_getEyeTorsion _ _ => "fove_Headset_getEyeTorsion"
  | fove_Headset_getEyeShape _ _ => "fove_Headset_getEyeShape"
  | fove_Headset_getPupilShape _ _ => "fove_Headset_getPupilShape"
  | fove_Headset_startHmdAdjustmentProcess _ _ => "fove_Headset_startHmdAdjustmentProcess"
  | fove_Headset_tickHmdAdjustmentProcess _ _ _ => "fove_Headset_tickHmdAdjustmentProcess"
  | fove_Headset_startEyeTrackingCalibration _ _ => "fove_Headset_startEyeTrackingCalibration"
  | fove_Headset_stopEyeTrackingCalibration _ => "fove_Headset_stopEyeTrackingCalibration"
  | fove_Headset_getEyeTrackingCalibrationState _ => "fove_Headset_getEyeTrackingCalibrationState"
  | fove_Headset_getEyeTrackingCalibrationStateDetails _ => "fove_Headset_getEyeTrackingCalibrationStateDetails"
  | fove_Headset_tickEyeTrackingCalibration _ _ _ => "fove_Headset_tickEyeTrackingCalibration"
  | fove_Headset_getGazedObjectId _ => "fove_Headset_getGazedObjectId"
  | fove_Headset_registerGazableObject _ _ => "fove_Headset_registerGazableObject"
  | fove_Headset_updateGazableObject _ _ _ => "fove_Headset_updateGazableObject"
  | fove_Headset_removeGazableObject _ _ => "fove_Headset_removeGazableObject"
  | fove_Headset_registerCameraObject _ _ => "fove_Headset_registerCameraObject"
  | fove_Headset_updateCameraObject _ _ _ => "fove_Headset_updateCameraObject"
  | fove_Headset_removeCameraObject _ _ => "fove_Headset_removeCameraObject"
  | fove_Headset_tareOrientationSensor _ => "fove_Headset_tareOrientationSensor"
  | fove_Headset_isPositionReady _ => "fove_Headset_isPositionReady"
  | fove_Headset_tarePositionSensors _ => "fove_Headset_tarePositionSensors"
  | fove_Headset_fetchPoseData _ => "fove_Headset_fetchPoseData"
  | fove_Headset_fetchPositionImage _ => "fove_Headset_fetchPositionImage"
  | fove_Headset_getPoseDataTimestamp _ => "fove_Headset_getPoseDataTimestamp"
  | fove_Headset_getPositionImageTimestamp _ => "fove_Headset_getPositionImageTimestamp"
  | fove_Headset_getPose _ => "fove_Headset_getPose"
  | fove_Headset_getPositionImage _ => "fove_Headset_getPositionImage"
  | fove_Headset_getProjectionMatricesLH _ _ _ => "fove_Headset_getProjectionMatricesLH"
  | fove_Headset_getProjectionMatricesRH _ _ _ => "fove_Headset_getProjectionMatricesRH"
  | fove_Headset_getRawProjectionValues _ => "fove_Headset_getRawProjectionValues"
  | fove_Headset_getEyeToHeadMatrices _ => "fove_Headset_getEyeToHeadMatrices"
  | fove_Headset_getRenderIOD _ => "fove_Headset_getRenderIOD"
  | fove_Headset_createProfile _ _ => "fove_Headset_createProfile"
  | fove_Headset_renameProfile _ _ _ => "fove_Headset_renameProfile"
  | fove_Headset_deleteProfile _ _ => "fove_Headset_deleteProfile"
  | fove_Headset_listProfiles _ => "fove_Headset_listProfiles"
  | fove_Headset_setCurrentProfile _ _ => "fove_Headset_setCurrentProfile"
  | fove_Headset_queryCurrentProfile _ => "fove_Headset_queryCurrentProfile"
  | fove_Headset_queryProfileDataPath _ _ => "fove_Headset_queryProfileDataPath"
  | fove_Headset_hasAccessToFeature _ _ => "fove_Headset_hasAccessToFeature"
  | fove_Headset_activateLicense _ _ => "fove_Headset_activateLicense"
  | fove_Headset_deactivateLicense _ _ => "fove_Headset_deactivateLicense"
  | fove_Headset_createCompositor _ => "fove_Headset_createCompositor"
  | fove_Compositor_destroy _ => "fove_Compositor_destroy"
  | fove_Compositor_createLayer _ _ => "fove_Compositor_createLayer"
  | fove_Compositor_submit _ _ _ => "fove_Compositor_submit"
  | fove_Compositor_waitForRenderPose _ => "fove_Compositor_waitForRenderPose"
  | fove_Compositor_getLastRenderPose _ => "fove_Compositor_getLastRenderPose"
  | fove_Compositor_isReady _ => "fove_Compositor_isReady"
  | fove_Compositor_queryAdapterId _ => "fove_Compositor_queryAdapterId"
  | fove_Config_getValue_bool _ => "fove_Config_getValue_bool"
  | fove_Config_getValue_int _ => "fove_Config_getValue_int"
  | fove_Config_getValue_float _ => "fove_Config_getValue_float"
  | fove_Config_getValue_string _ => "fove_Config_getValue_string"
  | fove_Config_setValue_bool _ _ => "fove_Config_setValue_bool"
  | fove_Config_setValue_int _ _ => "fove_Config_setValue_int"
  | fove_Config_setValue_float _ _ => "fove_Config_setValue_float"
  | fove_Config_setValue_string _ _ => "fove_Config_setValue_string"
  | fove_Config_clearValue _ => "fove_Config_clearValue"
  end.

Inductive Prog (A : Type) : Type :=
| Ret (a : A)
| Call {O : Type} (c : call O) (out : O) (k : Fove_ErrorCode.t * O -> Prog A).
Arguments Ret {A} a.
Arguments Call {A O} c out k.

(** One call as the library saw it. *)
Record event : Type := mkEvent {
  ev_type : Type;
  ev_call : call ev_type;
  ev_before : ev_type;
  ev_code : Fove_ErrorCode.t;
  ev_after : ev_type
}.

(** Running a wrapper against a library: the library is any function from
    a call and its own state to an answer and a new state. *)
Definition library (World : Type) : Type :=
  forall O : Type, call O -> O -> World -> (Fove_ErrorCode.t * O) * World.

Fixpoint run {World A : Type} (native : library World) (p : Prog A) (w : World)
    : A * list event * World :=
  match p with
  | Ret a => (a, [], w)
  | Call c out k =>
      let '(r, w') := native _ c out w in
      let '(a, tr, w'') := run native (k r) w' in
      (a, mkEvent c out (fst r) (snd r) :: tr, w'')
  end.

Definition result {World A : Type} (native : library World) (p : Prog A) (w : World) : A :=
  fst (fst (run native p w)).
Definition trace {World A : Type} (native : library World) (p : Prog A) (w : World)
    : list event :=
  snd (fst (run native p w)).

(** *** The wrappers that forward

    The result of a wrapper is its return value together with the final
    content of the arguments it hands to the library as out parameters. *)

Definition logText (level : Fove_LogLevel.t) (utf8Text : string)
    : Prog Fove_ErrorCode.t :=
  Call (fove_logText level utf8Text) tt (fun r => Ret (fst r)).

Definition createHeadset (capabilities : ClientCapabilities.Fove_ClientCapabilities)
    (outHeadset : Headset) : Prog (Fove_ErrorCode.t * Headset) :=
  Call (fove_createHeadset capabilities) (val outHeadset)
       (fun r => Ret (fst r, mkObj (snd r))).

Definition Headset_destroy (headset : Headset) : Prog Fove_ErrorCode.t :=
  Call (fove_Headset_destroy (val headset)) tt (fun r => Ret (fst r)).

Definition Headset_isHardwareConnected (headset : Headset) (outConnected : Obj bool)
    : Prog (Fove_ErrorCode.t * Obj bool) :=
  Call (fove_Headset_isHardwareConnected (val headset)) (val outConnected)
       (fun r => Ret (fst r, mkObj (snd r))).

Definition Headset_isMotionReady (headset : Headset) (outMotionReady : Obj bool)
    : Prog (Fove_ErrorCode.t * Obj bool) :=
  Call (fove_Headset_isMotionReady (val headset)) (val outMotionReady)
       (fun r => Ret (fst r, mkObj (snd r))).

Definition Headset_checkSoftwareVersions (headset : Headset) : Prog Fove_ErrorCode.t :=
  Call (fove_Headset_checkSoftwareVersions (val headset)) tt (fun r => Ret (fst r)).

Definition Headset_registerCapabilities (headset : Headset)
    (caps : ClientCapabilities.Fove_ClientCapabilities) : Prog Fove_ErrorCode.t :=
  Call (fove_Headset_registerCapabilities (val headset) caps) tt (fun r => Ret (fst r)).

Definition Headset_registerPassiveCapabilities (headset : Headset)
    (caps : ClientCapabilities.Fove_ClientCapabilities) : Prog Fove_ErrorCode.t :=
  Call (fove_Headset_registerPassiveCapabilities (val headset) caps) tt
       (fun r => Ret (fst r)).

Definition Headset_unregisterCapabilities (headset : Headset)
    (caps : ClientCapabilities.Fove_ClientCapabilities) : Prog Fove_ErrorCode.t :=
  Call (fove_Headset_unregisterCapabilities (val headset) caps) tt
       (fun r => Ret (fst r)).

Definition Headset_unregisterPassiveCapabilities (headset : Headset)
    (caps : ClientCapabilities.Fove_ClientCapabilities) : Prog Fove_ErrorCode.t :=
  Call (fove_Headset_unregisterPassiveCapabilities (val headset) caps) tt
       (fun r => Ret (fst r)).

Definition Headset_waitForProcessedEyeFrame (headset : Headset)
    : Prog Fove_ErrorCode.t :=
  Call (fove_Headset_waitForProcessedEyeFrame (val headset)) tt (fun r => Ret (fst r)).

Definition Headset_fetchEyeTrackingData (headset : Headset)
    (out : option Fove_FrameTimestamp.t)
    : Prog (Fove_ErrorCode.t * option Fove_FrameTimestamp.t) :=
  Call (fove_Headset_fetchEyeTrackingData (val headset)) out
       (fun r => Ret (fst r, snd r)).

Definition Headset_fetchEyesImage (headset : Headset)
    (out : option Fove_FrameTimestamp.t)
    : Prog (Fove_ErrorCode.t * option Fove_FrameTimestamp.t) :=
  Call (fove_Headset_fetchEyesImage (val headset)) out
       (fun r => Ret (fst r, snd r)).

Definition Headset_getEyeTrackingDataTimestamp (headset : Headset)
    (out : option Fove_FrameTimestamp.t)
    : Prog (Fove_ErrorCode.t * option Fove_FrameTimestamp.t) :=
  Call (fove_Headset_getEyeTrackingDataTimestamp (val headset)) out
       (fun r => Ret (fst r, snd r)).

Definition Headset_getEyesImageTimestamp (headset : Headset)
    (out : option Fove_FrameTimestamp.t)
    : Prog (Fove_ErrorCode.t * option Fove_FrameTimestamp.t) :=
  Call (fove_Headset_getEyesImageTimestamp (val headset)) out
       (fun r => Ret (fst r, snd r)).

Definition Headset_getGazeVector (headset : Headset) (eye : Fove_Eye.t)
    (out : Fove_Vec3.t) : Prog (Fove_ErrorCode.t * Fove_Vec3.t) :=
  Call (fove_Headset_getGazeVector (val headset) eye) out
       (fun r => Ret (fst r, snd r)).

Definition Headset_getGazeVectorRaw (headset : Headset) (eye : Fove_Eye.t)
    (out : Fove_Vec3.t) : Prog (Fove_ErrorCode.t * Fove_Vec3.t) :=
  Call (fove_Headset_getGazeVectorRaw (val headset) eye) out
       (fun r => Ret (fst r, snd r)).

Definition Headset_getGazeScreenPosition (headset : Headset) (eye : Fove_Eye.t)
    (out : Fove_Vec2.t) : Prog (Fove_ErrorCode.t * Fove_Vec2.t) :=
  Call (fove_Headset_getGazeScreenPosition (val headset) eye) out
       (fun r => Ret (fst r, snd r)).

Definition Headset_getGazeScreenPositionCombined (headset : Headset) (out : Fove_Vec2.t)
    : Prog (Fove_ErrorCode.t * Fove_Vec2.t) :=
  Call (fove_Headset_getGazeScreenPositionCombined (val headset)) out
       (fun r => Ret (fst r, snd r)).

Definition Headset_getCombinedGazeRay (headset : Headset) (out : Fove_Ray.t)
    : Prog (Fove_ErrorCode.t * Fove_Ray.t) :=
  Call (fove_Headset_getCombinedGazeRay (val headset)) out
       (fun r => Ret (fst r, snd r)).

Definition Headset_getCombinedGazeDepth (headset : Headset) (out : Obj float)
    : Prog (Fove_ErrorCode.t * Obj float) :=
  Call (fove_Headset_getCombinedGazeDepth (val headset)) (val out)
       (fun r => Ret (fst r, mkObj (snd r))).

Definition Headset_isUserShiftingAttention (headset : Headset) (out : Obj bool)
    : Prog (Fove_ErrorCode.t * Obj bool) :=
  Call (fove_Headset_isUserShiftingAttention (val headset)) (val out)
       (fun r => Ret (fst r, mkObj (snd r))).

Definition Headset_getEyeState (headset : Headset) (eye : Fove_Eye.t)
    (out : Obj Fove_EyeState.t) : Prog (Fove_ErrorCode.t * Obj Fove_EyeState.t) :=
  Call (fove_Headset_getEyeState (val headset) eye) (val out)
       (fun r => Ret (fst r, mkObj (snd r))).

Definition Headset_isEyeBlinking (headset : Headset) (eye : Fove_Eye.t) (out : Obj bool)
    : Prog (Fove_ErrorCode.t * Obj bool) :=
  Call (fove_Headset_isEyeBlinking (val headset) eye) (val out)
       (fun r => Ret (fst r, mkObj (snd r))).

Definition Headset_getEyeBlinkCount (headset : Headset) (eye : Fove_Eye.t) (out : Obj Z)
    : Prog (Fove_ErrorCode.t * Obj Z) :=
  Call (fove_Headset_getEyeBlinkCount (val headset) eye) (val out)
       (fun r => Ret (fst r, mkObj (snd r))).

Definition Headset_isEyeTrackingEnabled (headset : Headset)
    (outEyeTrackingEnabled : Obj bool) : Prog (Fove_ErrorCode.t * Obj bool) :=
  Call (fove_Headset_isEyeTrackingEnabled (val headset)) (val outEyeTrackingEnabled)
       (fun r => Ret (fst r, mkObj (snd r))).

Definition Headset_isEyeTrackingCalibrated (headset : Headset)
    (outEyeTrackingCalibrated : Obj bool) : Prog (Fove_ErrorCode.t * Obj bool) :=
  Call (fove_Headset_isEyeTrackingCalibrated (val headset))
       (val outEyeTrackingCalibrated)
       (fun r => Ret (fst r, mkObj (snd r))).

Definition Headset_isEyeTrackingCalibrating (headset : Headset)
    (outEyeTrackingCalibrating : Obj bool) : Prog (Fove_ErrorCode.t * Obj bool) :=
  Call (fove_Headset_isEyeTrackingCalibrating (val headset))
       (val outEyeTrackingCalibrating)
       (fun r => Ret (fst r, mkObj (snd r))).

Definition Headset_isEyeTrackingCalibratedForGlasses (headset : Headset)
    (out : Obj bool) : Prog (Fove_ErrorCode.t * Obj bool) :=
  Call (fove_Headset_isEyeTrackingCalibratedForGlasses (val headset)) (val out)
       (fun r => Ret (fst r, mkObj (snd r))).

Definition Headset_isHmdAdjustmentGuiVisible (headset : Headset) (outVisible : Obj bool)
    : Prog (Fove_ErrorCode.t * Obj bool) :=
  Call (fove_Headset_isHmdAdjustmentGuiVisible (val headset)) (val outVisible)
       (fun r => Ret (fst r, mkObj (snd r))).

Definition Headset_hasHmdAdjustmentGuiTimeout (headset : Headset) (out : Obj bool)
    : Prog (Fove_ErrorCode.t * Obj bool) :=
  Call (fove_Headset_hasHmdAdjustmentGuiTimeout (val headset)) (val out)
       (fun r => Ret (fst r, mkObj (snd r))).

Definition Headset_isEyeTrackingReady (headset : Headset)
    (outEyeTrackingReady : Obj bool) : Prog (Fove_ErrorCode.t * Obj bool) :=
  Call (fove_Headset_isEyeTrackingReady (val headset)) (val outEyeTrackingReady)
       (fun r => Ret (fst r, mkObj (snd r))).

Definition Headset_isUserPresent (headset : Headset) (out : Obj bool)
    : Prog (Fove_ErrorCode.t * Obj bool) :=
  Call (fove_Headset_isUserPresent (val headset)) (val out)
       (fun r => Ret (fst r, mkObj (snd r))).

Definition Headset_getEyesImage (headset : Headset) (outImage : Fove_BitmapImage.t)
    : Prog (Fove_ErrorCode.t * Fove_BitmapImage.t) :=
  Call (fove_Headset_getEyesImage (val headset)) outImage
       (fun r => Ret (fst r, snd r)).

Definition Headset_getUserIPD (headset : Headset) (out : Obj float)
    : Prog (Fove_ErrorCode.t * Obj float) :=
  Call (fove_Headset_getUserIPD (val headset)) (val out)
       (fun r => Ret (fst r, mkObj (snd r))).

Definition Headset_getUserIOD (headset : Headset) (out : Obj float)
    : Prog (Fove_ErrorCode.t * Obj float) :=
  Call (fove_Headset_getUserIOD (val headset)) (val out)
       (fun r => Ret (fst r, mkObj (snd r))).

Definition Headset_getPupilRadius (headset : Headset) (eye : Fove_Eye.t)
    (out : Obj float) : Prog (Fove_ErrorCode.t * Obj float) :=
  Call (fove_Headset_getPupilRadius (val headset) eye) (val out)
       (fun r => Ret (fst r, mkObj (snd r))).

Definition Headset_getIrisRadius (headset : Headset) (eye : Fove_Eye.t)
    (out : Obj float) : Prog (Fove_ErrorCode.t * Obj float) :=
  Call (fove_Headset_getIrisRadius (val headset) eye) (val out)
       (fun r => Ret (fst r, mkObj (snd r))).

Definition Headset_getEyeballRadius (headset : Headset) (eye : Fove_Eye.t)
    (out : Obj float) : Prog (Fove_ErrorCode.t * Obj float) :=
  Call (fove_Headset_getEyeballRadius (val headset) eye) (val out)
       (fun r => Ret (fst r, mkObj (snd r))).

Definition Headset_getEyeTorsion (headset : Headset) (eye : Fove_Eye.t)
    (out : Obj float) : Prog (Fove_ErrorCode.t * Obj float) :=
  Call (fove_Headset_getEyeTorsion (val headset) eye) (val out)
       (fun r => Ret (fst r, mkObj (snd r))).

Definition Headset_getEyeShape (headset : Headset) (eye : Fove_Eye.t)
    (out : Obj Fove_EyeShape.t) : Prog (Fove_ErrorCode.t * Obj Fove_EyeShape.t) :=
  Call (fove_Headset_getEyeShape (val headset) eye) (val out)
       (fun r => Ret (fst r, mkObj (snd r))).

Definition Headset_getPupilShape (headset : Headset) (eye : Fove_Eye.t)
    (out : Fove_PupilShape.t) : Prog (Fove_ErrorCode.t * Fove_PupilShape.t) :=
  Call (fove_Headset_getPupilShape (val headset) eye) out
       (fun r => Ret (fst r, snd r)).

Definition Headset_startHmdAdjustmentProcess (headset : Headset) (lazy : bool)
    : Prog Fove_ErrorCode.t :=
  Call (fove_Headset_startHmdAdjustmentProcess (val headset) lazy) tt
       (fun r => Ret (fst r)).

Definition Headset_tickHmdAdjustmentProcess (headset : Headset) (deltaTime : float)
    (isVisible : bool) (data : Fove_HmdAdjustmentData.t)
    : Prog (Fove_ErrorCode.t * Fove_HmdAdjustmentData.t) :=
  Call (fove_Headset_tickHmdAdjustmentProcess (val headset) deltaTime isVisible) data
       (fun r => Ret (fst r, snd r)).

Definition Headset_startEyeTrackingCalibration (headset : Headset)
    (options : Fove_CalibrationOptions.t) : Prog Fove_ErrorCode.t :=
  Call (fove_Headset_startEyeTrackingCalibration (val headset) options) tt
       (fun r => Ret (fst r)).

Definition Headset_stopEyeTrackingCalibration (headset : Headset)
    : Prog Fove_ErrorCode.t :=
  Call (fove_Headset_stopEyeTrackingCalibration (val headset)) tt
       (fun r => Ret (fst r)).

Definition Headset_getEyeTrackingCalibrationState (headset : Headset)
    (state : Obj Fove_CalibrationState.t)
    : Prog (Fove_ErrorCode.t * Obj Fove_CalibrationState.t) :=
  Call (fove_Headset_getEyeTrackingCalibrationState (val headset)) (val state)
       (fun r => Ret (fst r, mkObj (snd r))).

Definition Headset_getGazedObjectId (headset : Headset) (id : Obj Z)
    : Prog (Fove_ErrorCode.t * Obj Z) :=
  Call (fove_Headset_getGazedObjectId (val headset)) (val id)
       (fun r => Ret (fst r, mkObj (snd r))).

Definition Headset_registerGazableObject (headset : Headset)
    (gazableObj : Fove_GazableObject.t) : Prog Fove_ErrorCode.t :=
  Call (fove_Headset_registerGazableObject (val headset) gazableObj) tt
       (fun r => Ret (fst r)).

Definition Headset_updateGazableObject (headset : Headset) (id : Z)
    (pose : Fove_ObjectPose.t) : Prog Fove_ErrorCode.t :=
  Call (fove_Headset_updateGazableObject (val headset) id pose) tt
       (fun r => Ret (fst r)).

Definition Headset_removeGazableObject (headset : Headset) (id : Z)
    : Prog Fove_ErrorCode.t :=
  Call (fove_Headset_removeGazableObject (val headset) id) tt (fun r => Ret (fst r)).

Definition Headset_registerCameraObject (headset : Headset)
    (cameraObj : Fove_CameraObject.t) : Prog Fove_ErrorCode.t :=
  Call (fove_Headset_registerCameraObject (val headset) cameraObj) tt
       (fun r => Ret (fst r)).

Definition Headset_updateCameraObject (headset : Headset) (id : Z)
    (pose : Fove_ObjectPose.t) : Prog Fove_ErrorCode.t :=
  Call (fove_Headset_updateCameraObject (val headset) id pose) tt
       (fun r => Ret (fst r)).

Definition Headset_removeCameraObject (headset : Headset) (id : Z)
    : Prog Fove_ErrorCode.t :=
  Call (fove_Headset_removeCameraObject (val headset) id) tt (fun r => Ret (fst r)).

Definition Headset_tareOrientationSensor (headset : Headset) : Prog Fove_ErrorCode.t :=
  Call (fove_Headset_tareOrientationSensor (val headset)) tt (fun r => Ret (fst r)).

Definition Headset_isPositionReady (headset : Headset) (outPositionReady : Obj bool)
    : Prog (Fove_ErrorCode.t * Obj bool) :=
  Call (fove_Headset_isPositionReady (val headset)) (val outPositionReady)
       (fun r => Ret (fst r, mkObj (snd r))).

Definition Headset_tarePositionSensors (headset : Headset) : Prog Fove_ErrorCode.t :=
  Call (fove_Headset_tarePositionSensors (val headset)) tt (fun r => Ret (fst r)).

Definition Headset_fetchPoseData (headset : Headset)
    (out : option Fove_FrameTimestamp.t)
    : Prog (Fove_ErrorCode.t * option Fove_FrameTimestamp.t) :=
  Call (fove_Headset_fetchPoseData (val headset)) out
       (fun r => Ret (fst r, snd r)).

Definition Headset_fetchPositionImage (headset : Headset)
    (out : option Fove_FrameTimestamp.t)
    : Prog (Fove_ErrorCode.t * option Fove_FrameTimestamp.t) :=
  Call (fove_Headset_fetchPositionImage (val headset)) out
       (fun r => Ret (fst r, snd r)).

Definition Headset_getPoseDataTimestamp (headset : Headset)
    (out : option Fove_FrameTimestamp.t)
    : Prog (Fove_ErrorCode.t * option Fove_FrameTimestamp.t) :=
  Call (fove_Headset_getPoseDataTimestamp (val headset)) out
       (fun r => Ret (fst r, snd r)).

Definition Headset_getPositionImageTimestamp (headset : Headset)
    (out : option Fove_FrameTimestamp.t)
    : Prog (Fove_ErrorCode.t * option Fove_FrameTimestamp.t) :=
  Call (fove_Headset_getPositionImageTimestamp (val headset)) out
       (fun r => Ret (fst r, snd r)).

Definition Headset_getPose (headset : Headset) (outPose : Fove_Pose.t)
    : Prog (Fove_ErrorCode.t * Fove_Pose.t) :=
  Call (fove_Headset_getPose (val headset)) outPose
       (fun r => Ret (fst r, snd r)).

Definition Headset_getPositionImage (headset : Headset) (outImage : Fove_BitmapImage.t)
    : Prog (Fove_ErrorCode.t * Fove_BitmapImage.t) :=
  Call (fove_Headset_getPositionImage (val headset)) outImage
       (fun r => Ret (fst r, snd r)).

Definition Headset_getProjectionMatricesLH (headset : Headset) (zNear : float)
    (zFar : float) (outLeftMat : Obj Fove_Matrix44.t)
    (outRightMat : Obj Fove_Matrix44.t)
    : Prog (Fove_ErrorCode.t * ((Obj Fove_Matrix44.t) * (Obj Fove_Matrix44.t))) :=
  Call (fove_Headset_getProjectionMatricesLH (val headset) zNear zFar)
       (val outLeftMat, val outRightMat)
       (fun r => Ret (fst r, (mkObj (fst (snd r)), mkObj (snd (snd r))))).

Definition Headset_getProjectionMatricesRH (headset : Headset) (zNear : float)
    (zFar : float) (outLeftMat : Obj Fove_Matrix44.t)
    (outRightMat : Obj Fove_Matrix44.t)
    : Prog (Fove_ErrorCode.t * ((Obj Fove_Matrix44.t) * (Obj Fove_Matrix44.t))) :=
  Call (fove_Headset_getProjectionMatricesRH (val headset) zNear zFar)
       (val outLeftMat, val outRightMat)
       (fun r => Ret (fst r, (mkObj (fst (snd r)), mkObj (snd (snd r))))).

Definition Headset_getRawProjectionValues (headset : Headset)
    (outLeft : Fove_ProjectionParams.t) (outRight : Fove_ProjectionParams.t)
    : Prog (Fove_ErrorCode.t * (Fove_ProjectionParams.t * Fove_ProjectionParams.t)) :=
  Call (fove_Headset_getRawProjectionValues (val headset)) (outLeft, outRight)
       (fun r => Ret (fst r, (fst (snd r), snd (snd r)))).

Definition Headset_getEyeToHeadMatrices (headset : Headset)
    (outLeft : Obj Fove_Matrix44.t) (outRight : Obj Fove_Matrix44.t)
    : Prog (Fove_ErrorCode.t * ((Obj Fove_Matrix44.t) * (Obj Fove_Matrix44.t))) :=
  Call (fove_Headset_getEyeToHeadMatrices (val headset)) (val outLeft, val outRight)
       (fun r => Ret (fst r, (mkObj (fst (snd r)), mkObj (snd (snd r))))).

Definition Headset_getRenderIOD (headset : Headset) (outIOD : Obj float)
    : Prog (Fove_ErrorCode.t * Obj float) :=
  Call (fove_Headset_getRenderIOD (val headset)) (val outIOD)
       (fun r => Ret (fst r, mkObj (snd r))).

Definition Headset_createProfile (headset : Headset) (profileName : string)
    : Prog Fove_ErrorCode.t :=
  Call (fove_Headset_createProfile (val headset) (c_string profileName)) tt
       (fun r => Ret (fst r)).

Definition Headset_renameProfile (headset : Headset) (oldName : string)
    (newName : string) : Prog Fove_ErrorCode.t :=
  Call (fove_Headset_renameProfile (val headset) (c_string oldName) (c_string newName)) tt
       (fun r => Ret (fst r)).

Definition Headset_deleteProfile (headset : Headset) (profileName : string)
    : Prog Fove_ErrorCode.t :=
  Call (fove_Headset_deleteProfile (val headset) (c_string profileName)) tt
       (fun r => Ret (fst r)).

Definition Headset_setCurrentProfile (headset : Headset) (profileName : string)
    : Prog Fove_ErrorCode.t :=
  Call (fove_Headset_setCurrentProfile (val headset) (c_string profileName)) tt
       (fun r => Ret (fst r)).

Definition Headset_hasAccessToFeature (headset : Headset) (featureName : string)
    (hasAccess : Obj bool) : Prog (Fove_ErrorCode.t * Obj bool) :=
  Call (fove_Headset_hasAccessToFeature (val headset) (c_string featureName))
       (val hasAccess)
       (fun r => Ret (fst r, mkObj (snd r))).

Definition Headset_activateLicense (headset : Headset) (licenseKey : string)
    : Prog Fove_ErrorCode.t :=
  Call (fove_Headset_activateLicense (val headset) (c_string licenseKey)) tt
       (fun r => Ret (fst r)).

Definition Headset_deactivateLicense (headset : Headset) (licenseData : string)
    : Prog Fove_ErrorCode.t :=
  Call (fove_Headset_deactivateLicense (val headset) (c_string licenseData)) tt
       (fun r => Ret (fst r)).

Definition Headset_createCompositor (headset : Headset) (outCompositor : Compositor)
    : Prog (Fove_ErrorCode.t * Compositor) :=
  Call (fove_Headset_createCompositor (val headset)) (val outCompositor)
       (fun r => Ret (fst r, mkObj (snd r))).

Definition Compositor_destroy (compositor : Compositor) : Prog Fove_ErrorCode.t :=
  Call (fove_Compositor_destroy (val compositor)) tt (fun r => Ret (fst r)).

Definition Compositor_createLayer (compositor : Compositor)
    (layerInfo : Fove_CompositorLayerCreateInfo.t) (outLayer : Fove_CompositorLayer.t)
    : Prog (Fove_ErrorCode.t * Fove_CompositorLayer.t) :=
  Call (fove_Compositor_createLayer (val compositor) layerInfo) outLayer
       (fun r => Ret (fst r, snd r)).

Definition Compositor_submit (compositor : Compositor)
    (submitInfo : Fove_CompositorLayerSubmitInfo.t) (layerCount : Z)
    : Prog Fove_ErrorCode.t :=
  Call (fove_Compositor_submit (val compositor) submitInfo layerCount) tt
       (fun r => Ret (fst r)).

Definition Compositor_waitForRenderPose (compositor : Compositor)
    (outPose : Fove_Pose.t) : Prog (Fove_ErrorCode.t * Fove_Pose.t) :=
  Call (fove_Compositor_waitForRenderPose (val compositor)) outPose
       (fun r => Ret (fst r, snd r)).

Definition Compositor_getLastRenderPose (compositor : Compositor)
    (outPose : Fove_Pose.t) : Prog (Fove_ErrorCode.t * Fove_Pose.t) :=
  Call (fove_Compositor_getLastRenderPose (val compositor)) outPose
       (fun r => Ret (fst r, snd r)).

Definition Compositor_isReady (compositor : Compositor) (outIsReady : Obj bool)
    : Prog (Fove_ErrorCode.t * Obj bool) :=
  Call (fove_Compositor_isReady (val compositor)) (val outIsReady)
       (fun r => Ret (fst r, mkObj (snd r))).

Definition Compositor_queryAdapterId (compositor : Compositor)
    (outAdapterId : Fove_AdapterId.t) : Prog (Fove_ErrorCode.t * Fove_AdapterId.t) :=
  Call (fove_Compositor_queryAdapterId (val compositor)) outAdapterId
       (fun r => Ret (fst r, snd r)).

Definition Config_getValue_bool (key : string) (outValue : Obj bool)
    : Prog (Fove_ErrorCode.t * Obj bool) :=
  Call (fove_Config_getValue_bool key) (val outValue)
       (fun r => Ret (fst r, mkObj (snd r))).

Definition Config_getValue_int (key : string) (outValue : Obj Z)
    : Prog (Fove_ErrorCode.t * Obj Z) :=
  Call (fove_Config_getValue_int key) (val outValue)
       (fun r => Ret (fst r, mkObj (snd r))).

Definition Config_getValue_float (key : string) (outValue : Obj float)
    : Prog (Fove_ErrorCode.t * Obj float) :=
  Call (fove_Config_getValue_float key) (val outValue)
       (fun r => Ret (fst r, mkObj (snd r))).

Definition Config_setValue_bool (key : string) (value : bool) : Prog Fove_ErrorCode.t :=
  Call (fove_Config_setValue_bool key value) tt (fun r => Ret (fst r)).

Definition Config_setValue_int (key : string) (value : Z) : Prog Fove_ErrorCode.t :=
  Call (fove_Config_setValue_int key value) tt (fun r => Ret (fst r)).

Definition Config_setValue_float (key : string) (value : float)
    : Prog Fove_ErrorCode.t :=
  Call (fove_Config_setValue_float key value) tt (fun r => Ret (fst r)).

Definition Config_setValue_string (key : string) (value : string)
    : Prog Fove_ErrorCode.t :=
  Call (fove_Config_setValue_string key value) tt (fun r => Ret (fst r)).

Definition Config_clearValue (key : string) : Prog Fove_ErrorCode.t :=
  Call (fove_Config_clearValue key) tt (fun r => Ret (fst r)).

(** *** The wrappers that do more than forward *)

(** The local [versions] is not initialised; what it holds before the call
    is the argument [versions]. *)
Definition Headset_querySoftwareVersions (versions : Fove_Versions.t)
    (headset : Headset) (outVersions : Python_Versions.t)
    : Prog (Fove_ErrorCode.t * Python_Versions.t) :=
  Call (fove_Headset_querySoftwareVersions (val headset)) versions
       (fun r =>
          let ret := fst r in
          let versions := snd r in
          Ret (ret,
               Python_Versions.mk
                 (Fove_Versions.clientMajor versions)
                 (Fove_Versions.clientMinor versions)
                 (Fove_Versions.clientBuild versions)
                 (Fove_Versions.clientProtocol versions)
                 (c_string (Fove_Versions.clientHash versions))
                 (Fove_Versions.runtimeMajor versions)
                 (Fove_Versions.runtimeMinor versions)
                 (Fove_Versions.runtimeBuild versions)
                 (c_string (Fove_Versions.runtimeHash versions))
                 (Fove_Versions.firmware versions)
                 (Fove_Versions.maxFirmware versions)
                 (Fove_Versions.minFirmware versions)
                 (Fove_Versions.tooOldHeadsetConnected versions))).

(** An element of [make_unique<Fove_LicenseInfo[]>(n)]: all zero. *)
Definition zero_LicenseInfo : Fove_LicenseInfo.t :=
  Fove_LicenseInfo.mk (repeat 0 16) 0 0 0 "" "".

(** The body of the copy loop: [out.uuid] keeps its default. *)
Definition copy_LicenseInfo (in_ : Fove_LicenseInfo.t) : Python_LicenseInfo.t :=
  Python_LicenseInfo.mk
    (Python_LicenseInfo.uuid Python_LicenseInfo.default)
    (Fove_LicenseInfo.expirationYear in_)
    (Fove_LicenseInfo.expirationMonth in_)
    (Fove_LicenseInfo.expirationDay in_)
    (c_string (Fove_LicenseInfo.licenseType in_))
    (c_string (Fove_LicenseInfo.licensee in_)).

(** The array [licenses] after a call.  The library's answer for an array
    lists the elements it wrote, from the first on: the elements it did
    not write keep their value, and what it wrote past the end of the
    array is not part of the array. *)
Definition array_after (before : list Fove_LicenseInfo.t)
    (written : option (list Fove_LicenseInfo.t)) : list Fove_LicenseInfo.t :=
  match written with
  | Some l => firstn (List.length before) (l ++ skipn (List.length l) before)
  | None => before
  end.

(** [outLicenses.resize(numLicenses)] and the loop over
    [licenses[0 .. numLicenses-1]], [licenses] being the array the wrapper
    allocated (no array at all when it is [nullptr]).  The source reads
    [licenses[i]] unchecked: when [numLicenses] exceeds the size of the
    array the read is out of bounds, which the model reports as [None]. *)
Definition copy_licenses (licenses : list Fove_LicenseInfo.t) (numLicenses : Z)
    : option (list Python_LicenseInfo.t) :=
  let n := Z.to_nat numLicenses in
  if (n <=? List.length licenses)%nat
  then Some (map copy_LicenseInfo (firstn n licenses))
  else None.

(** The pair handed to the library is the array pointer ([None] for
    [nullptr]) with the content of the array, and [numLicenses].  The
    result is the returned vector and the final value of [error]. *)
Definition Headset_queryLicenses (headset : Headset) (error : Fove_ErrorCode.t)
    : Prog (option (list Python_LicenseInfo.t) * Fove_ErrorCode.t) :=
  let numLicenses := 0 in
  Call (fove_Headset_queryLicenses (val headset)) (None, numLicenses)
       (fun r =>
          let error := fst r in
          let numLicenses := snd (snd r) in
          if Fove_ErrorCode.is_error error then Ret (Some [], error)
          else if numLicenses >? 0 then
            let licenses := repeat zero_LicenseInfo (Z.to_nat numLicenses) in
            Call (fove_Headset_queryLicenses (val headset)) (Some licenses, numLicenses)
                 (fun r =>
                    let error := fst r in
                    let licenses := array_after licenses (fst (snd r)) in
                    let numLicenses := snd (snd r) in
                    if Fove_ErrorCode.is_error error then Ret (Some [], error)
                    else Ret (copy_licenses licenses numLicenses, error))
          else Ret (copy_licenses [] numLicenses, error)).

(** The local [info] is not initialised; what it holds before the call is
    the argument [info]. *)
Definition Headset_queryHardwareInfo (info : Fove_HeadsetHardwareInfo.t)
    (headset : Headset) (outHardwareInfo : Python_HeadsetHardwareInfo.t)
    : Prog (Fove_ErrorCode.t * Python_HeadsetHardwareInfo.t) :=
  Call (fove_Headset_queryHardwareInfo (val headset)) info
       (fun r =>
          let ret := fst r in
          let info := snd r in
          Ret (ret,
               Python_HeadsetHardwareInfo.mk
                 (c_string (Fove_HeadsetHardwareInfo.serialNumber info))
                 (c_string (Fove_HeadsetHardwareInfo.manufacturer info))
                 (c_string (Fove_HeadsetHardwareInfo.modelName info)))).

(** The callback-taking entry points: the library reports, as its out
    value, the arguments of the callback invocations it makes, in order. *)

(** [*data = CalibrationData::FromNative(nativeData)] *)
Definition callback_CalibrationData (data : CalibrationData.t)
    (nativeData : Fove_CalibrationData.t) : CalibrationData.t :=
  CalibrationData.FromNative nativeData.

(** [vectorPtr->push_back(val)] *)
Definition callback_push_back (vector : list string) (val : string) : list string :=
  vector ++ [c_string val].

(** [*valuePtr = val] *)
Definition callback_assign (value : string) (val : string) : string := c_string val.

Definition Headset_getEyeTrackingCalibrationStateDetails (headset : Headset)
    (data : CalibrationData.t) : Prog (Fove_ErrorCode.t * CalibrationData.t) :=
  Call (fove_Headset_getEyeTrackingCalibrationStateDetails (val headset)) []
       (fun r => Ret (fst r, fold_left callback_CalibrationData (snd r) data)).

Definition Headset_tickEyeTrackingCalibration (headset : Headset) (deltaTime : float)
    (isVisible : bool) (data : CalibrationData.t)
    : Prog (Fove_ErrorCode.t * CalibrationData.t) :=
  Call (fove_Headset_tickEyeTrackingCalibration (val headset) deltaTime isVisible) []
       (fun r => Ret (fst r, fold_left callback_CalibrationData (snd r) data)).

(** The result is the returned vector and the final value of [err]. *)
Definition Headset_listProfiles (headset : Headset) (err : Fove_ErrorCode.t)
    : Prog (list string * Fove_ErrorCode.t) :=
  let ret := [] in
  Call (fove_Headset_listProfiles (val headset)) []
       (fun r =>
          let err := fst r in
          Ret (fold_left callback_push_back (snd r) ret, err)).

Definition Headset_queryCurrentProfile (headset : Headset) (profileName : Obj string)
    : Prog (Fove_ErrorCode.t * Obj string) :=
  Call (fove_Headset_queryCurrentProfile (val headset)) []
       (fun r => Ret (fst r, mkObj (fold_left callback_assign (snd r) (val profileName)))).

Definition Headset_queryProfileDataPath (headset : Headset) (profileName : string)
    (dataPath : Obj string) : Prog (Fove_ErrorCode.t * Obj string) :=
  Call (fove_Headset_queryProfileDataPath (val headset) (c_string profileName)) []
       (fun r => Ret (fst r, mkObj (fold_left callback_assign (snd r) (val dataPath)))).

Definition Config_getValue_string (key : string) (outValue : Obj string)
    : Prog (Fove_ErrorCode.t * Obj string) :=
  Call (fove_Config_getValue_string key) []
       (fun r => Ret (fst r, mkObj (fold_left callback_assign (snd r) (val outValue)))).

(** *** The module table

    [m.def(name, f)]: the Python name, the function on its tuple of
    arguments, where the caller finds the [Fove_ErrorCode], and whether that
    is the function's return value. *)
Record binding : Type := def {
  py_name : string;
  Args : Type;
  Res : Type;
  body : Args -> Prog Res;
  code : Res -> Fove_ErrorCode.t;
  returns_code : bool
}.
Arguments def py_name {Args Res} body code returns_code.

Definition bind_CAPIs : list binding :=
  [
  def "logText"
      (fun a : Fove_LogLevel.t * string =>
         let '(level, utf8Text) := a in
         logText level utf8Text)
      (fun r => r) true;
  def "createHeadset"
      (fun a : ClientCapabilities.Fove_ClientCapabilities * Headset =>
         let '(capabilities, outHeadset) := a in
         createHeadset capabilities outHeadset)
      (fun r => fst r) true;
  def "Headset_destroy"
      (fun headset : Headset => Headset_destroy headset)
      (fun r => r) true;
  def "Headset_isHardwareConnected"
      (fun a : Headset * (Obj bool) =>
         let '(headset, outConnected) := a in
         Headset_isHardwareConnected headset outConnected)
      (fun r => fst r) true;
  def "Headset_isMotionReady"
      (fun a : Headset * (Obj bool) =>
         let '(headset, outMotionReady) := a in
         Headset_isMotionReady headset outMotionReady)
      (fun r => fst r) true;
  def "Headset_checkSoftwareVersions"
      (fun headset : Headset => Headset_checkSoftwareVersions headset)
      (fun r => r) true;
  def "Headset_querySoftwareVersions"
      (fun a : Fove_Versions.t * Headset * Python_Versions.t =>
         let '((versions, headset), outVersions) := a in
         Headset_querySoftwareVersions versions headset outVersions)
      (fun r => fst r) true;
  def "Headset_queryLicenses"
      (fun a : Headset * Fove_ErrorCode.t =>
         let '(headset, error) := a in
         Headset_queryLicenses headset error)
      (fun r => snd r) false;
  def "Headset_queryHardwareInfo"
      (fun a : Fove_HeadsetHardwareInfo.t * Headset * Python_HeadsetHardwareInfo.t =>
         let '((info, headset), outHardwareInfo) := a in
         Headset_queryHardwareInfo info headset outHardwareInfo)
      (fun r => fst r) true;
  def "Headset_registerCapabilities"
      (fun a : Headset * ClientCapabilities.Fove_ClientCapabilities =>
         let '(headset, caps) := a in
         Headset_registerCapabilities headset caps)
      (fun r => r) true;
  def "Headset_registerPassiveCapabilities"
      (fun a : Headset * ClientCapabilities.Fove_ClientCapabilities =>
         let '(headset, caps) := a in
         Headset_registerPassiveCapabilities headset caps)
      (fun r => r) true;
  def "Headset_unregisterCapabilities"
      (fun a : Headset * ClientCapabilities.Fove_ClientCapabilities =>
         let '(headset, caps) := a in
         Headset_unregisterCapabilities headset caps)
      (fun r => r) true;
  def "Headset_unregisterPassiveCapabilities"
      (fun a : Headset * ClientCapabilities.Fove_ClientCapabilities =>
         let '(headset, caps) := a in
         Headset_unregisterPassiveCapabilities headset caps)
      (fun r => r) true;
  def "Headset_waitForProcessedEyeFrame"
      (fun headset : Headset => Headset_waitForProcessedEyeFrame headset)
      (fun r => r) true;
  def "Headset_fetchEyeTrackingData"
      (fun a : Headset * (option Fove_FrameTimestamp.t) =>
         let '(headset, out) := a in
         Headset_fetchEyeTrackingData headset out)
      (fun r => fst r) true;
  def "Headset_fetchEyesImage"
      (fun a : Headset * (option Fove_FrameTimestamp.t) =>
         let '(headset, out) := a in
         Headset_fetchEyesImage headset out)
      (fun r => fst r) true;
  def "Headset_getEyeTrackingDataTimestamp"
      (fun a : Headset * (option Fove_FrameTimestamp.t) =>
         let '(headset, out) := a in
         Headset_getEyeTrackingDataTimestamp headset out)
      (fun r => fst r) true;
  def "Headset_getEyesImageTimestamp"
      (fun a : Headset * (option Fove_FrameTimestamp.t) =>
         let '(headset, out) := a in
         Headset_getEyesImageTimestamp headset out)
      (fun r => fst r) true;
  def "Headset_getGazeVector"
      (fun a : Headset * Fove_Eye.t * Fove_Vec3.t =>
         let '((headset, eye), out) := a in
         Headset_getGazeVector headset eye out)
      (fun r => fst r) true;
  def "Headset_getGazeVectorRaw"
      (fun a : Headset * Fove_Eye.t * Fove_Vec3.t =>
         let '((headset, eye), out) := a in
         Headset_getGazeVectorRaw headset eye out)
      (fun r => fst r) true;
  def "Headset_getGazeScreenPosition"
      (fun a : Headset * Fove_Eye.t * Fove_Vec2.t =>
         let '((headset, eye), out) := a in
         Headset_getGazeScreenPosition headset eye out)
      (fun r => fst r) true;
  def "Headset_getGazeScreenPositionCombined"
      (fun a : Headset * Fove_Vec2.t =>
         let '(headset, out) := a in
         Headset_getGazeScreenPositionCombined headset out)
      (fun r => fst r) true;
  def "Headset_getCombinedGazeRay"
      (fun a : Headset * Fove_Ray.t =>
         let '(headset, out) := a in
         Headset_getCombinedGazeRay headset out)
      (fun r => fst r) true;
  def "Headset_getCombinedGazeDepth"
      (fun a : Headset * (Obj float) =>
         let '(headset, out) := a in
         Headset_getCombinedGazeDepth headset out)
      (fun r => fst r) true;
  def "Headset_isUserShiftingAttention"
      (fun a : Headset * (Obj bool) =>
         let '(headset, out) := a in
         Headset_isUserShiftingAttention headset out)
      (fun r => fst r) true;
  def "Headset_getEyeState"
      (fun a : Headset * Fove_Eye.t * (Obj Fove_EyeState.t) =>
         let '((headset, eye), out) := a in
         Headset_getEyeState headset eye out)
      (fun r => fst r) true;
  def "Headset_isEyeBlinking"
      (fun a : Headset * Fove_Eye.t * (Obj bool) =>
         let '((headset, eye), out) := a in
         Headset_isEyeBlinking headset eye out)
      (fun r => fst r) true;
  def "Headset_getEyeBlinkCount"
      (fun a : Headset * Fove_Eye.t * (Obj Z) =>
         let '((headset, eye), out) := a in
         Headset_getEyeBlinkCount headset eye out)
      (fun r => fst r) true;
  def "Headset_isEyeTrackingEnabled"
      (fun a : Headset * (Obj bool) =>
         let '(headset, outEyeTrackingEnabled) := a in
         Headset_isEyeTrackingEnabled headset outEyeTrackingEnabled)
      (fun r => fst r) true;
  def "Headset_isEyeTrackingCalibrated"
      (fun a : Headset * (Obj bool) =>
         let '(headset, outEyeTrackingCalibrated) := a in
         Headset_isEyeTrackingCalibrated headset outEyeTrackingCalibrated)
      (fun r => fst r) true;
  def "Headset_isEyeTrackingCalibrating"
      (fun a : Headset * (Obj bool) =>
         let '(headset, outEyeTrackingCalibrating) := a in
         Headset_isEyeTrackingCalibrating headset outEyeTrackingCalibrating)
      (fun r => fst r) true;
  def "Headset_isEyeTrackingCalibratedForGlasses"
      (fun a : Headset * (Obj bool) =>
         let '(headset, out) := a in
         Headset_isEyeTrackingCalibratedForGlasses headset out)
      (fun r => fst r) true;
  def "Headset_isHmdAdjustmentGuiVisible"
      (fun a : Headset * (Obj bool) =>
         let '(headset, outVisible) := a in
         Headset_isHmdAdjustmentGuiVisible headset outVisible)
      (fun r => fst r) true;
  def "Headset_hasHmdAdjustmentGuiTimeout"
      (fun a : Headset * (Obj bool) =>
         let '(headset, out) := a in
         Headset_hasHmdAdjustmentGuiTimeout headset out)
      (fun r => fst r) true;
  def "Headset_isEyeTrackingReady"
      (fun a : Headset * (Obj bool) =>
         let '(headset, outEyeTrackingReady) := a in
         Headset_isEyeTrackingReady headset outEyeTrackingReady)
      (fun r => fst r) true;
  def "Headset_isUserPresent"
      (fun a : Headset * (Obj bool) =>
         let '(headset, out) := a in
         Headset_isUserPresent headset out)
      (fun r => fst r) true;
  def "Headset_getEyesImage"
      (fun a : Headset * Fove_BitmapImage.t =>
         let '(headset, outImage) := a in
         Headset_getEyesImage headset outImage)
      (fun r => fst r) true;
  def "Headset_getUserIPD"
      (fun a : Headset * (Obj float) =>
         let '(headset, out) := a in
         Headset_getUserIPD headset out)
      (fun r => fst r) true;
  def "Headset_getUserIOD"
      (fun a : Headset * (Obj float) =>
         let '(headset, out) := a in
         Headset_getUserIOD headset out)
      (fun r => fst r) true;
  def "Headset_getPupilRadius"
      (fun a : Headset * Fove_Eye.t * (Obj float) =>
         let '((headset, eye), out) := a in
         Headset_getPupilRadius headset eye out)
      (fun r => fst r) true;
  def "Headset_getIrisRadius"
      (fun a : Headset * Fove_Eye.t * (Obj float) =>
         let '((headset, eye), out) := a in
         Headset_getIrisRadius headset eye out)
      (fun r => fst r) true;
  def "Headset_getEyeballRadius"
      (fun a : Headset * Fove_Eye.t * (Obj float) =>
         let '((headset, eye), out) := a in
         Headset_getEyeballRadius headset eye out)
      (fun r => fst r) true;
  def "Headset_getEyeTorsion"
      (fun a : Headset * Fove_Eye.t * (Obj float) =>
         let '((headset, eye), out) := a in
         Headset_getEyeTorsion headset eye out)
      (fun r => fst r) true;
  def "Headset_getEyeShape"
      (fun a : Headset * Fove_Eye.t * (Obj Fove_EyeShape.t) =>
         let '((headset, eye), out) := a in
         Headset_getEyeShape headset eye out)
      (fun r => fst r) true;
  def "Headset_getPupilShape"
      (fun a : Headset * Fove_Eye.t * Fove_PupilShape.t =>
         let '((headset, eye), out) := a in
         Headset_getPupilShape headset eye out)
      (fun r => fst r) true;
  def "Headset_startHmdAdjustmentProcess"
      (fun a : Headset * bool =>
         let '(headset, lazy) := a in
         Headset_startHmdAdjustmentProcess headset lazy)
      (fun r => r) true;
  def "Headset_tickHmdAdjustmentProcess"
      (fun a : Headset * float * bool * Fove_HmdAdjustmentData.t =>
         let '(((headset, deltaTime), isVisible), data) := a in
         Headset_tickHmdAdjustmentProcess headset deltaTime isVisible data)
      (fun r => fst r) true;
  def "Headset_startEyeTrackingCalibration"
      (fun a : Headset * Fove_CalibrationOptions.t =>
         let '(headset, options) := a in
         Headset_startEyeTrackingCalibration headset options)
      (fun r => r) true;
  def "Headset_stopEyeTrackingCalibration"
      (fun headset : Headset => Headset_stopEyeTrackingCalibration headset)
      (fun r => r) true;
  def "Headset_getEyeTrackingCalibrationState"
      (fun a : Headset * (Obj Fove_CalibrationState.t) =>
         let '(headset, state) := a in
         Headset_getEyeTrackingCalibrationState headset state)
      (fun r => fst r) true;
  def "Headset_getEyeTrackingCalibrationStateDetails"
      (fun a : Headset * CalibrationData.t =>
         let '(headset, data) := a in
         Headset_getEyeTrackingCalibrationStateDetails headset data)
      (fun r => fst r) true;
  def "Headset_tickEyeTrackingCalibration"
      (fun a : Headset * float * bool * CalibrationData.t =>
         let '(((headset, deltaTime), isVisible), data) := a in
         Headset_tickEyeTrackingCalibration headset deltaTime isVisible data)
      (fun r => fst r) true;
  def "Headset_getGazedObjectId"
      (fun a : Headset * (Obj Z) =>
         let '(headset, id) := a in
         Headset_getGazedObjectId headset id)
      (fun r => fst r) true;
  def "Headset_registerGazableObject"
      (fun a : Headset * Fove_GazableObject.t =>
         let '(headset, gazableObj) := a in
         Headset_registerGazableObject headset gazableObj)
      (fun r => r) true;
  def "Headset_updateGazableObject"
      (fun a : Headset * Z * Fove_ObjectPose.t =>
         let '((headset, id), pose) := a in
         Headset_updateGazableObject headset id pose)
      (fun r => r) true;
  def "Headset_removeGazableObject"
      (fun a : Headset * Z =>
         let '(headset, id) := a in
         Headset_removeGazableObject headset id)
      (fun r => r) true;
  def "Headset_registerCameraObject"
      (fun a : Headset * Fove_CameraObject.t =>
         let '(headset, cameraObj) := a in
         Headset_registerCameraObject headset cameraObj)
      (fun r => r) true;
  def "Headset_updateCameraObject"
      (fun a : Headset * Z * Fove_ObjectPose.t =>
         let '((headset, id), pose) := a in
         Headset_updateCameraObject headset id pose)
      (fun r => r) true;
  def "Headset_removeCameraObject"
      (fun a : Headset * Z =>
         let '(headset, id) := a in
         Headset_removeCameraObject headset id)
      (fun r => r) true;
  def "Headset_tareOrientationSensor"
      (fun headset : Headset => Headset_tareOrientationSensor headset)
      (fun r => r) true;
  def "Headset_isPositionReady"
      (fun a : Headset * (Obj bool) =>
         let '(headset, outPositionReady) := a in
         Headset_isPositionReady headset outPositionReady)
      (fun r => fst r) true;
  def "Headset_tarePositionSensors"
      (fun headset : Headset => Headset_tarePositionSensors headset)
      (fun r => r) true;
  def "Headset_fetchPoseData"
      (fun a : Headset * (option Fove_FrameTimestamp.t) =>
         let '(headset, out) := a in
         Headset_fetchPoseData headset out)
      (fun r => fst r) true;
  def "Headset_fetchPositionImage"
      (fun a : Headset * (option Fove_FrameTimestamp.t) =>
         let '(headset, out) := a in
         Headset_fetchPositionImage headset out)
      (fun r => fst r) true;
  def "Headset_getPoseDataTimestamp"
      (fun a : Headset * (option Fove_FrameTimestamp.t) =>
         let '(headset, out) := a in
         Headset_getPoseDataTimestamp headset out)
      (fun r => fst r) true;
  def "Headset_getPositionImageTimestamp"
      (fun a : Headset * (option Fove_FrameTimestamp.t) =>
         let '(headset, out) := a in
         Headset_getPositionImageTimestamp headset out)
      (fun r => fst r) true;
  def "Headset_getPose"
      (fun a : Headset * Fove_Pose.t =>
         let '(headset, outPose) := a in
         Headset_getPose headset outPose)
      (fun r => fst r) true;
  def "Headset_getPositionImage"
      (fun a : Headset * Fove_BitmapImage.t =>
         let '(headset, outImage) := a in
         Headset_getPositionImage headset outImage)
      (fun r => fst r) true;
  def "Headset_getProjectionMatricesLH"
      (fun a : Headset * float * float * (Obj Fove_Matrix44.t) * (Obj Fove_Matrix44.t) =>
         let '((((headset, zNear), zFar), outLeftMat), outRightMat) := a in
         Headset_getProjectionMatricesLH headset zNear zFar outLeftMat outRightMat)
      (fun r => fst r) true;
  def "Headset_getProjectionMatricesRH"
      (fun a : Headset * float * float * (Obj Fove_Matrix44.t) * (Obj Fove_Matrix44.t) =>
         let '((((headset, zNear), zFar), outLeftMat), outRightMat) := a in
         Headset_getProjectionMatricesRH headset zNear zFar outLeftMat outRightMat)
      (fun r => fst r) true;
  def "Headset_getRawProjectionValues"
      (fun a : Headset * Fove_ProjectionParams.t * Fove_ProjectionParams.t =>
         let '((headset, outLeft), outRight) := a in
         Headset_getRawProjectionValues headset outLeft outRight)
      (fun r => fst r) true;
  def "Headset_getEyeToHeadMatrices"
      (fun a : Headset * (Obj Fove_Matrix44.t) * (Obj Fove_Matrix44.t) =>
         let '((headset, outLeft), outRight) := a in
         Headset_getEyeToHeadMatrices headset outLeft outRight)
      (fun r => fst r) true;
  def "Headset_getRenderIOD"
      (fun a : Headset * (Obj float) =>
         let '(headset, outIOD) := a in
         Headset_getRenderIOD headset outIOD)
      (fun r => fst r) true;
  def "Headset_createProfile"
      (fun a : Headset * string =>
         let '(headset, profileName) := a in
         Headset_createProfile headset profileName)
      (fun r => r) true;
  def "Headset_renameProfile"
      (fun a : Headset * string * string =>
         let '((headset, oldName), newName) := a in
         Headset_renameProfile headset oldName newName)
      (fun r => r) true;
  def "Headset_deleteProfile"
      (fun a : Headset * string =>
         let '(headset, profileName) := a in
         Headset_deleteProfile headset profileName)
      (fun r => r) true;
  def "Headset_listProfiles"
      (fun a : Headset * Fove_ErrorCode.t =>
         let '(headset, err) := a in
         Headset_listProfiles headset err)
      (fun r => snd r) false;
  def "Headset_setCurrentProfile"
      (fun a : Headset * string =>
         let '(headset, profileName) := a in
         Headset_setCurrentProfile headset profileName)
      (fun r => r) true;
  def "Headset_queryCurrentProfile"
      (fun a : Headset * Obj string =>
         let '(headset, profileName) := a in
         Headset_queryCurrentProfile headset profileName)
      (fun r => fst r) true;
  def "Headset_queryProfileDataPath"
      (fun a : Headset * string * Obj string =>
         let '((headset, profileName), dataPath) := a in
         Headset_queryProfileDataPath headset profileName dataPath)
      (fun r => fst r) true;
  def "Headset_hasAccessToFeature"
      (fun a : Headset * string * (Obj bool) =>
         let '((headset, featureName), hasAccess) := a in
         Headset_hasAccessToFeature headset featureName hasAccess)
      (fun r => fst r) true;
  def "Headset_activateLicense"
      (fun a : Headset * string =>
         let '(headset, licenseKey) := a in
         Headset_activateLicense headset licenseKey)
      (fun r => r) true;
  def "Headset_deactivateLicense"
      (fun a : Headset * string =>
         let '(headset, licenseData) := a in
         Headset_deactivateLicense headset licenseData)
      (fun r => r) true;
  def "Headset_createCompositor"
      (fun a : Headset * Compositor =>
         let '(headset, outCompositor) := a in
         Headset_createCompositor headset outCompositor)
      (fun r => fst r) true;
  def "Compositor_destroy"
      (fun compositor : Compositor => Compositor_destroy compositor)
      (fun r => r) true;
  def "Compositor_createLayer"
      (fun a : Compositor * Fove_CompositorLayerCreateInfo.t * Fove_CompositorLayer.t =>
         let '((compositor, layerInfo), outLayer) := a in
         Compositor_createLayer compositor layerInfo outLayer)
      (fun r => fst r) true;
  def "Compositor_submit"
      (fun a : Compositor * Fove_CompositorLayerSubmitInfo.t * Z =>
         let '((compositor, submitInfo), layerCount) := a in
         Compositor_submit compositor submitInfo layerCount)
      (fun r => r) true;
  def "Compositor_waitForRenderPose"
      (fun a : Compositor * Fove_Pose.t =>
         let '(compositor, outPose) := a in
         Compositor_waitForRenderPose compositor outPose)
      (fun r => fst r) true;
  def "Compositor_getLastRenderPose"
      (fun a : Compositor * Fove_Pose.t =>
         let '(compositor, outPose) := a in
         Compositor_getLastRenderPose compositor outPose)
      (fun r => fst r) true;
  def "Compositor_isReady"
      (fun a : Compositor * (Obj bool) =>
         let '(compositor, outIsReady) := a in
         Compositor_isReady compositor outIsReady)
      (fun r => fst r) true;
  def "Compositor_queryAdapterId"
      (fun a : Compositor * Fove_AdapterId.t =>
         let '(compositor, outAdapterId) := a in
         Compositor_queryAdapterId compositor outAdapterId)
      (fun r => fst r) true;
  def "Config_getValue_bool"
      (fun a : string * (Obj bool) =>
         let '(key, outValue) := a in
         Config_getValue_bool key outValue)
      (fun r => fst r) true;
  def "Config_getValue_int"
      (fun a : string * (Obj Z) =>
         let '(key, outValue) := a in
         Config_getValue_int key outValue)
      (fun r => fst r) true;
  def "Config_getValue_float"
      (fun a : string * (Obj float) =>
         let '(key, outValue) := a in
         Config_getValue_float key outValue)
      (fun r => fst r) true;
  def "Config_getValue_string"
      (fun a : string * Obj string =>
         let '(key, outValue) := a in
         Config_getValue_string key outValue)
      (fun r => fst r) true;
  def "Config_setValue_bool"
      (fun a : string * bool =>
         let '(key, value) := a in
         Config_setValue_bool key value)
      (fun r => r) true;
  def "Config_setValue_int"
      (fun a : string * Z =>
         let '(key, value) := a in
         Config_setValue_int key value)
      (fun r => r) true;
  def "Config_setValue_float"
      (fun a : string * float =>
         let '(key, value) := a in
         Config_setValue_float key value)
      (fun r => r) true;
  def "Config_setValue_string"
      (fun a : string * string =>
         let '(key, value) := a in
         Config_setValue_string key value)
      (fun r => r) true;
  def "Config_clearValue"
      (fun key : string => Config_clearValue key)
      (fun r => r) true
  ].

End CAPI.

(** ** What the module exposes

    The classes and enums [PYBIND11_MODULE(capi, m)] registers, in the order
    of registration, each with the C++ type it wraps (type aliases
    expanded). *)

Module Registry.

Inductive cpp_type : Type :=
| named (name : string)     (* a struct or enum, by its C++ name *)
| Obj_of (T : cpp_type)     (* Obj<T> *)
| pointer_to (T : cpp_type) (* T* *)
| bool_
| int_
| float_
| std_string.

Inductive registrar : Type := class_ | enum_.

Record registration : Type := reg {
  how : registrar;
  cpp : cpp_type;
  py : string
}.

Definition capi : list registration :=
  [ reg class_ (Obj_of (pointer_to (named "Fove_Headset"))) "Fove_Headset";
    reg class_ (Obj_of (pointer_to (named "Fove_Compositor"))) "Fove_Compositor";
    reg enum_ (named "Fove_ClientCapabilities") "ClientCapabilities";
    reg enum_ (named "Fove_ErrorCode") "ErrorCode";
    reg enum_ (named "Fove_CompositorLayerType") "CompositorLayerType";
    reg enum_ (named "Fove_ObjectGroup") "ObjectGroup";
    reg class_ (named "Python_Versions") "Versions";
    reg class_ (named "Python_LicenseInfo") "LicenseInfo";
    reg class_ (named "Python_HeadsetHardwareInfo") "HeadsetHardwareInfo";
    reg class_ (named "Fove_Quaternion") "Quaternion";
    reg class_ (named "Fove_Vec3") "Vec3";
    reg class_ (named "Fove_Vec2") "Vec2";
    reg class_ (named "Fove_Vec2i") "Vec2i";
    reg class_ (named "Fove_Ray") "Ray";
    reg class_ (named "Fove_FrameTimestamp") "FrameTimestamp";
    reg class_ (named "Fove_Pose") "Pose";
    reg enum_ (named "Fove_LogLevel") "LogLevel";
    reg enum_ (named "Fove_Eye") "Eye";
    reg enum_ (named "Fove_EyeState") "EyeState";
    reg class_ (Obj_of (named "Fove_Matrix44")) "Matrix44";
    reg class_ (named "Fove_ProjectionParams") "ProjectionParams";
    reg class_ (named "Fove_BoundingBox") "BoundingBox";
    reg class_ (named "Fove_ObjectPose") "ObjectPose";
    reg enum_ (named "Fove_ColliderType") "ColliderType";
    reg class_ (named "Fove_ColliderCube") "ColliderCube";
    reg class_ (named "Fove_ColliderSphere") "ColliderSphere";
    reg class_ (named "VertexBuffer") "VertexBuffer";
    reg class_ (named "IndexBuffer") "IndexBuffer";
    reg class_ (named "Fove_ColliderMesh") "ColliderMesh";
    reg class_ (named "Fove_ObjectCollider") "ObjectCollider";
    reg class_ (named "ColliderArray") "ColliderArray";
    reg class_ (named "Fove_GazableObject") "GazableObject";
    reg class_ (named "Fove_CameraObject") "CameraObject";
    reg enum_ (named "Fove_GraphicsAPI") "GraphicsAPI";
    reg enum_ (named "Fove_AlphaMode") "AlphaMode";
    reg class_ (named "Fove_CompositorLayerCreateInfo") "CompositorLayerCreateInfo";
    reg class_ (named "Fove_CompositorLayer") "CompositorLayer";
    reg class_ (named "Fove_CompositorTexture") "CompositorTexture";
    reg class_ (named "Fove_DX11Texture") "DX11Texture";
    reg class_ (named "Fove_GLTexture") "GLTexture";
    reg class_ (named "Fove_MetalTexture") "MetalTexture";
    reg class_ (named "Fove_TextureBounds") "TextureBounds";
    reg class_ (named "Fove_CompositorLayerEyeSubmitInfo") "CompositorLayerEyeSubmitInfo";
    reg class_ (named "Fove_CompositorLayerSubmitInfo") "CompositorLayerSubmitInfo";
    reg class_ (named "Fove_AdapterId") "AdapterId";
    reg class_ (named "Fove_Buffer") "Buffer";
    reg class_ (Obj_of (named "Fove_EyeShape")) "EyeShape";
    reg class_ (named "Fove_PupilShape") "PupilShape";
    reg class_ (named "Fove_BitmapImage") "BitmapImage";
    reg class_ (named "Fove_CalibrationTarget") "CalibrationTarget";
    reg enum_ (named "Fove_CalibrationState") "CalibrationState";
    reg enum_ (named "Fove_CalibrationMethod") "CalibrationMethod";
    reg enum_ (named "Fove_EyeByEyeCalibration") "EyeByEyeCalibration";
    reg enum_ (named "Fove_EyeTorsionCalibration") "EyeTorsionCalibration";
    reg class_ (named "CalibrationData") "CalibrationData";
    reg class_ (named "Fove_CalibrationOptions") "CalibrationOptions";
    reg class_ (named "Fove_HmdAdjustmentData") "HmdAdjustmentData";
    reg class_ (Obj_of bool_) "Bool";
    reg class_ (Obj_of int_) "Int";
    reg class_ (Obj_of float_) "Float";
    reg class_ (Obj_of std_string) "String";
    reg class_ (Obj_of (named "Fove_EyeState")) "EyeStateObj";
    reg class_ (Obj_of (named "Fove_CalibrationState")) "CalibrationStateObj" ].

(** The structs [bindings.cpp] defines itself (the template [Obj] apart,
    which [Obj_of] stands for). *)
Definition defined_in_bindings_cpp : list string :=
  [ "Python_Versions"; "Python_LicenseInfo"; "Python_HeadsetHardwareInfo";
    "VertexBuffer"; "IndexBuffer"; "ColliderArray"; "CalibrationData" ].

(** A registration binds a type of the SDK one to one when the registered
    C++ type is a struct or enum that [FoveAPI.h] declares, not a type of the
    binding's own. *)
Definition binds_sdk_type (r : registration) : bool :=
  match cpp r with
  | named n => negb (existsb (String.eqb n) defined_in_bindings_cpp)
  | _ => false
  end.

Definition is_enum (r : registration) : bool :=
  match how r with enum_ => true | class_ => false end.

(** No string occurs twice. *)
Fixpoint distinct (l : list string) : bool :=
  match l with
  | [] => true
  | s :: l' => negb (existsb (String.eqb s) l') && distinct l'
  end.

End Registry.

(** ** Notions used to state the properties *)

Module ObjectColliderSpec.
Import Fove_ObjectCollider.

(** The tag names the member of the union that holds the shape. *)
Definition consistent (self : t) : bool :=
  match shapeType self, shapeDefinition self with
  | Fove_ColliderType.Cube, cube _ => true
  | Fove_ColliderType.Sphere, sphere _ => true
  | Fove_ColliderType.Mesh, mesh _ => true
  | _, _ => false
  end.

(** An assignment to one of the three shape properties. *)
Inductive assignment : Type :=
| assign_cube (value : Fove_ColliderCube.t)
| assign_sphere (value : Fove_ColliderSphere.t)
| assign_mesh (value : Fove_ColliderMesh.t).

Definition assign (self : t) (a : assignment) : t :=
  match a with
  | assign_cube value => ObjectCollider.set_cubeDefinition self value
  | assign_sphere value => ObjectCollider.set_sphereDefinition self value
  | assign_mesh value => ObjectCollider.set_meshDefinition self value
  end.

End ObjectColliderSpec.

Module MeshBufferSpec.
Import BufferProtocol.

(** What [VertexBuffer(b)] accepts: exactly the float buffers of two
    dimensions with three columns and the strides of a C-contiguous
    array. *)
Definition contiguous_float_Nx3 (info : buffer_info) : Prop :=
  format info = "f" /\ ndim info = 2 /\ nth 1 (shape info) 0 = 3
  /\ nth 0 (strides info) 0 = 12 /\ nth 1 (strides info) 0 = 4.

(** What [IndexBuffer(b)] accepts: any buffer of one dimension with a
    stride of four bytes and a length divisible by three.  The format of
    the elements is not looked at. *)
Definition stride4_1D_multiple_of_3 (info : buffer_info) : Prop :=
  ndim info = 1 /\ nth 0 (strides info) 0 = 4 /\ Z.rem (nth 0 (shape info) 0) 3 = 0.

(** [numpy.zeros(3, dtype=numpy.float32)]: three floats, contiguous. *)
Definition three_floats : buffer_info :=
  {| ptr := 4096; itemsize := 4; format := "f"; ndim := 1; shape := [3]; strides := [4] |}.

(** [numpy.zeros((2, 3), dtype=numpy.float32)] *)
Definition two_vertices : buffer_info :=
  {| ptr := 4096; itemsize := 4; format := "f"; ndim := 2; shape := [2; 3];
     strides := [12; 4] |}.

(** [numpy.zeros(6, dtype=numpy.uint32)] *)
Definition six_indices : buffer_info :=
  {| ptr := 8192; itemsize := 4; format := "I"; ndim := 1; shape := [6]; strides := [4] |}.

End MeshBufferSpec.

Module CAPISpec.
Import CAPI.

(** The code the library returned from the last call of a run. *)
Definition last_code (tr : list event) : option Fove_ErrorCode.t :=
  match rev tr with
  | ev :: _ => Some (ev_code ev)
  | [] => None
  end.

(** Every call of the run went to the entry point [name]. *)
Definition calls_only (name : string) (tr : list event) : bool :=
  forallb (fun ev => String.eqb (entry_name (ev_call ev)) name) tr.

(** A function of the module forwards verbatim when, whatever the library
    does, it makes exactly one call, to the entry point [fove_<name>], and
    returns the code that call returned. *)
Definition forwards_verbatim (b : binding) : Prop :=
  forall (World : Type) (native : library World) (args : Args b) (w : World),
  exists ev : event,
    trace native (body b args) w = [ev]
    /\ entry_name (ev_call ev) = "fove_" ++ py_name b
    /\ returns_code b = true
    /\ code b (result native (body b args) w) = ev_code ev.

(** What every function of the module does: it calls only its own entry
    point, once (twice at most for [Headset_queryLicenses]), and the code
    the caller receives is the one the last call returned. *)
Definition forwards (b : binding) : Prop :=
  forall (World : Type) (native : library World) (args : Args b) (w : World),
    let tr := trace native (body b args) w in
    calls_only ("fove_" ++ py_name b) tr = true
    /\ last_code tr = Some (code b (result native (body b args) w))
    /\ (if String.eqb (py_name b) "Headset_queryLicenses"
        then (List.length tr = 1 \/ List.length tr = 2)%nat
        else List.length tr = 1%nat).

(** The functions whose return value is not the error code. *)
Definition returns_a_list (b : binding) : bool := negb (returns_code b).

(** A library holding one license: asked for the count it reports one,
    handed an array it fills in the license; every other call succeeds and
    leaves the out parameters as they are. *)
Definition one_license : Fove_LicenseInfo.t :=
  Fove_LicenseInfo.mk (repeat 0 16) 2028 12 31 "Professional" "FOVE".

Definition licensed : library unit :=
  fun (O : Type) (c : call O) =>
    match c in call O return O -> unit -> (Fove_ErrorCode.t * O) * unit with
    | fove_Headset_queryLicenses _ =>
        fun out w =>
          match fst out with
          | None => ((Fove_ErrorCode.None_, (None, 1)), w)
          | Some _ => ((Fove_ErrorCode.None_, (Some [one_license], 1)), w)
          end
    | _ => fun out w => ((Fove_ErrorCode.None_, out), w)
    end.

(** A library without a connection: every call fails and writes nothing. *)
Definition disconnected : library unit :=
  fun (O : Type) (c : call O) (out : O) (w : unit) =>
    ((Fove_ErrorCode.Connect_NotConnected, out), w).

End CAPISpec.

(** ** What crosses between the caller and the library

    To say that a wrapper passes its arguments on unchanged and hands back
    what the library wrote, the values on both sides are listed in order:
    on the caller's side the arguments and the results of the Python
    function, on the library's side the arguments of the C entry point and
    the content of its out parameters. *)

Module Crossings.
Import CAPI.

(** A value of any type. *)
Record value : Type := Value { type_of : Type; the : type_of }.
Arguments Value {type_of} the.

(** How the values of a type cross the boundary: a tuple as its components
    in order, a box [Obj<T>] as the value it holds, a string as the C
    string it starts with, the two structs with C arrays field by field
    with each array as the C string it holds, and every other value as it
    is. *)
Class Crossing (T : Type) : Type := crossing : T -> list value.

#[export] Instance Crossing_unit : Crossing unit := fun _ => [].

#[export] Instance Crossing_pair (A B : Type) `{Crossing A} `{Crossing B}
  : Crossing (A * B) :=
  fun p => (crossing (fst p) ++ crossing (snd p))%list.

#[export] Instance Crossing_Obj (T : Type) `{Crossing T} : Crossing (Obj T) :=
  fun o => crossing (val o).

#[export] Instance Crossing_string : Crossing string := fun s => [Value (c_string s)].

#[export] Instance Crossing_Fove_Versions : Crossing Fove_Versions.t :=
  fun v =>
    [Value (Fove_Versions.clientMajor v); Value (Fove_Versions.clientMinor v);
     Value (Fove_Versions.clientBuild v); Value (Fove_Versions.clientProtocol v);
     Value (c_string (Fove_Versions.clientHash v));
     Value (Fove_Versions.runtimeMajor v); Value (Fove_Versions.runtimeMinor v);
     Value (Fove_Versions.runtimeBuild v);
     Value (c_string (Fove_Versions.runtimeHash v));
     Value (Fove_Versions.firmware v); Value (Fove_Versions.maxFirmware v);
     Value (Fove_Versions.minFirmware v);
     Value (Fove_Versions.tooOldHeadsetConnected v)].

#[export] Instance Crossing_Python_Versions : Crossing Python_Versions.t :=
  fun v =>
    [Value (Python_Versions.clientMajor v); Value (Python_Versions.clientMinor v);
     Value (Python_Versions.clientBuild v); Value (Python_Versions.clientProtocol v);
     Value (Python_Versions.clientHash v);
     Value (Python_Versions.runtimeMajor v); Value (Python_Versions.runtimeMinor v);
     Value (Python_Versions.runtimeBuild v);
     Value (Python_Versions.runtimeHash v);
     Value (Python_Versions.firmware v); Value (Python_Versions.maxFirmware v);
     Value (Python_Versions.minFirmware v);
     Value (Python_Versions.tooOldHeadsetConnected v)].

#[export] Instance Crossing_Fove_HeadsetHardwareInfo
  : Crossing Fove_HeadsetHardwareInfo.t :=
  fun i =>
    [Value (c_string (Fove_HeadsetHardwareInfo.serialNumber i));
     Value (c_string (Fove_HeadsetHardwareInfo.manufacturer i));
     Value (c_string (Fove_HeadsetHardwareInfo.modelName i))].

#[export] Instance Crossing_Python_HeadsetHardwareInfo
  : Crossing Python_HeadsetHardwareInfo.t :=
  fun i =>
    [Value (Python_HeadsetHardwareInfo.serialNumber i);
     Value (Python_HeadsetHardwareInfo.manufacturer i);
     Value (Python_HeadsetHardwareInfo.modelName i)].

#[export] Instance Crossing_whole (T : Type) : Crossing T | 100 := fun x => [Value x].

(** The value arguments of an entry point, in the order of its C
    parameters, and the content of its out parameters. *)
Definition in_values {O : Type} (c : call O) : list value :=
  match c with
  | fove_logText level utf8Text => crossing (level, utf8Text)
  | fove_createHeadset capabilities => crossing capabilities
  | fove_Headset_destroy headset => crossing headset
  | fove_Headset_isHardwareConnected headset => crossing headset
  | fove_Headset_isMotionReady headset => crossing headset
  | fove_Headset_checkSoftwareVersions headset => crossing headset
  | fove_Headset_querySoftwareVersions headset => crossing headset
  | fove_Headset_queryLicenses headset => crossing headset
  | fove_Headset_queryHardwareInfo headset => crossing headset
  | fove_Headset_registerCapabilities headset caps => crossing (headset, caps)
  | fove_Headset_registerPassiveCapabilities headset caps => crossing (headset, caps)
  | fove_Headset_unregisterCapabilities headset caps => crossing (headset, caps)
  | fove_Headset_unregisterPassiveCapabilities headset caps => crossing (headset, caps)
  | fove_Headset_waitForProcessedEyeFrame headset => crossing headset
  | fove_Headset_fetchEyeTrackingData headset => crossing headset
  | fove_Headset_fetchEyesImage headset => crossing headset
  | fove_Headset_getEyeTrackingDataTimestamp headset => crossing headset
  | fove_Headset_getEyesImageTimestamp headset => crossing headset
  | fove_Headset_getGazeVector headset eye => crossing (headset, eye)
  | fove_Headset_getGazeVectorRaw headset eye => crossing (headset, eye)
  | fove_Headset_getGazeScreenPosition headset eye => crossing (headset, eye)
  | fove_Headset_getGazeScreenPositionCombined headset => crossing headset
  | fove_Headset_getCombinedGazeRay headset => crossing headset
  | fove_Headset_getCombinedGazeDepth headset => crossing headset
  | fove_Headset_isUserShiftingAttention headset => crossing headset
  | fove_Headset_getEyeState headset eye => crossing (headset, eye)
  | fove_Headset_isEyeBlinking headset eye => crossing (headset, eye)
  | fove_Headset_getEyeBlinkCount headset eye => crossing (headset, eye)
  | fove_Headset_isEyeTrackingEnabled headset => crossing headset
  | fove_Headset_isEyeTrackingCalibrated headset => crossing headset
  | fove_Headset_isEyeTrackingCalibrating headset => crossing headset
  | fove_Headset_isEyeTrackingCalibratedForGlasses headset => crossing headset
  | fove_Headset_isHmdAdjustmentGuiVisible headset => crossing headset
  | fove_Headset_hasHmdAdjustmentGuiTimeout headset => crossing headset
  | fove_Headset_isEyeTrackingReady headset => crossing headset
  | fove_Headset_isUserPresent headset => crossing headset
  | fove_Headset_getEyesImage headset => crossing headset
  | fove_Headset_getUserIPD headset => crossing headset
  | fove_Headset_getUserIOD headset => crossing headset
  | fove_Headset_getPupilRadius headset eye => crossing (headset, eye)
  | fove_Headset_getIrisRadius headset eye => crossing (headset, eye)
  | fove_Headset_getEyeballRadius headset eye => crossing (headset, eye)
  | fove_Headset_getEyeTorsion headset eye => crossing (headset, eye)
  | fove_Headset_getEyeShape headset eye => crossing (headset, eye)
  | fove_Headset_getPupilShape headset eye => crossing (headset, eye)
  | fove_Headset_startHmdAdjustmentProcess headset lazy => crossing (headset, lazy)
  | fove_Headset_tickHmdAdjustmentProcess headset deltaTime isVisible =>
      crossing (headset, deltaTime, isVisible)
  | fove_Headset_startEyeTrackingCalibration headset options =>
      crossing (headset, options)
  | fove_Headset_stopEyeTrackingCalibration headset => crossing headset
  | fove_Headset_getEyeTrackingCalibrationState headset => crossing headset
  | fove_Headset_getEyeTrackingCalibrationStateDetails headset => crossing headset
  | fove_Headset_tickEyeTrackingCalibration headset deltaTime isVisible =>
      crossing (headset, deltaTime, isVisible)
  | fove_Headset_getGazedObjectId headset => crossing headset
  | fove_Headset_registerGazableObject headset gazableObj =>
      crossing (headset, gazableObj)
  | fove_Headset_updateGazableObject headset id pose => crossing (headset, id, pose)
  | fove_Headset_removeGazableObject headset id => crossing (headset, id)
  | fove_Headset_registerCameraObject headset cameraObj => crossing (headset, cameraObj)
  | fove_Headset_updateCameraObject headset id pose => crossing (headset, id, pose)
  | fove_Headset_removeCameraObject headset id => crossing (headset, id)
  | fove_Headset_tareOrientationSensor headset => crossing headset
  | fove_Headset_isPositionReady headset => crossing headset
  | fove_Headset_tarePositionSensors headset => crossing headset
  | fove_Headset_fetchPoseData headset => crossing headset
  | fove_Headset_fetchPositionImage headset => crossing headset
  | fove_Headset_getPoseDataTimestamp headset => crossing headset
  | fove_Headset_getPositionImageTimestamp headset => crossing headset
  | fove_Headset_getPose headset => crossing headset
  | fove_Headset_getPositionImage headset => crossing headset
  | fove_Headset_getProjectionMatricesLH headset zNear zFar =>
      crossing (headset, zNear, zFar)
  | fove_Headset_getProjectionMatricesRH headset zNear zFar =>
      crossing (headset, zNear, zFar)
  | fove_Headset_getRawProjectionValues headset => crossing headset
  | fove_Headset_getEyeToHeadMatrices headset => crossing headset
  | fove_Headset_getRenderIOD headset => crossing headset
  | fove_Headset_createProfile headset profileName => crossing (headset, profileName)
  | fove_Headset_renameProfile headset oldName newName =>
      crossing (headset, oldName, newName)
  | fove_Headset_deleteProfile headset profileName => crossing (headset, profileName)
  | fove_Headset_listProfiles headset => crossing headset
  | fove_Headset_setCurrentProfile headset profileName =>
      crossing (headset, profileName)
  | fove_Headset_queryCurrentProfile headset => crossing headset
  | fove_Headset_queryProfileDataPath headset profileName =>
      crossing (headset, profileName)
  | fove_Headset_hasAccessToFeature headset featureName =>
      crossing (headset, featureName)
  | fove_Headset_activateLicense headset licenseKey => crossing (headset, licenseKey)
  | fove_Headset_deactivateLicense headset licenseData =>
      crossing (headset, licenseData)
  | fove_Headset_createCompositor headset => crossing headset
  | fove_Compositor_destroy compositor => crossing compositor
  | fove_Compositor_createLayer compositor layerInfo => crossing (compositor, layerInfo)
  | fove_Compositor_submit compositor submitInfo layerCount =>
      crossing (compositor, submitInfo, layerCount)
  | fove_Compositor_waitForRenderPose compositor => crossing compositor
  | fove_Compositor_getLastRenderPose compositor => crossing compositor
  | fove_Compositor_isReady compositor => crossing compositor
  | fove_Compositor_queryAdapterId compositor => crossing compositor
  | fove_Config_getValue_bool key => crossing key
  | fove_Config_getValue_int key => crossing key
  | fove_Config_getValue_float key => crossing key
  | fove_Config_getValue_string key => crossing key
  | fove_Config_setValue_bool key value => crossing (key, value)
  | fove_Config_setValue_int key value => crossing (key, value)
  | fove_Config_setValue_float key value => crossing (key, value)
  | fove_Config_setValue_string key value => crossing (key, value)
  | fove_Config_clearValue key => crossing key
  end.

Definition out_values {O : Type} (c : call O) : O -> list value :=
  match c in call T return T -> list value with
  | fove_logText _ _ => crossing
  | fove_createHeadset _ => crossing
  | fove_Headset_destroy _ => crossing
  | fove_Headset_isHardwareConnected _ => crossing
  | fove_Headset_isMotionReady _ => crossing
  | fove_Headset_checkSoftwareVersions _ => crossing
  | fove_Headset_querySoftwareVersions _ => crossing
  | fove_Headset_queryLicenses _ => crossing
  | fove_Headset_queryHardwareInfo _ => crossing
  | fove_Headset_registerCapabilities _ _ => crossing
  | fove_Headset_registerPassiveCapabilities _ _ => crossing
  | fove_Headset_unregisterCapabilities _ _ => crossing
  | fove_Headset_unregisterPassiveCapabilities _ _ => crossing
  | fove_Headset_waitForProcessedEyeFrame _ => crossing
  | fove_Headset_fetchEyeTrackingData _ => crossing
  | fove_Headset_fetchEyesImage _ => crossing
  | fove_Headset_getEyeTrackingDataTimestamp _ => crossing
  | fove_Headset_getEyesImageTimestamp _ => crossing
  | fove_Headset_getGazeVector _ _ => crossing
  | fove_Headset_getGazeVectorRaw _ _ => crossing
  | fove_Headset_getGazeScreenPosition _ _ => crossing
  | fove_Headset_getGazeScreenPositionCombined _ => crossing
  | fove_Headset_getCombinedGazeRay _ => crossing
  | fove_Headset_getCombinedGazeDepth _ => crossing
  | fove_Headset_isUserShiftingAttention _ => crossing
  | fove_Headset_getEyeState _ _ => crossing
  | fove_Headset_isEyeBlinking _ _ => crossing
  | fove_Headset_getEyeBlinkCount _ _ => crossing
  | fove_Headset_isEyeTrackingEnabled _ => crossing
  | fove_Headset_isEyeTrackingCalibrated _ => crossing
  | fove_Headset_isEyeTrackingCalibrating _ => crossing
  | fove_Headset_isEyeTrackingCalibratedForGlasses _ => crossing
  | fove_Headset_isHmdAdjustmentGuiVisible _ => crossing
  | fove_Headset_hasHmdAdjustmentGuiTimeout _ => crossing
  | fove_Headset_isEyeTrackingReady _ => crossing
  | fove_Headset_isUserPresent _ => crossing
  | fove_Headset_getEyesImage _ => crossing
  | fove_Headset_getUserIPD _ => crossing
  | fove_Headset_getUserIOD _ => crossing
  | fove_Headset_getPupilRadius _ _ => crossing
  | fove_Headset_getIrisRadius _ _ => crossing
  | fove_Headset_getEyeballRadius _ _ => crossing
  | fove_Headset_getEyeTorsion _ _ => crossing
  | fove_Headset_getEyeShape _ _ => crossing
  | fove_Headset_getPupilShape _ _ => crossing
  | fove_Headset_startHmdAdjustmentProcess _ _ => crossing
  | fove_Headset_tickHmdAdjustmentProcess _ _ _ => crossing
  | fove_Headset_startEyeTrackingCalibration _ _ => crossing
  | fove_Headset_stopEyeTrackingCalibration _ => crossing
  | fove_Headset_getEyeTrackingCalibrationState _ => crossing
  | fove_Headset_getEyeTrackingCalibrationStateDetails _ => crossing
  | fove_Headset_tickEyeTrackingCalibration _ _ _ => crossing
  | fove_Headset_getGazedObjectId _ => crossing
  | fove_Headset_registerGazableObject _ _ => crossing
  | fove_Headset_updateGazableObject _ _ _ => crossing
  | fove_Headset_removeGazableObject _ _ => crossing
  | fove_Headset_registerCameraObject _ _ => crossing
  | fove_Headset_updateCameraObject _ _ _ => crossing
  | fove_Headset_removeCameraObject _ _ => crossing
  | fove_Headset_tareOrientationSensor _ => crossing
  | fove_Headset_isPositionReady _ => crossing
  | fove_Headset_tarePositionSensors _ => crossing
  | fove_Headset_fetchPoseData _ => crossing
  | fove_Headset_fetchPositionImage _ => crossing
  | fove_Headset_getPoseDataTimestamp _ => crossing
  | fove_Headset_getPositionImageTimestamp _ => crossing
  | fove_Headset_getPose _ => crossing
  | fove_Headset_getPositionImage _ => crossing
  | fove_Headset_getProjectionMatricesLH _ _ _ => crossing
  | fove_Headset_getProjectionMatricesRH _ _ _ => crossing
  | fove_Headset_getRawProjectionValues _ => crossing
  | fove_Headset_getEyeToHeadMatrices _ => crossing
  | fove_Headset_getRenderIOD _ => crossing
  | fove_Headset_createProfile _ _ => crossing
  | fove_Headset_renameProfile _ _ _ => crossing
  | fove_Headset_deleteProfile _ _ => crossing
  | fove_Headset_listProfiles _ => crossing
  | fove_Headset_setCurrentProfile _ _ => crossing
  | fove_Headset_queryCurrentProfile _ => crossing
  | fove_Headset_queryProfileDataPath _ _ => crossing
  | fove_Headset_hasAccessToFeature _ _ => crossing
  | fove_Headset_activateLicense _ _ => crossing
  | fove_Headset_deactivateLicense _ _ => crossing
  | fove_Headset_createCompositor _ => crossing
  | fove_Compositor_destroy _ => crossing
  | fove_Compositor_createLayer _ _ => crossing
  | fove_Compositor_submit _ _ _ => crossing
  | fove_Compositor_waitForRenderPose _ => crossing
  | fove_Compositor_getLastRenderPose _ => crossing
  | fove_Compositor_isReady _ => crossing
  | fove_Compositor_queryAdapterId _ => crossing
  | fove_Config_getValue_bool _ => crossing
  | fove_Config_getValue_int _ => crossing
  | fove_Config_getValue_float _ => crossing
  | fove_Config_getValue_string _ => crossing
  | fove_Config_setValue_bool _ _ => crossing
  | fove_Config_setValue_int _ _ => crossing
  | fove_Config_setValue_float _ _ => crossing
  | fove_Config_setValue_string _ _ => crossing
  | fove_Config_clearValue _ => crossing
  end.

(** What the library received in a call: the value arguments, then what
    the out parameters held. *)
Definition received (ev : event) : list value :=
  (in_values (ev_call ev) ++ out_values (ev_call ev) (ev_before ev))%list.

(** What the library wrote in a call: the content of the out parameters
    after it. *)
Definition written (ev : event) : list value :=
  out_values (ev_call ev) (ev_after ev).

(** A function of the module with the way its arguments and its results
    cross. *)
Record crossed : Type := crosses {
  binding_of : binding;
  args_cross : Crossing (Args binding_of);
  res_cross : Crossing (Res binding_of)
}.

Ltac crossings_of l :=
  lazymatch l with
  | @nil _ => constr:(@nil crossed)
  | ?b :: ?rest =>
      let A := eval cbn in (Args b) in
      let R := eval cbn in (Res b) in
      let ca := constr:(_ : Crossing A) in
      let cr := constr:(_ : Crossing R) in
      let tl := crossings_of rest in
      constr:(@crosses b ca cr :: tl)
  end.

(** The functions of [bind_CAPIs], each with the crossing of its argument
    and result types. *)
Definition bind_CAPIs_crossings : list crossed :=
  ltac:(let l := eval unfold bind_CAPIs in bind_CAPIs in
        let r := crossings_of l in
        exact r).

(** The nine functions that translate between the C types of the library
    and types of the binding's own; the other 91 forward. *)
Definition translating : list string :=
  ["Headset_querySoftwareVersions"; "Headset_queryLicenses"; "Headset_queryHardwareInfo";
   "Headset_getEyeTrackingCalibrationStateDetails"; "Headset_tickEyeTrackingCalibration";
   "Headset_listProfiles"; "Headset_queryCurrentProfile"; "Headset_queryProfileDataPath";
   "Config_getValue_string"].

Definition forwarder (x : crossed) : bool :=
  negb (existsb (String.eqb (py_name (binding_of x))) translating).

(** A function passes through when, whatever the library does, it makes
    exactly one call, to the entry point [fove_<name>]; the library
    receives the values the caller passed, in the caller's order; the
    function returns the code that call returned; and the results the
    caller finds are that code and the values the library wrote. *)
Definition passes_through (x : crossed) : Prop :=
  forall (World : Type) (native : library World) (args : Args (binding_of x)) (w : World),
  exists ev : event,
    run native (body (binding_of x) args) w
    = (result native (body (binding_of x) args) w, [ev],
       snd (native _ (ev_call ev) (ev_before ev) w))
    /\ native _ (ev_call ev) (ev_before ev) w
       = ((ev_code ev, ev_after ev), snd (native _ (ev_call ev) (ev_before ev) w))
    /\ entry_name (ev_call ev) = "fove_" ++ py_name (binding_of x)
    /\ received ev = @crossing _ (args_cross x) args
    /\ @crossing _ (res_cross x) (result native (body (binding_of x) args) w)
       = Value (ev_code ev) :: written ev
    /\ returns_code (binding_of x) = true
    /\ code (binding_of x) (result native (body (binding_of x) args) w) = ev_code ev.

(** A program makes exactly one call, whatever the library does: the
    call [c] with the out parameters holding [before]; it returns [back]
    of the library's answer. *)
Definition calls_once {R O : Type} (p : Prog R) (c : call O) (before : O)
    (back : Fove_ErrorCode.t * O -> R) : Prop :=
  forall (World : Type) (native : library World) (w : World),
    run native p w
    = (back (fst (native _ c before w)),
       [mkEvent c before (fst (fst (native _ c before w)))
                (snd (fst (native _ c before w)))],
       snd (native _ c before w)).

(** [Headset_querySoftwareVersions] and [Headset_queryHardwareInfo]: the
    library is handed the headset and a local struct of the wrapper; what
    it writes there reaches the caller's object field by field, each C
    array as the C string it holds. *)
Definition structs_copied_out : Prop :=
  (forall (versions : Fove_Versions.t) (headset : Headset)
          (outVersions : Python_Versions.t),
     exists back : Fove_ErrorCode.t * Fove_Versions.t
                   -> Fove_ErrorCode.t * Python_Versions.t,
       calls_once (Headset_querySoftwareVersions versions headset outVersions)
                  (fove_Headset_querySoftwareVersions (val headset)) versions back
       /\ forall r, crossing (back r) = Value (fst r) :: crossing (snd r))
  /\ (forall (info : Fove_HeadsetHardwareInfo.t) (headset : Headset)
             (outHardwareInfo : Python_HeadsetHardwareInfo.t),
        exists back : Fove_ErrorCode.t * Fove_HeadsetHardwareInfo.t
                      -> Fove_ErrorCode.t * Python_HeadsetHardwareInfo.t,
          calls_once (Headset_queryHardwareInfo info headset outHardwareInfo)
                     (fove_Headset_queryHardwareInfo (val headset)) info back
          /\ forall r, crossing (back r) = Value (fst r) :: crossing (snd r)).

(** The six functions that hand the library a callback.  The library's
    answer lists the arguments of the invocations of the callback, in
    order.  [Headset_listProfiles] returns the C string of every
    invocation; the three string getters leave in the box the C string of
    the last invocation and the two calibration getters leave in [data] the
    conversion of the last one, or what was there when there was none. *)
Definition callbacks_collected : Prop :=
  (forall (headset : Headset) (err : Fove_ErrorCode.t),
     calls_once (Headset_listProfiles headset err)
                (fove_Headset_listProfiles (val headset)) []
                (fun r => (map c_string (snd r), fst r)))
  /\ (forall (headset : Headset) (profileName : Obj string),
        calls_once (Headset_queryCurrentProfile headset profileName)
                   (fove_Headset_queryCurrentProfile (val headset)) []
                   (fun r => (fst r, mkObj (last (map c_string (snd r)) (val profileName)))))
  /\ (forall (headset : Headset) (profileName : string) (dataPath : Obj string),
        calls_once (Headset_queryProfileDataPath headset profileName dataPath)
                   (fove_Headset_queryProfileDataPath (val headset) (c_string profileName))
                   []
                   (fun r => (fst r, mkObj (last (map c_string (snd r)) (val dataPath)))))
  /\ (forall (key : string) (outValue : Obj string),
        calls_once (Config_getValue_string key outValue)
                   (fove_Config_getValue_string key) []
                   (fun r => (fst r, mkObj (last (map c_string (snd r)) (val outValue)))))
  /\ (forall (headset : Headset) (data : CalibrationData.t),
        calls_once (Headset_getEyeTrackingCalibrationStateDetails headset data)
                   (fove_Headset_getEyeTrackingCalibrationStateDetails (val headset)) []
                   (fun r => (fst r, last (map CalibrationData.FromNative (snd r)) data)))
  /\ (forall (headset : Headset) (deltaTime : Float32.float) (isVisible : bool)
             (data : CalibrationData.t),
        calls_once (Headset_tickEyeTrackingCalibration headset deltaTime isVisible data)
                   (fove_Headset_tickEyeTrackingCalibration (val headset) deltaTime
                                                            isVisible) []
                   (fun r => (fst r, last (map CalibrationData.FromNative (snd r)) data))).

(** [Headset_queryLicenses]: a first call with no array and the count 0;
    when it fails or reports no license, that is all, and the list is
    empty.  Otherwise a second call, with a zeroed array of as many
    licenses as the first call reported and that count; after it the list
    is empty on an error and else holds the copies of as many elements of
    the array as the second call reported.  The code is the one of the
    last call made. *)
Definition licenses_fetched : Prop :=
  forall (World : Type) (native : library World) (headset : Headset)
         (error : Fove_ErrorCode.t) (w : World),
    let entry := fove_Headset_queryLicenses (val headset) in
    let first := native _ entry (None, 0) w in
    let n := snd (snd (fst first)) in
    let array := repeat zero_LicenseInfo (Z.to_nat n) in
    let second := native _ entry (Some array, n) (snd first) in
    run native (Headset_queryLicenses headset error) w
    = if Fove_ErrorCode.is_error (fst (fst first)) || negb (n >? 0)
      then ((Some [], fst (fst first)),
            [mkEvent entry (None, 0) (fst (fst first)) (snd (fst first))],
            snd first)
      else ((if Fove_ErrorCode.is_error (fst (fst second)) then Some []
             else copy_licenses (array_after array (fst (snd (fst second))))
                                (snd (snd (fst second))),
             fst (fst second)),
            [mkEvent entry (None, 0) (fst (fst first)) (snd (fst first));
             mkEvent entry (Some array, n) (fst (fst second)) (snd (fst second))],
            snd second).

End Crossings.

Module OperatorSpec.
Import CAPI Float32.









(** Sample values: [2.0f], [0.25f], and the negative zero. *)
Definition f2 : float := of_int 2.

End OperatorSpec.

(** ** Further parts of [bindings.cpp] *)

(** *** [Fove_ObjectGroup]: the copied operators and the enum's methods *)

Module ObjectGroup.

Definition operator_or (a b : Fove_ObjectGroup) : Fove_ObjectGroup := Z.lor a b.
Definition operator_and (a b : Fove_ObjectGroup) : Fove_ObjectGroup := Z.land a b.
Definition operator_not (a : Fove_ObjectGroup) : Fove_ObjectGroup := Z.lnot a.

Definition __add__ (grp1 grp2 : Fove_ObjectGroup) : Fove_ObjectGroup :=
  operator_or grp1 grp2.
Definition __sub__ (grp1 grp2 : Fove_ObjectGroup) : Fove_ObjectGroup :=
  operator_and grp1 (operator_not grp2).
Definition __contains__ (grp1 grp2 : Fove_ObjectGroup) : bool :=
  operator_and grp1 grp2 =? grp2.

End ObjectGroup.

(** *** The remaining [operator==] and the comparison of boxes *)

Local Open Scope float32_scope.

Definition operator_eq_FrameTimestamp (self other : Fove_FrameTimestamp.t) : bool :=
  (Fove_FrameTimestamp.id self =? Fove_FrameTimestamp.id other)%Z
  && (Fove_FrameTimestamp.timestamp self =? Fove_FrameTimestamp.timestamp other)%Z.

Definition operator_eq_TextureBounds (self other : Fove_TextureBounds.t) : bool :=
  (Fove_TextureBounds.left self == Fove_TextureBounds.left other)
  && (Fove_TextureBounds.top self == Fove_TextureBounds.top other)
  && (Fove_TextureBounds.right self == Fove_TextureBounds.right other)
  && (Fove_TextureBounds.bottom self == Fove_TextureBounds.bottom other).

Definition operator_eq_BoundingBox (self other : Fove_BoundingBox.t) : bool :=
  operator_eq_Vec3 (Fove_BoundingBox.center self) (Fove_BoundingBox.center other)
  && operator_eq_Vec3 (Fove_BoundingBox.extend self) (Fove_BoundingBox.extend other).

Definition operator_eq_ObjectPose (self other : Fove_ObjectPose.t) : bool :=
  operator_eq_Vec3 (Fove_ObjectPose.scale self) (Fove_ObjectPose.scale other)
  && operator_eq_Quaternion (Fove_ObjectPose.rotation self) (Fove_ObjectPose.rotation other)
  && operator_eq_Vec3 (Fove_ObjectPose.position self) (Fove_ObjectPose.position other)
  && operator_eq_Vec3 (Fove_ObjectPose.velocity self) (Fove_ObjectPose.velocity other).

Definition operator_eq_CalibrationTarget (self other : Fove_CalibrationTarget.t) : bool :=
  operator_eq_Vec3 (Fove_CalibrationTarget.position self)
                   (Fove_CalibrationTarget.position other)
  && (Fove_CalibrationTarget.recommendedSize self
      == Fove_CalibrationTarget.recommendedSize other).

(** [operator==] and [operator!=] on [Obj<T>], over the [==] of [T] *)
Definition operator_eq_Obj {T : Type} (eq : T -> T -> bool) (a b : Obj T) : bool :=
  eq (val a) (val b).
Definition operator_ne_Obj {T : Type} (eq : T -> T -> bool) (a b : Obj T) : bool :=
  negb (eq (val a) (val b)).

(** The methods of the boxes [Bool], [Int] and [Float] next to their
    constructors: the conversion, the three overloads of [__eq__] and
    [__ne__] (box with box, box with value, value with box), and the
    negation. *)
Module BoolBox.
Definition __bool__ (b : Obj bool) : bool := val b.
Definition __eq__ (self other : Obj bool) : bool := operator_eq_Obj Bool.eqb self other.
Definition __eq__value (self : Obj bool) (other : bool) : bool := Bool.eqb (val self) other.
Definition __eq__reflected (other : bool) (self : Obj bool) : bool :=
  Bool.eqb (val self) other.
Definition __ne__ (self other : Obj bool) : bool := operator_ne_Obj Bool.eqb self other.
Definition __ne__value (self : Obj bool) (other : bool) : bool :=
  negb (Bool.eqb (val self) other).
Definition __ne__reflected (other : bool) (self : Obj bool) : bool :=
  negb (Bool.eqb (val self) other).
Definition __not__ (self : Obj bool) : Obj bool := mkObj (negb (val self)).
End BoolBox.

Module IntBox.
Definition __int__ (b : Obj Z) : Z := val b.
Definition __eq__ (self other : Obj Z) : bool := operator_eq_Obj Z.eqb self other.
Definition __eq__value (self : Obj Z) (other : Z) : bool := (val self =? other)%Z.
Definition __ne__ (self other : Obj Z) : bool := operator_ne_Obj Z.eqb self other.
Definition __ne__value (self : Obj Z) (other : Z) : bool := negb (val self =? other)%Z.
End IntBox.

Module FloatBox.
Definition __float__ (b : Obj float) : float := val b.
Definition __eq__ (self other : Obj float) : bool := operator_eq_Obj feqb self other.
Definition __eq__value (self : Obj float) (other : float) : bool := val self == other.
Definition __ne__ (self other : Obj float) : bool := operator_ne_Obj feqb self other.
Definition __ne__value (self : Obj float) (other : float) : bool :=
  negb (val self == other).
End FloatBox.

Local Close Scope float32_scope.

(** *** [assert_layout] and the buffers of the classes *)

Module ClassBuffers.
Import BufferProtocol.

(** [assert_layout<Struct, ElemType, Size>()]: whether the two
    [static_assert]s hold, given [std::is_standard_layout<Struct>] and
    [sizeof(Struct)]. *)
Definition assert_layout (is_standard_layout : bool) (sizeof_Struct : Z)
    (ElemType : Elem) (Size : nat) : bool :=
  is_standard_layout && (sizeof_Struct =? Z.of_nat Size * sizeof ElemType).

(** The [def_buffer] lambdas of [Quaternion], [Vec3], [Vec2] and [Vec2i]:
    the struct at address [obj] is reinterpreted as an array. *)
Definition Quaternion_def_buffer (obj : pointer) : buffer_info :=
  define_1D_buffer_protocol c_float obj 4.
Definition Vec3_def_buffer (obj : pointer) : buffer_info :=
  define_1D_buffer_protocol c_float obj 3.
Definition Vec2_def_buffer (obj : pointer) : buffer_info :=
  define_1D_buffer_protocol c_float obj 2.
Definition Vec2i_def_buffer (obj : pointer) : buffer_info :=
  define_1D_buffer_protocol c_int obj 2.

(** [Matrix44]: [define_2D_buffer_protocol(obj.val.mat)], [mat] a
    [float[4][4]] at address [mat]. *)
Definition Matrix44_def_buffer (mat : pointer) : buffer_info :=
  define_2D_buffer_protocol c_float mat 4 4.

(** [Buffer]: the [py::buffer_info] written out in [defstruct_Buffer]. *)
Definition Buffer_def_buffer (buf : Fove_Buffer.t) : buffer_info :=
  {| ptr := Fove_Buffer.data buf;
     itemsize := sizeof c_unsigned_char;
     format := format_descriptor c_unsigned_char;
     ndim := 1;
     shape := [Fove_Buffer.length buf];
     strides := [sizeof c_unsigned_char] |}.

(** [EyeShape]: the [py::buffer_info] written out in [defstruct_EyeShape],
    over [outline], an array of twelve [Fove_Vec2] at address [outline]. *)
Definition EyeShape_def_buffer (outline : pointer) : buffer_info :=
  {| ptr := outline;
     itemsize := sizeof c_float;
     format := format_descriptor c_float;
     ndim := 2;
     shape := [12; 2];
     strides := [sizeof c_float * 2; sizeof c_float] |}.

End ClassBuffers.

(** *** The attributes of [CalibrationData]

    [def_readwrite(name, &CalibrationData::member)] gives the Python
    attribute [name] a getter that returns [member] and a setter that
    assigns it.  The attribute [stateInfo] is registered over the member
    [state]. *)
Module CalibrationDataAttributes.
Import CalibrationData.

Definition get_method (self : t) : Fove_CalibrationMethod.t := method self.
Definition set_method (self : t) (value : Fove_CalibrationMethod.t) : t :=
  mk value (state self) (stateInfo self) (targetL self) (targetR self).

Definition get_state (self : t) : Fove_CalibrationState.t := state self.
Definition set_state (self : t) (value : Fove_CalibrationState.t) : t :=
  mk (method self) value (stateInfo self) (targetL self) (targetR self).

Definition get_stateInfo (self : t) : Fove_CalibrationState.t := state self.
Definition set_stateInfo (self : t) (value : Fove_CalibrationState.t) : t :=
  mk (method self) value (stateInfo self) (targetL self) (targetR self).

Definition get_targetL (self : t) : Fove_CalibrationTarget.t := targetL self.
Definition set_targetL (self : t) (value : Fove_CalibrationTarget.t) : t :=
  mk (method self) (state self) (stateInfo self) value (targetR self).

Definition get_targetR (self : t) : Fove_CalibrationTarget.t := targetR self.
Definition set_targetR (self : t) (value : Fove_CalibrationTarget.t) : t :=
  mk (method self) (state self) (stateInfo self) (targetL self) value.

End CalibrationDataAttributes.

(** ** Notions used to state the further properties *)

Module MoreSpec.
Import Float32 CAPI.

Definition is_nan (x : float) : bool :=
  match x with S754_nan => true | _ => false end.

Definition is_zero (x : float) : bool :=
  match x with S754_zero _ => true | _ => false end.

(** Neither a NaN nor an infinity. *)
Definition is_finite (x : float) : bool :=
  match x with S754_zero _ | S754_finite _ _ _ => true | _ => false end.

Definition is_infinite (x : float) : bool :=
  match x with S754_infinity _ => true | _ => false end.

(** The sign bit of a float that is not a NaN. *)
Definition sign (x : float) : bool :=
  match x with
  | S754_zero s | S754_infinity s | S754_finite s _ _ => s
  | S754_nan => false
  end.

(** What IEEE 754 makes of the product of an infinity of sign [s] and a
    finite [c]: a NaN when [c] is a zero, else the infinity whose sign is
    the product of the signs. *)
Definition infinity_times (s : bool) (c : float) : float :=
  if is_zero c then S754_nan else S754_infinity (xorb s (sign c)).

Definition Quaternion_components (q : Fove_Quaternion.t) : list float :=
  [Fove_Quaternion.x q; Fove_Quaternion.y q; Fove_Quaternion.z q; Fove_Quaternion.w q].

(** A property of each of the four components. *)
Definition Quaternion_all (P : float -> bool) (q : Fove_Quaternion.t) : bool :=
  P (Fove_Quaternion.x q) && P (Fove_Quaternion.y q)
  && P (Fove_Quaternion.z q) && P (Fove_Quaternion.w q).

Definition Quaternion_has_nan (q : Fove_Quaternion.t) : bool :=
  is_nan (Fove_Quaternion.x q) || is_nan (Fove_Quaternion.y q)
  || is_nan (Fove_Quaternion.z q) || is_nan (Fove_Quaternion.w q).

Definition Vec3_has_nan (v : Fove_Vec3.t) : bool :=
  is_nan (Fove_Vec3.x v) || is_nan (Fove_Vec3.y v) || is_nan (Fove_Vec3.z v).

Definition Vec2_has_nan (v : Fove_Vec2.t) : bool :=
  is_nan (Fove_Vec2.x v) || is_nan (Fove_Vec2.y v).

Definition Quaternion_nan : Fove_Quaternion.t :=
  Fove_Quaternion.mk S754_nan S754_nan S754_nan S754_nan.

(** The characters of a string hold a NUL. *)
Fixpoint has_nul (s : string) : bool :=
  match s with
  | EmptyString => false
  | String c s' => Ascii.eqb c "000"%char || has_nul s'
  end.

(** Every element a buffer exposes lies within the [size] bytes that
    start at its [ptr]. *)
Definition within (size : Z) (b : BufferProtocol.buffer_info) : bool :=
  forallb (fun o => (0 <=? o) && (o + BufferProtocol.itemsize b <=? size))
          (BufferProtocol.element_offsets b).

(** A [ColliderArray] after [add] has been called with each collider of
    [cs] in turn. *)
Definition ColliderArray_of (cs : list Fove_ObjectCollider.t) : ColliderArray.t :=
  fold_left ColliderArray.add cs ColliderArray.__init__.

(** [c = ObjectCollider(); c.cubeDefinition = ColliderCube()] and
    [s = ObjectCollider(); s.sphereDefinition = ColliderSphere()] *)
Definition cube_collider : Fove_ObjectCollider.t :=
  ObjectCollider.set_cubeDefinition
    (ObjectCollider.__init__ Fove_ColliderType.Cube
       (Fove_ObjectCollider.cube (ColliderCube.__init__ None)) None)
    (ColliderCube.__init__ None).
Definition sphere_collider : Fove_ObjectCollider.t :=
  ObjectCollider.set_sphereDefinition
    (ObjectCollider.__init__ Fove_ColliderType.Cube
       (Fove_ObjectCollider.cube (ColliderCube.__init__ None)) None)
    (ColliderSphere.__init__ None).

(** Everything a Python caller can read of a [CalibrationData]. *)
Definition CalibrationData_view (self : CalibrationData.t)
    : Fove_CalibrationMethod.t * Fove_CalibrationState.t * Fove_CalibrationState.t
      * Fove_CalibrationTarget.t * Fove_CalibrationTarget.t :=
  (CalibrationDataAttributes.get_method self,
   CalibrationDataAttributes.get_state self,
   CalibrationDataAttributes.get_stateInfo self,
   CalibrationDataAttributes.get_targetL self,
   CalibrationDataAttributes.get_targetR self).

(** An assignment to one of the five attributes. *)
Inductive CalibrationData_assignment : Type :=
| assign_method (value : Fove_CalibrationMethod.t)
| assign_state (value : Fove_CalibrationState.t)
| assign_stateInfo (value : Fove_CalibrationState.t)
| assign_targetL (value : Fove_CalibrationTarget.t)
| assign_targetR (value : Fove_CalibrationTarget.t).

Definition CalibrationData_assign (self : CalibrationData.t)
    (a : CalibrationData_assignment) : CalibrationData.t :=
  match a with
  | assign_method v => CalibrationDataAttributes.set_method self v
  | assign_state v => CalibrationDataAttributes.set_state self v
  | assign_stateInfo v => CalibrationDataAttributes.set_stateInfo self v
  | assign_targetL v => CalibrationDataAttributes.set_targetL self v
  | assign_targetR v => CalibrationDataAttributes.set_targetR self v
  end.

(** One program after another, the second using the result of the
    first: two calls a Python caller makes in a row. *)
Fixpoint and_then {A B : Type} (p : Prog A) (k : A -> Prog B) : Prog B :=
  match p with
  | Ret a => k a
  | Call c out f => Call c out (fun r => and_then (f r) k)
  end.

(** No call of the run but the last returned an error. *)
Definition stops_at_first_error (tr : list event) : bool :=
  forallb (fun ev => negb (Fove_ErrorCode.is_error (ev_code ev))) (removelast tr).

(** The license count a call of [fove_Headset_queryLicenses] reported. *)
Definition reported_count (ev : event) : option Z :=
  match ev_call ev in call T return T -> option Z with
  | fove_Headset_queryLicenses _ => fun after => Some (snd after)
  | _ => fun _ => None
  end (ev_after ev).

(** The number of licenses [Headset_queryLicenses] is to return after a
    run: none after an error, else the count of the last call. *)
Definition licenses_due (tr : list event) : nat :=
  match rev tr with
  | ev :: _ =>
      if Fove_ErrorCode.is_error (ev_code ev) then 0%nat
      else match reported_count ev with
           | Some n => Z.to_nat n
           | None => 0%nat
           end
  | [] => 0%nat
  end.

(** A run of two calls without an error in which the second call
    reported more licenses than the first, that is, more than the array it
    was handed has room for. *)
Definition over_reported (tr : list event) : bool :=
  match tr with
  | [first; second] =>
      negb (Fove_ErrorCode.is_error (ev_code first))
      && negb (Fove_ErrorCode.is_error (ev_code second))
      && match reported_count first, reported_count second with
         | Some allocated, Some reported => allocated <? reported
         | _, _ => false
         end
  | _ => false
  end.

(** A library that reports one license when asked for the count and two
    when handed the array, writing both. *)
Definition over_reporting : library unit :=
  fun (O : Type) (c : call O) =>
    match c in call T return T -> unit -> (Fove_ErrorCode.t * T) * unit with
    | fove_Headset_queryLicenses _ =>
        fun out w =>
          match fst out with
          | None => ((Fove_ErrorCode.None_, (None, 1)), w)
          | Some _ =>
              ((Fove_ErrorCode.None_,
                (Some [CAPISpec.one_license; CAPISpec.one_license], 2)), w)
          end
    | _ => fun out w => ((Fove_ErrorCode.None_, out), w)
    end.

(** [Headset_createCompositor] after a successful [createHeadset], and
    the two destructors after it, as a caller strings them together. *)
Definition create_and_destroy (capabilities : ClientCapabilities.Fove_ClientCapabilities)
    (outHeadset : Headset) : Prog (Fove_ErrorCode.t * Fove_ErrorCode.t) :=
  and_then (createHeadset capabilities outHeadset)
           (fun created =>
              and_then (Headset_destroy (snd created))
                       (fun destroyed => Ret (fst created, destroyed))).

End MoreSpec.
(** ** Properties of the flag-set operators *)

Module ClientCapabilitiesFacts.
Import ClientCapabilities CInt.

Lemma in_int_shiftr (z : Z) : in_int z <-> Z.shiftr z 31 = 0 \/ Z.shiftr z 31 = -1.
Proof.
  unfold in_int, int_min, int_max. rewrite Z.shiftr_div_pow2 by lia.
  change (2 ^ 31) with 2147483648.
  split; intros H.
  - assert (-1 <= z / 2147483648 <= 0); [| lia].
    split.
    + apply Z.div_le_lower_bound; lia.
    + assert (z / 2147483648 < 1); [| lia].
      apply Z.div_lt_upper_bound; lia.
  - pose proof (Z.div_mod z 2147483648 ltac:(lia)) as E.
    pose proof (Z.mod_pos_bound z 2147483648 ltac:(lia)) as B.
    destruct H as [H | H]; rewrite H in E; lia.
Qed.

Lemma operator_or_in_int a b : in_int a -> in_int b -> in_int (operator_or a b).
Proof.
  rewrite !in_int_shiftr. unfold operator_or. rewrite Z.shiftr_lor.
  intros [-> | ->] [-> | ->]; auto.
Qed.

Lemma operator_and_in_int a b : in_int a -> in_int b -> in_int (operator_and a b).
Proof.
  rewrite !in_int_shiftr. unfold operator_and. rewrite Z.shiftr_land.
  intros [-> | ->] [-> | ->]; auto.
Qed.

Lemma operator_not_in_int a : in_int a -> in_int (operator_not a).
Proof.
  unfold in_int, int_min, int_max, operator_not, Z.lnot. lia.
Qed.

Lemma sub_disjoint a b : Z.land (Z.land a (Z.lnot b)) b = 0.
Proof.
  rewrite <- Z.land_assoc, (Z.land_comm (Z.lnot b) b), Z.land_lnot_diag.
  apply Z.land_0_r.
Qed.

Lemma or_absorbs a b : Z.land (Z.lor a b) b = b.
Proof.
  apply Z.bits_inj'. intros n Hn.
  rewrite Z.land_spec, Z.lor_spec.
  destruct (Z.testbit b n), (Z.testbit a n); reflexivity.
Qed.

Lemma contains_bits a b :
  Z.land a b = b
  <-> forall n : nat, implb (Z.testbit b (Z.of_nat n)) (Z.testbit a (Z.of_nat n)) = true.
Proof.
  split.
  - intros H n. rewrite <- H, Z.land_spec.
    destruct (Z.testbit a (Z.of_nat n)), (Z.testbit b (Z.of_nat n)); reflexivity.
  - intros H. apply Z.bits_inj'. intros n Hn.
    specialize (H (Z.to_nat n)). rewrite Z2Nat.id in H by assumption.
    rewrite Z.land_spec.
    destruct (Z.testbit a n), (Z.testbit b n); try reflexivity; discriminate H.
Qed.

Lemma sub_or_and a b : Z.lor (Z.land a (Z.lnot b)) (Z.land a b) = a.
Proof.
  apply Z.bits_inj'. intros n Hn.
  rewrite Z.lor_spec, !Z.land_spec, Z.lnot_spec by assumption.
  destruct (Z.testbit a n), (Z.testbit b n); reflexivity.
Qed.

(** C10: the flag operators of ClientCapabilities form a set algebra:
    [a - b] is [a & ~b] and shares no bit with [b]; [a + b] is [a | b] and
    contains [b]; [b in a] holds exactly when [(a & b) == b].  Bit by bit:
    [&] keeps the bits set in both, [|] those set in either and [~] flips
    every bit, so that [a - b] has exactly the bits of [a] that [b] lacks,
    [a + b] those of [a] or [b], and [b in a] says that every bit of [b]
    is a bit of [a]; what [a - b] removes from [a] is [a & b]. *)
Theorem ClientCapabilities_set_algebra (a b : Fove_ClientCapabilities) :
  __sub__ a b = operator_and a (operator_not b)
  /\ operator_and (__sub__ a b) b = 0
  /\ __add__ a b = __or__ a b
  /\ __contains__ (__add__ a b) b = true
  /\ (__contains__ a b = true <-> operator_and a b = b)
  /\ (forall n : nat,
        Z.testbit (operator_and a b) (Z.of_nat n)
        = Z.testbit a (Z.of_nat n) && Z.testbit b (Z.of_nat n))
  /\ (forall n : nat,
        Z.testbit (operator_or a b) (Z.of_nat n)
        = Z.testbit a (Z.of_nat n) || Z.testbit b (Z.of_nat n))
  /\ (forall n : nat,
        Z.testbit (operator_not a) (Z.of_nat n) = negb (Z.testbit a (Z.of_nat n)))
  /\ (forall n : nat,
        Z.testbit (__sub__ a b) (Z.of_nat n)
        = Z.testbit a (Z.of_nat n) && negb (Z.testbit b (Z.of_nat n)))
  /\ (forall n : nat,
        Z.testbit (__add__ a b) (Z.of_nat n)
        = Z.testbit a (Z.of_nat n) || Z.testbit b (Z.of_nat n))
  /\ (__contains__ a b = true
      <-> forall n : nat,
            implb (Z.testbit b (Z.of_nat n)) (Z.testbit a (Z.of_nat n)) = true)
  /\ __add__ (__sub__ a b) (__and__ a b) = a
  /\ __sub__ a a = 0
  /\ __sub__ a 0 = a.
Proof.
  unfold __sub__, __add__, __or__, __and__, __contains__, operator_and, operator_or,
    operator_not.
  split; [reflexivity |].
  split; [apply sub_disjoint |].
  split; [reflexivity |].
  split; [apply Z.eqb_eq, or_absorbs |].
  split; [apply Z.eqb_eq |].
  split; [intros n; apply Z.land_spec |].
  split; [intros n; apply Z.lor_spec |].
  split; [intros n; apply Z.lnot_spec, Nat2Z.is_nonneg |].
  split.
  { intros n. rewrite Z.land_spec, Z.lnot_spec by apply Nat2Z.is_nonneg. reflexivity. }
  split; [intros n; apply Z.lor_spec |].
  split.
  { rewrite Z.eqb_eq. apply contains_bits. }
  split; [apply sub_or_and |].
  split; [apply Z.land_lnot_diag |].
  change (Z.lnot 0) with (-1). apply Z.land_m1_r.
Qed.

End ClientCapabilitiesFacts.

(** ** Properties of the buffer protocol helpers *)

Module BufferProtocolFacts.
Import BufferProtocol.

Lemma map_add_seq (k n : nat) : map (Nat.add k) (seq 0 n) = seq k n.
Proof.
  induction k as [| k IH]; simpl.
  - apply map_id.
  - rewrite <- seq_shift, <- IH, map_map. reflexivity.
Qed.

(** The index pairs of a [Rows] x [Cols] array, in row-major order, are the
    linear indices [0 .. Rows * Cols - 1]. *)
Lemma seq_row_major (Cols Rows a : nat) :
  flat_map (fun i => map (fun j => (i * Cols + j)%nat) (seq 0 Cols)) (seq a Rows)
  = seq (a * Cols) (Rows * Cols).
Proof.
  revert a. induction Rows as [| Rows IH]; intros a; simpl; [reflexivity |].
  rewrite IH, seq_app. f_equal.
  - apply (map_add_seq (a * Cols) Cols).
  - f_equal. lia.
Qed.

Lemma map_flat_map_comm {A B C : Type} (g : B -> C) (h : A -> list B) (l : list A) :
  map g (flat_map h l) = flat_map (fun x => map g (h x)) l.
Proof.
  induction l as [| x l IH]; simpl; [reflexivity |].
  rewrite map_app, IH. reflexivity.
Qed.

Lemma offsets_1D (n : nat) (s : Z) :
  offsets [Z.of_nat n] [s] = map (fun k => s * Z.of_nat k) (seq 0 n).
Proof.
  simpl. rewrite Nat2Z.id.
  induction (seq 0 n) as [| k l IH]; simpl; [reflexivity |].
  rewrite IH. f_equal. lia.
Qed.

Lemma offsets_2D (Rows Cols : nat) (s : Z) :
  offsets [Z.of_nat Rows; Z.of_nat Cols] [s * Z.of_nat Cols; s]
  = map (fun k => s * Z.of_nat k) (seq 0 (Rows * Cols)).
Proof.
  change (offsets [Z.of_nat Rows; Z.of_nat Cols] [s * Z.of_nat Cols; s])
    with (flat_map (fun i => map (Z.add (Z.of_nat i * (s * Z.of_nat Cols)))
                                 (offsets [Z.of_nat Cols] [s]))
                   (seq 0 (Z.to_nat (Z.of_nat Rows)))).
  rewrite Nat2Z.id, offsets_1D.
  change (seq 0 (Rows * Cols)) with (seq (0 * Cols) (Rows * Cols)).
  rewrite <- (seq_row_major Cols Rows 0), map_flat_map_comm.
  apply flat_map_ext. intros i.
  rewrite !map_map. apply map_ext. intros j. lia.
Qed.

Lemma native_layout_NoDup (e : Elem) (n : nat) : NoDup (native_layout e n).
Proof.
  unfold native_layout.
  pose proof (sizeof_pos e) as Hs.
  generalize (seq_NoDup n 0). induction (seq 0 n) as [| k l IH]; simpl; intros H.
  - constructor.
  - inversion H as [| ? ? Hk Hl]; subst. constructor; [| auto].
    rewrite in_map_iff. intros [k' [E Hin]].
    assert (k' = k) by nia. subst. contradiction.
Qed.

(** C5: the helper conversions between fixed-size native arrays and buffers
    are exact.  A 1-dimensional buffer over [Elem[Size]] has item size
    [sizeof(Elem)], dimension [Size] and stride [sizeof(Elem)]; a
    2-dimensional buffer over [Elem[Rows][Cols]] has dimensions
    [{Rows, Cols}] and strides [{sizeof(Elem)*Cols, sizeof(Elem)}]; walking
    either buffer by its strides visits every element of the native array
    exactly once, in native layout order. *)
Theorem buffer_protocol_exact (e : Elem) (data : Z) (Size Rows Cols : nat) :
  let b1 := define_1D_buffer_protocol e data Size in
  let b2 := define_2D_buffer_protocol e data Rows Cols in
  (ptr b1 = data /\ itemsize b1 = sizeof e /\ format b1 = format_descriptor e
   /\ ndim b1 = 1 /\ shape b1 = [Z.of_nat Size] /\ strides b1 = [sizeof e])
  /\ (ptr b2 = data /\ itemsize b2 = sizeof e /\ format b2 = format_descriptor e
      /\ ndim b2 = 2 /\ shape b2 = [Z.of_nat Rows; Z.of_nat Cols]
      /\ strides b2 = [sizeof e * Z.of_nat Cols; sizeof e])
  /\ element_offsets b1 = native_layout e Size
  /\ element_offsets b2 = native_layout e (Rows * Cols)
  /\ NoDup (element_offsets b1)
  /\ NoDup (element_offsets b2).
Proof.
  intros b1 b2.
  assert (E1 : element_offsets b1 = native_layout e Size) by apply offsets_1D.
  assert (E2 : element_offsets b2 = native_layout e (Rows * Cols)) by apply offsets_2D.
  repeat split; try assumption.
  - rewrite E1. apply native_layout_NoDup.
  - rewrite E2. apply native_layout_NoDup.
Qed.

Example Matrix44_offsets :
  element_offsets (define_2D_buffer_protocol c_float 0 4 4)
  = [0; 4; 8; 12; 16; 20; 24; 28; 32; 36; 40; 44; 48; 52; 56; 60].
Proof. reflexivity. Qed.

End BufferProtocolFacts.

(** ** The default-argument constructors *)

Module DefaultsFacts.
Import Float32.

(** The literals as binary32 values: [0.0f], [1.0f = 8388608 * 2^-23],
    [0.5f = 8388608 * 2^-24], [-1.0f]. *)
Lemma f0_value : f0 = S754_zero false.
Proof. reflexivity. Qed.

Lemma f1_value : f1 = S754_finite false 8388608 (-23).
Proof. reflexivity. Qed.

Lemma f0_5_value : f0_5 = S754_finite false 8388608 (-24).
Proof. reflexivity. Qed.

Lemma of_int_0 : of_int 0 = f0.
Proof. reflexivity. Qed.

Lemma of_int_1 : of_int 1 = f1.
Proof. reflexivity. Qed.

Lemma f0_5_half : fmul f0_5 (of_int 2) = f1 /\ fadd f0_5 f0_5 = f1.
Proof. split; reflexivity. Qed.

(** C7: constructing a struct with no arguments yields one fixed value, the
    one the default-argument shims spell out.  A default Quaternion is
    [(0,0,0,1)], a default Ray has direction [(0,0,1)], a default ObjectPose
    has scale [(1,1,1)], a default ColliderCube has size [(1,1,1)] and a
    default ColliderSphere has radius [0.5].  Every class of the module
    that can be constructed without an argument is listed with its value:
    the classes with keyword defaults, the three textures, the classes
    registered with [py::init<>()], and [AdapterId], which has its
    constructor in builds with [_WIN32] and none in the others.  These are
    the 47 classes the module registers besides [VertexBuffer] and
    [IndexBuffer], which take a buffer and have no default. *)
Theorem default_constructors :
  filter (fun name => negb (existsb (String.eqb name) ["VertexBuffer"; "IndexBuffer"]))
         (map Registry.py (filter (fun r => negb (Registry.is_enum r)) Registry.capi))
  = [ "Fove_Headset"; "Fove_Compositor"; "Versions"; "LicenseInfo"; "HeadsetHardwareInfo";
      "Quaternion"; "Vec3"; "Vec2"; "Vec2i"; "Ray"; "FrameTimestamp"; "Pose"; "Matrix44";
      "ProjectionParams"; "BoundingBox"; "ObjectPose"; "ColliderCube"; "ColliderSphere";
      "ColliderMesh"; "ObjectCollider"; "ColliderArray"; "GazableObject"; "CameraObject";
      "CompositorLayerCreateInfo"; "CompositorLayer"; "CompositorTexture"; "DX11Texture";
      "GLTexture"; "MetalTexture"; "TextureBounds"; "CompositorLayerEyeSubmitInfo";
      "CompositorLayerSubmitInfo"; "AdapterId"; "Buffer"; "EyeShape"; "PupilShape";
      "BitmapImage"; "CalibrationTarget"; "CalibrationData"; "CalibrationOptions";
      "HmdAdjustmentData"; "Bool"; "Int"; "Float"; "String"; "EyeStateObj";
      "CalibrationStateObj" ]
  /\ Quaternion.__init__ None None None None = Fove_Quaternion.mk f0 f0 f0 f1
  /\ Fove_Ray.direction (Ray.__init__ None None) = Fove_Vec3.mk f0 f0 f1
  /\ Fove_ObjectPose.scale (ObjectPose.__init__ None None None None) = Fove_Vec3.mk f1 f1 f1
  /\ Fove_ColliderCube.size (ColliderCube.__init__ None) = Fove_Vec3.mk f1 f1 f1
  /\ Fove_ColliderSphere.radius (ColliderSphere.__init__ None) = f0_5
  /\ Vec3.__init__ None None None = Fove_Vec3.mk f0 f0 f0
  /\ Vec2.__init__ None None = Fove_Vec2.mk f0 f0
  /\ Vec2i.__init__ None None = Fove_Vec2i.mk 0 0
  /\ Ray.__init__ None None = Fove_Ray.mk (Fove_Vec3.mk f0 f0 f0) (Fove_Vec3.mk f0 f0 f1)
  /\ FrameTimestamp.__init__ None None = Fove_FrameTimestamp.mk 0 0
  /\ Pose.__init__ None None None None None None None None None
     = Fove_Pose.mk 0 0 (Fove_Quaternion.mk f0 f0 f0 f1)
         (Fove_Vec3.mk f0 f0 f0) (Fove_Vec3.mk f0 f0 f0) (Fove_Vec3.mk f0 f0 f0)
         (Fove_Vec3.mk f0 f0 f0) (Fove_Vec3.mk f0 f0 f0) (Fove_Vec3.mk f0 f0 f0)
  /\ ProjectionParams.__init__ None None None None
     = Fove_ProjectionParams.mk (fneg f1) f1 f1 (fneg f1)
  /\ BoundingBox.__init__ None None
     = Fove_BoundingBox.mk (Fove_Vec3.mk f0 f0 f0) (Fove_Vec3.mk f0 f0 f0)
  /\ ObjectPose.__init__ None None None None
     = Fove_ObjectPose.mk (Fove_Vec3.mk f1 f1 f1) (Fove_Quaternion.mk f0 f0 f0 f1)
         (Fove_Vec3.mk f0 f0 f0) (Fove_Vec3.mk f0 f0 f0)
  /\ CompositorLayerCreateInfo.__init__ None None None None None
     = Fove_CompositorLayerCreateInfo.mk Fove_CompositorLayerType.Base false
         Fove_AlphaMode.Auto false false
  /\ CompositorLayer.__init__ None None = Fove_CompositorLayer.mk 0 (Fove_Vec2i.mk 0 0)
  /\ CompositorTexture.__init__ None = Fove_CompositorTexture.mk Fove_GraphicsAPI.DirectX
  /\ TextureBounds.__init__ None None None None = Fove_TextureBounds.mk f0 f0 f0 f0
  /\ CompositorLayerEyeSubmitInfo.__init__ None None
     = Fove_CompositorLayerEyeSubmitInfo.mk nullptr (Fove_TextureBounds.mk f0 f0 f0 f0)
  /\ Buffer.__init__ None None = Fove_Buffer.mk nullptr 0
  /\ PupilShape.__init__ None None None
     = Fove_PupilShape.mk (Fove_Vec2.mk f0 f0) (Fove_Vec2.mk f0 f0) f0
  /\ BitmapImage.__init__ None None = Fove_BitmapImage.mk 0 (Fove_Buffer.mk nullptr 0)
  /\ CalibrationTarget.__init__ None None
     = Fove_CalibrationTarget.mk (Fove_Vec3.mk f0 f0 f0) f0
  /\ CalibrationData.__init__ None None None None None
     = CalibrationData.mk Fove_CalibrationMethod.Spiral Fove_CalibrationState.NotStarted ""
         (Fove_CalibrationTarget.mk (Fove_Vec3.mk f0 f0 f0) f0)
         (Fove_CalibrationTarget.mk (Fove_Vec3.mk f0 f0 f0) f0)
  /\ CalibrationOptions.__init__ None None None None None
     = Fove_CalibrationOptions.mk false false Fove_EyeByEyeCalibration.Default
         Fove_CalibrationMethod.Default Fove_EyeTorsionCalibration.Default
  /\ HmdAdjustmentData.__init__ None None None None None None None None None None
     = Fove_HmdAdjustmentData.mk (Fove_Vec2.mk f0 f0) f0 false false
         (Fove_Vec2.mk f0 f0) (Fove_Vec2.mk f0 f0) f0 f0
         (Fove_Vec2.mk f0 f0) (Fove_Vec2.mk f0 f0)
  /\ Versions.__init__ None None None None None None None None None None None None None
     = Python_Versions.mk (-1) (-1) (-1) (-1) "" (-1) (-1) (-1) "" (-1) (-1) (-1) false
  /\ DX11Texture.__init__
     = Fove_DX11Texture.mk (Fove_CompositorTexture.mk Fove_GraphicsAPI.DirectX) nullptr
  /\ GLTexture.__init__
     = Fove_GLTexture.mk (Fove_CompositorTexture.mk Fove_GraphicsAPI.OpenGL) 0 nullptr
  /\ MetalTexture.__init__
     = Fove_MetalTexture.mk (Fove_CompositorTexture.mk Fove_GraphicsAPI.Metal) nullptr
  /\ AdapterId.__init__ true None None = Some (Fove_AdapterId.mk 0 0)
  /\ (forall lowPart highPart : option Z, AdapterId.__init__ false lowPart highPart = None)
  /\ CompositorLayerSubmitInfo.__init__ None None None None
     = Fove_CompositorLayerSubmitInfo.mk 0
         (Fove_Pose.mk 0 0 (Fove_Quaternion.mk f0 f0 f0 f1)
            (Fove_Vec3.mk f0 f0 f0) (Fove_Vec3.mk f0 f0 f0) (Fove_Vec3.mk f0 f0 f0)
            (Fove_Vec3.mk f0 f0 f0) (Fove_Vec3.mk f0 f0 f0) (Fove_Vec3.mk f0 f0 f0))
         (Fove_CompositorLayerEyeSubmitInfo.mk nullptr (Fove_TextureBounds.mk f0 f0 f0 f0))
         (Fove_CompositorLayerEyeSubmitInfo.mk nullptr (Fove_TextureBounds.mk f0 f0 f0 f0))
  /\ Fove_Headset.__init__ = mkObj nullptr
  /\ Fove_Compositor.__init__ = mkObj nullptr
  /\ Matrix44.__init__
     = mkObj (Fove_Matrix44.mk [[f0; f0; f0; f0]; [f0; f0; f0; f0];
                                [f0; f0; f0; f0]; [f0; f0; f0; f0]])
  /\ (List.length (Fove_EyeShape.outline (val EyeShape.__init__)) = 12%nat
      /\ Forall (eq (Fove_Vec2.mk f0 f0)) (Fove_EyeShape.outline (val EyeShape.__init__)))
  /\ ColliderMesh.__init__
     = Fove_ColliderMesh.mk nullptr 0 nullptr 0
         (Fove_BoundingBox.mk (Fove_Vec3.mk f0 f0 f0) (Fove_Vec3.mk f0 f0 f0))
  /\ LicenseInfo.__init__ = Python_LicenseInfo.mk "" 0 0 0 "" ""
  /\ HeadsetHardwareInfo.__init__ = Python_HeadsetHardwareInfo.mk "" "" ""
  /\ ColliderArray.__init__ = ColliderArray.mk []
  /\ (forall (shapeType0 : Fove_ColliderType.t) (shape0 : Fove_ObjectCollider.shape),
        ObjectCollider.__init__ shapeType0 shape0 None
        = Fove_ObjectCollider.mk (Fove_Vec3.mk f0 f0 f0) shapeType0 shape0)
  /\ (forall (fove_ObjectIdInvalid : Z) (Group0 : Fove_ObjectGroup),
        GazableObject.__init__ fove_ObjectIdInvalid Group0 None None None
        = Fove_GazableObject.mk fove_ObjectIdInvalid
            (Fove_ObjectPose.mk (Fove_Vec3.mk f1 f1 f1) (Fove_Quaternion.mk f0 f0 f0 f1)
               (Fove_Vec3.mk f0 f0 f0) (Fove_Vec3.mk f0 f0 f0))
            Group0 [] 0)
  /\ (forall (fove_ObjectIdInvalid : Z),
        CameraObject.__init__ fove_ObjectIdInvalid None None None
        = Fove_CameraObject.mk fove_ObjectIdInvalid
            (Fove_ObjectPose.mk (Fove_Vec3.mk f1 f1 f1) (Fove_Quaternion.mk f0 f0 f0 f1)
               (Fove_Vec3.mk f0 f0 f0) (Fove_Vec3.mk f0 f0 f0))
            (-1))
  /\ Wrappers.Bool.__init__ None = mkObj false
  /\ Wrappers.Int.__init__ None = mkObj 0
  /\ Wrappers.Float.__init__ None = mkObj f0
  /\ Wrappers.String.__init__ None = mkObj ""
  /\ Wrappers.EyeStateObj.__init__ None = mkObj Fove_EyeState.NotDetected
  /\ Wrappers.CalibrationStateObj.__init__ None = mkObj Fove_CalibrationState.NotStarted.
Proof.
  repeat match goal with
         | |- _ /\ _ => split
         | |- forall _, _ => intro
         end;
    try reflexivity.
  repeat constructor.
Qed.

(** A given argument replaces its default and leaves the others. *)
Example Quaternion_keyword_w :
  Quaternion.__init__ None None None (Some f0_5) = Fove_Quaternion.mk f0 f0 f0 f0_5.
Proof. reflexivity. Qed.

End DefaultsFacts.

(** ** The tagged union of [ObjectCollider] *)

Module ObjectColliderFacts.
Import Fove_ObjectCollider ObjectCollider ObjectColliderSpec.

Lemma ColliderType_eqb_eq (a b : Fove_ColliderType.t) :
  Fove_ColliderType.eqb a b = true <-> a = b.
Proof. destruct a, b; simpl; split; intros H; try reflexivity; discriminate. Qed.

Lemma get_cubeDefinition_succeeds (self : t) :
  succeeds (get_cubeDefinition self) = true <-> shapeType self = Fove_ColliderType.Cube.
Proof.
  rewrite <- ColliderType_eqb_eq. unfold get_cubeDefinition.
  destruct (Fove_ColliderType.eqb _ _); simpl; split; intros H; try reflexivity; discriminate.
Qed.

Lemma get_sphereDefinition_succeeds (self : t) :
  succeeds (get_sphereDefinition self) = true <-> shapeType self = Fove_ColliderType.Sphere.
Proof.
  rewrite <- ColliderType_eqb_eq. unfold get_sphereDefinition.
  destruct (Fove_ColliderType.eqb _ _); simpl; split; intros H; try reflexivity; discriminate.
Qed.

Lemma get_meshDefinition_succeeds (self : t) :
  succeeds (get_meshDefinition self) = true <-> shapeType self = Fove_ColliderType.Mesh.
Proof.
  rewrite <- ColliderType_eqb_eq. unfold get_meshDefinition.
  destruct (Fove_ColliderType.eqb _ _); simpl; split; intros H; try reflexivity; discriminate.
Qed.

(** A getter that does not succeed throws its own message. *)
Lemma getters_throw (self : t) :
  (succeeds (get_cubeDefinition self) = false <->
   get_cubeDefinition self = Throw "Error the collider is not of cube type")
  /\ (succeeds (get_sphereDefinition self) = false <->
      get_sphereDefinition self = Throw "Error the collider is not of sphere type")
  /\ (succeeds (get_meshDefinition self) = false <->
      get_meshDefinition self = Throw "Error the collider is not of mesh type").
Proof.
  unfold get_cubeDefinition, get_sphereDefinition, get_meshDefinition.
  repeat split; destruct (shapeType self); simpl; intros H;
    try reflexivity; discriminate.
Qed.

(** On a consistent collider the getter that succeeds returns the stored
    shape. *)
Lemma consistent_read (self : t) :
  consistent self = true ->
  match shapeDefinition self with
  | cube c => get_cubeDefinition self = Ok (Some c)
  | sphere s => get_sphereDefinition self = Ok (Some s)
  | mesh m => get_meshDefinition self = Ok (Some m)
  end.
Proof.
  unfold consistent, get_cubeDefinition, get_sphereDefinition, get_meshDefinition.
  destruct (shapeType self), (shapeDefinition self); simpl; intros H;
    try reflexivity; discriminate.
Qed.

(** Once a shape has been assigned, the collider stays consistent under
    any further assignments. *)
Lemma consistent_after_assignments (l : list assignment) (self : t) (a : assignment) :
  consistent (fold_left assign l (assign self a)) = true.
Proof.
  revert self a. induction l as [| b l IH]; intros self a.
  - destruct a; reflexivity.
  - simpl. apply IH.
Qed.

(** C8: ObjectCollider keeps its tagged union consistent.  Assigning
    [cubeDefinition], [sphereDefinition] or [meshDefinition] sets [shapeType]
    to Cube, Sphere or Mesh and stores the shape, so that reading the same
    property returns it; reading a property succeeds exactly when
    [shapeType] is the corresponding collider type and throws in every other
    case. *)
Theorem ObjectCollider_tagged_union (self : t)
    (c : Fove_ColliderCube.t) (s : Fove_ColliderSphere.t) (m : Fove_ColliderMesh.t) :
  (shapeType (set_cubeDefinition self c) = Fove_ColliderType.Cube
   /\ shapeDefinition (set_cubeDefinition self c) = cube c
   /\ get_cubeDefinition (set_cubeDefinition self c) = Ok (Some c))
  /\ (shapeType (set_sphereDefinition self s) = Fove_ColliderType.Sphere
      /\ shapeDefinition (set_sphereDefinition self s) = sphere s
      /\ get_sphereDefinition (set_sphereDefinition self s) = Ok (Some s))
  /\ (shapeType (set_meshDefinition self m) = Fove_ColliderType.Mesh
      /\ shapeDefinition (set_meshDefinition self m) = mesh m
      /\ get_meshDefinition (set_meshDefinition self m) = Ok (Some m))
  /\ (consistent (set_cubeDefinition self c) = true
      /\ consistent (set_sphereDefinition self s) = true
      /\ consistent (set_meshDefinition self m) = true)
  /\ (forall (a : assignment) (l : list assignment),
        consistent (fold_left assign l (assign self a)) = true)
  /\ (succeeds (get_cubeDefinition self) = true
      <-> shapeType self = Fove_ColliderType.Cube)
  /\ (succeeds (get_sphereDefinition self) = true
      <-> shapeType self = Fove_ColliderType.Sphere)
  /\ (succeeds (get_meshDefinition self) = true
      <-> shapeType self = Fove_ColliderType.Mesh)
  /\ (succeeds (get_cubeDefinition self) = false
      <-> get_cubeDefinition self = Throw "Error the collider is not of cube type")
  /\ (succeeds (get_sphereDefinition self) = false
      <-> get_sphereDefinition self = Throw "Error the collider is not of sphere type")
  /\ (succeeds (get_meshDefinition self) = false
      <-> get_meshDefinition self = Throw "Error the collider is not of mesh type").
Proof.
  pose proof (getters_throw self) as [Tc [Ts Tm]].
  repeat match goal with
         | |- _ /\ _ => split
         end; try reflexivity; try assumption.
  - intros a l. apply consistent_after_assignments.
  - apply get_cubeDefinition_succeeds.
  - apply get_sphereDefinition_succeeds.
  - apply get_meshDefinition_succeeds.
Qed.

(** The setters leave the centre alone, and the last assignment wins. *)
Lemma setters_keep_center (self : t) (c : Fove_ColliderCube.t) (s : Fove_ColliderSphere.t) :
  center (set_cubeDefinition self c) = center self
  /\ get_cubeDefinition (set_sphereDefinition (set_cubeDefinition self c) s)
     = Throw "Error the collider is not of cube type".
Proof. split; reflexivity. Qed.

End ObjectColliderFacts.

(** ** The mesh buffer constructors *)

Module MeshBufferFacts.
Import BufferProtocol MeshBufferSpec.

Lemma VertexBuffer_init_spec (info : buffer_info) :
  (contiguous_float_Nx3 info ->
   VertexBuffer.__init__ info
   = Ok (VertexBuffer.mk (ptr info) ((nth 0 (shape info) 0 * 3) mod 2 ^ 32)))
  /\ (succeeds (VertexBuffer.__init__ info) = true -> contiguous_float_Nx3 info).
Proof.
  unfold contiguous_float_Nx3, VertexBuffer.__init__, CInt.to_unsigned_int. simpl.
  split.
  - intros (Hf & Hn & Hc & Hs0 & Hs1).
    rewrite Hf, Hn, Hc, Hs0, Hs1. reflexivity.
  - destruct (String.eqb_spec (format info) "f") as [Hf | Hf]; simpl; [| discriminate].
    destruct (Z.eqb_spec (ndim info) 2); simpl; [| discriminate].
    destruct (Z.eqb_spec (nth 1 (shape info) 0) 3); simpl; [| discriminate].
    destruct (Z.eqb_spec (nth 0 (strides info) 0) 12); simpl; [| discriminate].
    destruct (Z.eqb_spec (nth 1 (strides info) 0) 4); simpl; [| discriminate].
    intros _. repeat split; assumption.
Qed.

Lemma IndexBuffer_init_spec (info : buffer_info) :
  (stride4_1D_multiple_of_3 info ->
   IndexBuffer.__init__ info
   = Ok (IndexBuffer.mk (ptr info) (Z.quot (nth 0 (shape info) 0) 3 mod 2 ^ 32)))
  /\ (succeeds (IndexBuffer.__init__ info) = true -> stride4_1D_multiple_of_3 info).
Proof.
  unfold stride4_1D_multiple_of_3, IndexBuffer.__init__, CInt.to_unsigned_int. simpl.
  split.
  - intros (Hn & Hs & Hm). rewrite Hn, Hs, Hm. reflexivity.
  - destruct (Z.eqb_spec (ndim info) 1); simpl; [| discriminate].
    destruct (Z.eqb_spec (nth 0 (strides info) 0) 4); simpl; [| discriminate].
    destruct (Z.eqb_spec (Z.rem (nth 0 (shape info) 0) 3) 0); simpl; [| discriminate].
    intros _. repeat split; assumption.
Qed.

Example VertexBuffer_two_vertices :
  VertexBuffer.__init__ two_vertices = Ok (VertexBuffer.mk 4096 6).
Proof. reflexivity. Qed.

Example VertexBuffer_rejects_doubles :
  VertexBuffer.__init__
    {| ptr := 4096; itemsize := 8; format := "d"; ndim := 2; shape := [2; 3];
       strides := [24; 8] |}
  = Throw "Incompatible format: expected a float array! received:d".
Proof. reflexivity. Qed.

Example IndexBuffer_six_indices :
  IndexBuffer.__init__ six_indices = Ok (IndexBuffer.mk 8192 2).
Proof. reflexivity. Qed.

(** C9, at the input where the code departs from it: an IndexBuffer is
    constructed from a contiguous 1-dimensional buffer of three [float]s,
    which is not an unsigned-int array; the constructor never compares the
    format, though the VertexBuffer constructor beside it does. *)
Theorem IndexBuffer_accepts_float_buffer :
  format three_floats <> format_descriptor c_unsigned_int
  /\ IndexBuffer.__init__ three_floats = Ok (IndexBuffer.mk 4096 1)
  /\ VertexBuffer.__init__
       {| ptr := 4096; itemsize := 4; format := "I"; ndim := 2; shape := [2; 3];
          strides := [12; 4] |}
     = Throw "Incompatible format: expected a float array! received:I".
Proof. repeat split. discriminate. Qed.

End MeshBufferFacts.

(** ** The wrappers of [bind_CAPIs] *)

Module CAPIFacts.
Import CAPI CAPISpec Crossings MoreSpec.

Lemma run_Ret {World A : Type} (native : library World) (a : A) (w : World) :
  run native (Ret a) w = (a, [], w).
Proof. reflexivity. Qed.

Lemma run_Call {World A O : Type} (native : library World) (c : call O) (out : O)
    (k : Fove_ErrorCode.t * O -> Prog A) (w : World) :
  run native (Call c out k) w
  = let r := fst (native O c out w) in
    let rest := run native (k r) (snd (native O c out w)) in
    (fst (fst rest), mkEvent c out (fst r) (snd r) :: snd (fst rest), snd rest).
Proof.
  simpl. destruct (native O c out w) as [r w']. simpl.
  destruct (run native (k r) w') as [[a tr] w'']. reflexivity.
Qed.

(** A single call followed by a pure return. *)
Lemma trace_forward {World A O : Type} (native : library World) (c : call O) (out : O)
    (f : Fove_ErrorCode.t * O -> A) (w : World) :
  trace native (Call c out (fun r => Ret (f r))) w
  = [mkEvent c out (fst (fst (native O c out w))) (snd (fst (native O c out w)))]
  /\ result native (Call c out (fun r => Ret (f r))) w = f (fst (native O c out w)).
Proof.
  unfold trace, result. simpl.
  destruct (native O c out w) as [r w']. split; reflexivity.
Qed.

Ltac forward_case :=
  let World := fresh "World" in
  let native := fresh "native" in
  let args := fresh "args" in
  let w := fresh "w" in
  intros World native args w;
  simpl in args;
  repeat match goal with
         | a : (_ * _)%type |- _ => destruct a
         end;
  unfold trace, result;
  cbv beta iota zeta delta [body code py_name Args Res];
  simpl;
  match goal with
  | |- context [native ?O ?c ?out w] => destruct (native O c out w) as [[? ?] ?]
  end;
  simpl; repeat split.

Lemma queryLicenses_forwards :
  forwards (def "Headset_queryLicenses"
              (fun a : Headset * Fove_ErrorCode.t =>
                 let '(headset, error) := a in Headset_queryLicenses headset error)
              (fun r => snd r) false).
Proof.
  intros World native [headset error] w.
  cbv beta iota delta [body code py_name Args Res].
  unfold trace, result, Headset_queryLicenses. simpl.
  destruct (native _ (fove_Headset_queryLicenses (val headset)) (None, 0) w)
    as [[e1 [l1 n1]] w1]; simpl.
  destruct (Fove_ErrorCode.is_error e1); simpl.
  - repeat split. left. reflexivity.
  - destruct (n1 >? 0); simpl.
    + destruct (native _ (fove_Headset_queryLicenses (val headset)) _ w1)
        as [[e2 [l2 n2]] w2]; simpl.
      destruct (Fove_ErrorCode.is_error e2); simpl;
        repeat split; right; reflexivity.
    + repeat split. left. reflexivity.
Qed.

(** Every function of the module calls only its own entry point and hands
    the caller the code of its last call. *)
Lemma bind_CAPIs_forward : Forall forwards bind_CAPIs.
Proof.
  unfold bind_CAPIs.
  repeat match goal with
         | |- Forall _ [] => constructor
         | |- Forall _ (def "Headset_queryLicenses" _ _ _ :: _) =>
             constructor; [exact queryLicenses_forwards |]
         | |- Forall _ (_ :: _) => constructor; [forward_case |]
         end.
Qed.

Lemma queryLicenses_registered :
  In (def "Headset_queryLicenses"
          (fun a : Headset * Fove_ErrorCode.t =>
             let '(headset, error) := a in Headset_queryLicenses headset error)
          (fun r => snd r) false)
     bind_CAPIs.
Proof. unfold bind_CAPIs. do 7 right. left. reflexivity. Qed.

(** Against a library that holds one license, [Headset_queryLicenses]
    calls [fove_Headset_queryLicenses] twice: once for the count, once for
    the licenses; it returns the list, and leaves the code in [error]. *)
Example queryLicenses_licensed :
  run licensed (Headset_queryLicenses (mkObj 1) Fove_ErrorCode.UnknownError) tt
  = ((Some [Python_LicenseInfo.mk "" 2028 12 31 "Professional" "FOVE"],
      Fove_ErrorCode.None_),
     [mkEvent (fove_Headset_queryLicenses 1) (None, 0)
              Fove_ErrorCode.None_ (None, 1);
      mkEvent (fove_Headset_queryLicenses 1) (Some [zero_LicenseInfo], 1)
              Fove_ErrorCode.None_ (Some [one_license], 1)],
     tt).
Proof. reflexivity. Qed.

Example queryLicenses_disconnected :
  run disconnected (Headset_queryLicenses (mkObj 1) Fove_ErrorCode.None_) tt
  = ((Some [], Fove_ErrorCode.Connect_NotConnected),
     [mkEvent (fove_Headset_queryLicenses 1) (None, 0)
              Fove_ErrorCode.Connect_NotConnected (None, 0)],
     tt).
Proof. reflexivity. Qed.

(** C1, as stated, fails: not every function of the module makes exactly
    one call and returns what that call returned.  Against a library that
    holds a license, [Headset_queryLicenses] makes two calls. *)
Lemma bind_CAPIs_not_all_verbatim : ~ Forall forwards_verbatim bind_CAPIs.
Proof.
  intros H. rewrite Forall_forall in H.
  specialize (H _ queryLicenses_registered unit licensed
                (mkObj 1, Fove_ErrorCode.None_) tt).
  destruct H as [ev [Htr _]].
  cbv in Htr. discriminate Htr.
Qed.

(** *** The functions that pass through *)

Lemma c_string_twice (s : string) : c_string (c_string s) = c_string s.
Proof.
  induction s as [| c s IH]; simpl; [reflexivity |].
  destruct (Ascii.eqb c "000") eqn:E; simpl; [reflexivity |].
  rewrite E, IH. reflexivity.
Qed.

Lemma Forall_filter_if {A : Type} (f : A -> bool) (P : A -> Prop) (l : list A) :
  Forall (fun x => if f x then P x else True) l -> Forall P (filter f l).
Proof.
  induction 1 as [| x l Hx _ IH]; simpl; [constructor |].
  destruct (f x); [constructor; assumption | assumption].
Qed.

Ltac through_case :=
  lazymatch goal with
  | |- if forwarder ?x then _ else True =>
      let b := eval cbv [forwarder binding_of py_name] in (forwarder x) in
      let b' := eval vm_compute in b in
      lazymatch b' with
      | false => change (forwarder x) with false; exact I
      | true =>
          change (forwarder x) with true;
          let World := fresh "World" in
          let native := fresh "native" in
          let args := fresh "args" in
          let w := fresh "w" in
          intros World native args w;
          cbv beta iota zeta delta [binding_of body code py_name Args Res returns_code
                                    args_cross res_cross] in args |- *;
          repeat match goal with
                 | a : (_ * _)%type |- _ => destruct a
                 end;
          unfold result;
          simpl run;
          lazymatch goal with
          | |- context [native ?O ?c ?out w] =>
              let E := fresh "E" in
              destruct (native O c out w) as [[? ?] ?] eqn:E;
              lazymatch type of E with
              | _ = ((?e, ?o), _) => exists (mkEvent c out e o)
              end;
              cbn [ev_call ev_before ev_code ev_after ev_type];
              rewrite ?E;
              unfold received, written;
              cbn;
              rewrite ?c_string_twice;
              repeat split
          end
      end
  end.

(** Each of the 91 forwarders passes its arguments to the library and
    hands back what the library wrote. *)
Lemma forwarders_pass_through :
  Forall passes_through (filter forwarder bind_CAPIs_crossings).
Proof.
  apply Forall_filter_if. unfold bind_CAPIs_crossings.
  repeat match goal with
         | |- Forall _ [] => constructor
         | |- Forall _ (_ :: _) => constructor; [through_case |]
         end.
Qed.

(** What crosses in [Headset_getGazeVector(headset, eye, out)] and in
    [Headset_renameProfile(headset, oldName, newName)]. *)
Example crossing_getGazeVector (headset : Headset) (eye : Fove_Eye.t) (out : Fove_Vec3.t) :
  crossing (headset, eye, out) = [Value (val headset); Value eye; Value out]
  /\ in_values (fove_Headset_getGazeVector (val headset) eye)
     = [Value (val headset); Value eye]
  /\ out_values (fove_Headset_getGazeVector (val headset) eye) out = [Value out].
Proof. repeat split. Qed.

Example crossing_renameProfile (headset : Headset) (oldName newName : string) :
  crossing (headset, oldName, newName)
  = [Value (val headset); Value (c_string oldName); Value (c_string newName)].
Proof. reflexivity. Qed.

(** Two of the 91, written out: the getter of the interpupillary distance
    hands the library the box's float and returns the float the library
    wrote; the renaming passes the old name first. *)
Example getUserIPD_once (headset : Headset) (out : Obj Float32.float) :
  calls_once (Headset_getUserIPD headset out)
             (fove_Headset_getUserIPD (val headset)) (val out)
             (fun r => (fst r, mkObj (snd r))).
Proof. intros World native w. simpl. destruct (native _ _ (val out) w). reflexivity. Qed.

Example renameProfile_once (headset : Headset) (oldName newName : string) :
  calls_once (Headset_renameProfile headset oldName newName)
             (fove_Headset_renameProfile (val headset) (c_string oldName)
                                         (c_string newName)) tt
             (fun r => fst r).
Proof. intros World native w. simpl. destruct (native _ _ tt w). reflexivity. Qed.

(** *** The functions that translate *)

Lemma calls_once_intro {R O : Type} (c : call O) (before : O)
    (back : Fove_ErrorCode.t * O -> R) :
  calls_once (Call c before (fun r => Ret (back r))) c before back.
Proof.
  intros World native w. simpl.
  destruct (native O c before w) as [r w']. reflexivity.
Qed.

Lemma last_default_irrelevant {A : Type} (l : list A) (x a b : A) :
  last (x :: l) a = last (x :: l) b.
Proof.
  revert x. induction l as [| y l IH]; intros x; [reflexivity |].
  change (last (x :: y :: l) a) with (last (y :: l) a).
  change (last (x :: y :: l) b) with (last (y :: l) b).
  apply IH.
Qed.

(** A callback that assigns: the last invocation wins. *)
Lemma fold_assign {A B : Type} (f : B -> A) (l : list B) (a : A) :
  fold_left (fun (_ : A) (b : B) => f b) l a = last (map f l) a.
Proof.
  revert a. induction l as [| b l IH]; intros a; [reflexivity |].
  change (fold_left (fun (_ : A) (b : B) => f b) (b :: l) a)
    with (fold_left (fun (_ : A) (b : B) => f b) l (f b)).
  rewrite IH. destruct l as [| b' l]; [reflexivity |].
  change (map f (b :: b' :: l)) with (f b :: map f (b' :: l)).
  change (last (f b :: map f (b' :: l)) a) with (last (map f (b' :: l)) a).
  apply last_default_irrelevant.
Qed.

(** A callback that appends: every invocation is kept, in order. *)
Lemma fold_push_back (l acc : list string) :
  fold_left callback_push_back l acc = (acc ++ map c_string l)%list.
Proof.
  revert acc. induction l as [| s l IH]; intros acc; simpl.
  - rewrite app_nil_r. reflexivity.
  - rewrite IH. unfold callback_push_back. rewrite <- app_assoc. reflexivity.
Qed.

Lemma calls_once_ext {R O : Type} (p : Prog R) (c : call O) (before : O)
    (back back' : Fove_ErrorCode.t * O -> R) :
  (forall r, back r = back' r) -> calls_once p c before back -> calls_once p c before back'.
Proof.
  intros E H World native w. rewrite (H World native w), E. reflexivity.
Qed.

Lemma structs_are_copied_out : structs_copied_out.
Proof.
  split.
  - intros versions headset outVersions. eexists. split.
    + apply calls_once_intro.
    + intros [e v]. reflexivity.
  - intros info headset outHardwareInfo. eexists. split.
    + apply calls_once_intro.
    + intros [e i]. reflexivity.
Qed.

Lemma callbacks_are_collected : callbacks_collected.
Proof.
  repeat split; intros;
    (eapply calls_once_ext; [| apply calls_once_intro]);
    intros [e l]; simpl;
    unfold callback_assign, callback_CalibrationData;
    rewrite ?fold_assign, ?fold_push_back; reflexivity.
Qed.

Lemma licenses_are_fetched : licenses_fetched.
Proof.
  intros World native headset error w. simpl.
  unfold Headset_queryLicenses. simpl.
  destruct (native _ (fove_Headset_queryLicenses (val headset)) (None, 0) w)
    as [[e1 [l1 n1]] w1]; simpl.
  destruct (Fove_ErrorCode.is_error e1); simpl; [reflexivity |].
  destruct (Z.gtb_spec n1 0) as [P | P]; simpl.
  - destruct (native _ (fove_Headset_queryLicenses (val headset)) _ w1)
      as [[e2 [l2 n2]] w2]; simpl.
    destruct (Fove_ErrorCode.is_error e2); reflexivity.
  - unfold copy_licenses. replace (Z.to_nat n1) with 0%nat by lia. reflexivity.
Qed.

(** C1, amended: every function registered by [bind_CAPIs] calls only
    the entry point [fove_<name>].  All but nine make exactly one call, in
    which the library receives the caller's arguments unchanged and in the
    caller's order (a box as the value it holds, a string as a C string);
    the function returns the code that call returned, and the out objects
    hold exactly what the library wrote.  The nine others translate between
    the C types of the library and types of the binding:
    [Headset_querySoftwareVersions] and [Headset_queryHardwareInfo] copy a
    local struct out field by field, six functions collect the invocations
    of a callback, and [Headset_queryLicenses] calls once for the count and
    a second time, with a zeroed array of that size, when the first call
    succeeded with a positive count.  The code is the return value, except
    for [Headset_queryLicenses] and [Headset_listProfiles], which return
    the list and store the code in their error parameter. *)
Theorem bind_CAPIs_forwarding :
  map binding_of bind_CAPIs_crossings = bind_CAPIs
  /\ List.length bind_CAPIs = 100%nat
  /\ Forall forwards bind_CAPIs
  /\ Forall passes_through (filter forwarder bind_CAPIs_crossings)
  /\ List.length (filter forwarder bind_CAPIs_crossings) = 91%nat
  /\ map (fun x => py_name (binding_of x))
         (filter (fun x => negb (forwarder x)) bind_CAPIs_crossings)
     = translating
  /\ map py_name (filter returns_a_list bind_CAPIs)
     = ["Headset_queryLicenses"; "Headset_listProfiles"]
  /\ structs_copied_out
  /\ callbacks_collected
  /\ licenses_fetched.
Proof.
  split; [reflexivity |].
  split; [reflexivity |].
  split; [exact bind_CAPIs_forward |].
  split; [exact forwarders_pass_through |].
  split; [vm_compute; reflexivity |].
  split; [vm_compute; reflexivity |].
  split; [reflexivity |].
  split; [exact structs_are_copied_out |].
  split; [exact callbacks_are_collected |].
  exact licenses_are_fetched.
Qed.

(** *** Errors *)

Ltac stop_case :=
  let World := fresh "World" in
  let native := fresh "native" in
  let args := fresh "args" in
  let w := fresh "w" in
  intros World native args w;
  simpl in args;
  repeat match goal with
         | a : (_ * _)%type |- _ => destruct a
         end;
  unfold trace, result;
  cbv beta iota zeta delta [body code py_name Args Res];
  simpl;
  lazymatch goal with
  | |- context [native ?O ?c ?out w] =>
      let e := fresh "e" in
      destruct (native O c out w) as [[e ?] ?];
      simpl; destruct (Fove_ErrorCode.is_error e) eqn:?; simpl;
      repeat split; (reflexivity || assumption)
  end.

(** No function of the module goes on after an error, and the code the
    caller receives is the code of the first call that failed, when one
    did, and no error otherwise. *)
Lemma bind_CAPIs_report_first_error :
  Forall (fun b : binding =>
            forall (World : Type) (native : library World) (args : Args b) (w : World),
              stops_at_first_error (trace native (body b args) w) = true
              /\ match find (fun ev => Fove_ErrorCode.is_error (ev_code ev))
                            (trace native (body b args) w) with
                 | Some ev => code b (result native (body b args) w) = ev_code ev
                 | None =>
                     Fove_ErrorCode.is_error (code b (result native (body b args) w))
                     = false
                 end)
         bind_CAPIs.
Proof.
  unfold bind_CAPIs.
  repeat match goal with
         | |- Forall _ [] => constructor
         | |- Forall _ (def "Headset_queryLicenses" _ _ _ :: _) => constructor; [|]
         | |- Forall _ (_ :: _) => constructor; [stop_case |]
         end.
  intros World native [headset error] w.
  cbv beta iota zeta delta [body code py_name Args Res].
  unfold trace, result, Headset_queryLicenses. simpl.
  destruct (native _ (fove_Headset_queryLicenses (val headset)) (None, 0) w)
    as [[e1 [l1 n1]] w1]; simpl.
  destruct (Fove_ErrorCode.is_error e1) eqn:E1; simpl.
  { rewrite E1. split; reflexivity. }
  destruct (n1 >? 0); simpl.
  - destruct (native _ (fove_Headset_queryLicenses (val headset)) _ w1)
      as [[e2 [l2 n2]] w2]; simpl.
    destruct (Fove_ErrorCode.is_error e2) eqn:E2; simpl;
      unfold stops_at_first_error; simpl; rewrite E1, E2; split; reflexivity || assumption.
  - rewrite E1. split; reflexivity.
Qed.

(** C3: the [Fove_ErrorCode] a caller receives from any function of the
    module is the code the library returned from the call, unchanged.  No
    wrapper suppresses an error or recovers from one: none calls the
    library again after a call that failed, and when a call failed the
    caller receives the code of that call.  [Headset_queryLicenses] stores
    the code of its last call in [error] and returns the empty list
    whenever that code is not [None]; [Headset_queryHardwareInfo] returns
    the library's code next to the copied strings. *)
Theorem error_codes_forwarded :
  Forall (fun b : binding =>
            forall (World : Type) (native : library World) (args : Args b) (w : World),
              last_code (trace native (body b args) w)
              = Some (code b (result native (body b args) w)))
         bind_CAPIs
  /\ (forall (World : Type) (native : library World) (headset : Headset)
             (error : Fove_ErrorCode.t) (w : World),
        let r := result native (Headset_queryLicenses headset error) w in
        last_code (trace native (Headset_queryLicenses headset error) w) = Some (snd r)
        /\ (if Fove_ErrorCode.is_error (snd r) then fst r = Some [] else True))
  /\ (forall (World : Type) (native : library World) (info : Fove_HeadsetHardwareInfo.t)
             (headset : Headset) (outHardwareInfo : Python_HeadsetHardwareInfo.t)
             (w : World),
        let r := fst (native _ (fove_Headset_queryHardwareInfo (val headset)) info w) in
        result native (Headset_queryHardwareInfo info headset outHardwareInfo) w
        = (fst r,
           Python_HeadsetHardwareInfo.mk
             (c_string (Fove_HeadsetHardwareInfo.serialNumber (snd r)))
             (c_string (Fove_HeadsetHardwareInfo.manufacturer (snd r)))
             (c_string (Fove_HeadsetHardwareInfo.modelName (snd r)))))
  /\ Forall (fun b : binding =>
               forall (World : Type) (native : library World) (args : Args b) (w : World),
                 stops_at_first_error (trace native (body b args) w) = true
                 /\ match find (fun ev => Fove_ErrorCode.is_error (ev_code ev))
                               (trace native (body b args) w) with
                    | Some ev => code b (result native (body b args) w) = ev_code ev
                    | None =>
                        Fove_ErrorCode.is_error (code b (result native (body b args) w))
                        = false
                    end)
            bind_CAPIs
  /\ (forall (World : Type) (native : library World) (headset : Headset)
             (error : Fove_ErrorCode.t) (w : World),
        let first := fst (native _ (fove_Headset_queryLicenses (val headset)) (None, 0) w) in
        if Fove_ErrorCode.is_error (fst first)
        then run native (Headset_queryLicenses headset error) w
             = ((Some [], fst first),
                [mkEvent (fove_Headset_queryLicenses (val headset)) (None, 0)
                         (fst first) (snd first)],
                snd (native _ (fove_Headset_queryLicenses (val headset)) (None, 0) w))
        else True).
Proof.
  split; [| split; [| split; [| split]]].
  - eapply Forall_impl; [| exact bind_CAPIs_forward].
    intros b Hb World native args w. apply (Hb World native args w).
  - intros World native headset error w.
    unfold trace, result, Headset_queryLicenses. simpl.
    destruct (native _ (fove_Headset_queryLicenses (val headset)) (None, 0) w)
      as [[e1 [l1 n1]] w1]; simpl.
    destruct (Fove_ErrorCode.is_error e1) eqn:E1; simpl.
    + rewrite E1. split; reflexivity.
    + destruct (Z.gtb_spec n1 0) as [P | P]; simpl.
      * destruct (native _ (fove_Headset_queryLicenses (val headset)) _ w1)
          as [[e2 [l2 n2]] w2]; simpl.
        destruct (Fove_ErrorCode.is_error e2) eqn:E2; simpl; rewrite E2;
          split; (reflexivity || exact I).
      * rewrite E1. split; (reflexivity || exact I).
  - intros World native info headset outHardwareInfo w.
    unfold result, Headset_queryHardwareInfo. simpl.
    destruct (native _ (fove_Headset_queryHardwareInfo (val headset)) info w)
      as [[e o] w']. reflexivity.
  - exact bind_CAPIs_report_first_error.
  - intros World native headset error w.
    unfold Headset_queryLicenses. simpl.
    destruct (native _ (fove_Headset_queryLicenses (val headset)) (None, 0) w)
      as [[e1 [l1 n1]] w1]; simpl.
    destruct (Fove_ErrorCode.is_error e1); [reflexivity | exact I].
Qed.

(** The strings are cut at the first NUL, as C strings are. *)
Example queryHardwareInfo_strings :
  c_string ("FOVE0" ++ String "000" "garbage") = "FOVE0".
Proof. reflexivity. Qed.

End CAPIFacts.

(** ** The arithmetic of the struct classes *)

Module OperatorFacts.
Import Float32 CAPI CAPISpec Crossings OperatorSpec.

Lemma fneg_involutive (x : float) : fneg (fneg x) = x.
Proof. destruct x; simpl; rewrite ?negb_involutive; reflexivity. Qed.

(** Negating either factor of a product gives the same float. *)
Lemma fmul_fneg (a x : float) : fmul (fneg a) x = fmul a (fneg x).
Proof.
  destruct a as [sa | sa | | sa ma ea], x as [sx | sx | | sx mx ex]; simpl;
    try reflexivity; destruct sa, sx; reflexivity.
Qed.

Example Vec3_add_example :
  Vec3.__add__ (Fove_Vec3.mk f1 f0 f0) (Fove_Vec3.mk f1 f0 f0) = Fove_Vec3.mk f2 f0 f0.
Proof. reflexivity. Qed.



End OperatorFacts.

(** ** The types the module exposes *)

Module RegistryFacts.
Import Registry.

Lemma distinct_NoDup (l : list string) : distinct l = true -> NoDup l.
Proof.
  induction l as [| s l IH]; simpl; intros H; constructor.
  - apply andb_prop in H. destruct H as [H _].
    intros Hin. apply negb_true_iff in H.
    assert (E : existsb (String.eqb s) l = true).
    { apply existsb_exists. exists s. split; [assumption | apply String.eqb_refl]. }
    rewrite E in H. discriminate.
  - apply andb_prop in H. apply IH, H.
Qed.

(** C6, as stated, fails: the module does not expose SDK types only.  Among
    others it registers [VertexBuffer], a struct that [bindings.cpp] defines
    for itself. *)
Lemma capi_adds_types_of_its_own :
  ~ (forall r : registration, In r capi -> binds_sdk_type r = true).
Proof.
  intros H.
  assert (E : binds_sdk_type (reg class_ (named "VertexBuffer") "VertexBuffer") = true).
  { apply H. unfold capi. do 26 right. left. reflexivity. }
  discriminate E.
Qed.

(** C6, amended: every enum the module exposes is an enum of the SDK, every
    function is the binding of the entry point [fove_<name>], under a name
    of its own, and the classes bind structs of the SDK one to one except
    seventeen classes over types the binding defines itself: the boxes
    [Obj<T>] ([Fove_Headset], [Fove_Compositor], [Matrix44], [EyeShape],
    [Bool], [Int], [Float], [String], [EyeStateObj], [CalibrationStateObj]),
    the string-carrying copies [Versions], [LicenseInfo],
    [HeadsetHardwareInfo] and [CalibrationData], and the containers
    [VertexBuffer], [IndexBuffer] and [ColliderArray]. *)
Theorem capi_types :
  List.length capi = 63%nat
  /\ NoDup (map py capi)
  /\ forallb (fun r => implb (is_enum r) (binds_sdk_type r)) capi = true
  /\ map py (filter (fun r => negb (binds_sdk_type r)) capi)
     = [ "Fove_Headset"; "Fove_Compositor"; "Versions"; "LicenseInfo";
         "HeadsetHardwareInfo"; "Matrix44"; "VertexBuffer"; "IndexBuffer";
         "ColliderArray"; "EyeShape"; "CalibrationData"; "Bool"; "Int"; "Float";
         "String"; "EyeStateObj"; "CalibrationStateObj" ]
  /\ List.length (filter binds_sdk_type capi) = 46%nat
  /\ NoDup (map CAPI.py_name CAPI.bind_CAPIs)
  /\ Forall (fun b : CAPI.binding =>
               forall (World : Type) (native : CAPI.library World)
                      (args : CAPI.Args b) (w : World),
                 CAPISpec.calls_only ("fove_" ++ CAPI.py_name b)
                   (CAPI.trace native (CAPI.body b args) w) = true)
            CAPI.bind_CAPIs
  /\ (forall (nativeData : Fove_CalibrationData.t),
        CalibrationData.FromNative nativeData
        = CalibrationData.mk (Fove_CalibrationData.method nativeData)
            (Fove_CalibrationData.state nativeData)
            (c_string (Fove_CalibrationData.stateInfo nativeData))
            (Fove_CalibrationData.targetL nativeData)
            (Fove_CalibrationData.targetR nativeData))
  /\ (forall (g : Fove_GazableObject.t) (a : ColliderArray.t) (c : Fove_ObjectCollider.t),
        Fove_GazableObject.colliders (GazableObject.setColliders g (ColliderArray.add a c))
        = (ColliderArray.colliders a ++ [c])%list).
Proof.
  split; [reflexivity |].
  split; [apply distinct_NoDup; reflexivity |].
  split; [reflexivity |].
  split; [reflexivity |].
  split; [reflexivity |].
  split; [apply distinct_NoDup; vm_compute; reflexivity |].
  split.
  { eapply Forall_impl; [| exact CAPIFacts.bind_CAPIs_forward].
    intros b Hb World native args w. apply (Hb World native args w). }
  split; reflexivity.
Qed.

End RegistryFacts.

(** ** Further properties of the flag sets *)

Module FlagFacts.
Import CInt.

Ltac bitwise :=
  apply Z.bits_inj'; intros ?n ?Hn;
  repeat (rewrite Z.land_spec || rewrite Z.lor_spec
          || rewrite Z.lnot_spec by assumption);
  repeat match goal with
         | |- context [Z.testbit ?a ?n] => destruct (Z.testbit a n)
         end; reflexivity.

Lemma land_lor_lnot (a b : Z) : Z.lor (Z.land a (Z.lnot b)) b = Z.lor a b.
Proof. bitwise. Qed.

Lemma lor_land_lnot (a b : Z) : Z.land (Z.lor a b) (Z.lnot b) = Z.land a (Z.lnot b).
Proof. bitwise. Qed.

Lemma land_eq_iff_lor_eq (a b : Z) : Z.land a b = b <-> Z.lor a b = a.
Proof.
  split; intros H.
  - rewrite <- H. bitwise.
  - rewrite <- H. bitwise.
Qed.

Lemma land_land_lnot (a b : Z) : Z.land a (Z.land a (Z.lnot b)) = Z.land a (Z.lnot b).
Proof. bitwise. Qed.

Lemma land_land_self (a b : Z) : Z.land a (Z.land a b) = Z.land a b.
Proof. bitwise. Qed.

Lemma contains_both_ways (a b : Z) :
  (Z.land a b =? b) && (Z.land b a =? a) = (a =? b).
Proof.
  destruct (Z.eqb_spec a b) as [-> | Hne].
  - rewrite Z.land_diag, Z.eqb_refl. reflexivity.
  - destruct (Z.eqb_spec (Z.land a b) b) as [H1 | H1]; [| reflexivity].
    destruct (Z.eqb_spec (Z.land b a) a) as [H2 | H2]; [| reflexivity].
    exfalso. apply Hne. rewrite <- H2 at 1. rewrite Z.land_comm. exact H1.
Qed.

(** The flag operators of [ClientCapabilities] never leave the range of
    [int]: on two values of the enum's underlying type every operator
    returns a value of that type, so that the casts back to the enum change
    nothing. *)
Theorem ClientCapabilities_stay_in_int (a b : ClientCapabilities.Fove_ClientCapabilities)
    (Ha : in_int a) (Hb : in_int b) :
  in_int (ClientCapabilities.__and__ a b)
  /\ in_int (ClientCapabilities.__or__ a b)
  /\ in_int (ClientCapabilities.__add__ a b)
  /\ in_int (ClientCapabilities.__sub__ a b)
  /\ in_int (ClientCapabilities.operator_not a)
  /\ to_int (ClientCapabilities.__sub__ a b) = ClientCapabilities.__sub__ a b.
Proof.
  assert (Hn : in_int (ClientCapabilities.operator_not b))
    by (apply ClientCapabilitiesFacts.operator_not_in_int; assumption).
  assert (Hs : in_int (ClientCapabilities.__sub__ a b))
    by (apply ClientCapabilitiesFacts.operator_and_in_int; assumption).
  repeat split.
  - apply ClientCapabilitiesFacts.operator_and_in_int; assumption.
  - apply ClientCapabilitiesFacts.operator_and_in_int; assumption.
  - apply ClientCapabilitiesFacts.operator_or_in_int; assumption.
  - apply ClientCapabilitiesFacts.operator_or_in_int; assumption.
  - apply ClientCapabilitiesFacts.operator_or_in_int; assumption.
  - apply ClientCapabilitiesFacts.operator_or_in_int; assumption.
  - apply Hs.
  - apply Hs.
  - apply ClientCapabilitiesFacts.operator_not_in_int; assumption.
  - apply ClientCapabilitiesFacts.operator_not_in_int; assumption.
  - unfold to_int. unfold in_int, int_min, int_max in Hs.
    change (2 ^ 31) with 2147483648 in *. change (2 ^ 32) with 4294967296.
    rewrite Z.mod_small by lia. lia.
Qed.

Lemma ClientCapabilities_stay_in_int_witness :
  in_int 5 /\ in_int (-8)
  /\ in_int (ClientCapabilities.__and__ 5 (-8))
  /\ in_int (ClientCapabilities.__or__ 5 (-8))
  /\ in_int (ClientCapabilities.__add__ 5 (-8))
  /\ in_int (ClientCapabilities.__sub__ 5 (-8))
  /\ in_int (ClientCapabilities.operator_not 5)
  /\ to_int (ClientCapabilities.__sub__ 5 (-8)) = ClientCapabilities.__sub__ 5 (-8).
Proof.
  assert (H5 : in_int 5) by (unfold in_int, int_min, int_max; lia).
  assert (H8 : in_int (-8)) by (unfold in_int, int_min, int_max; lia).
  split; [exact H5 |]. split; [exact H8 |].
  exact (ClientCapabilities_stay_in_int H5 H8).
Defined.

(** How the flag operators of [ClientCapabilities] compose: two sets that
    contain each other are equal and conversely; adding back what was
    removed gives the union, removing what was added gives the difference;
    [b in a] holds exactly when adding [b] to [a] changes nothing; a
    difference and an intersection are contained in what they were taken
    from, and the empty set is contained in every set. *)
Theorem ClientCapabilities_laws (a b : ClientCapabilities.Fove_ClientCapabilities) :
  ClientCapabilities.__contains__ a b && ClientCapabilities.__contains__ b a
  = ClientCapabilities.__eq__ a b
  /\ ClientCapabilities.__add__ (ClientCapabilities.__sub__ a b) b
     = ClientCapabilities.__add__ a b
  /\ ClientCapabilities.__sub__ (ClientCapabilities.__add__ a b) b
     = ClientCapabilities.__sub__ a b
  /\ ClientCapabilities.__contains__ a b
     = ClientCapabilities.__eq__ (ClientCapabilities.__add__ a b) a
  /\ ClientCapabilities.__contains__ a (ClientCapabilities.__sub__ a b) = true
  /\ ClientCapabilities.__contains__ a (ClientCapabilities.__and__ a b) = true
  /\ ClientCapabilities.__contains__ a 0 = true.
Proof.
  unfold ClientCapabilities.__contains__, ClientCapabilities.__eq__,
    ClientCapabilities.__add__, ClientCapabilities.__sub__, ClientCapabilities.__and__,
    ClientCapabilities.operator_and, ClientCapabilities.operator_or,
    ClientCapabilities.operator_not.
  split; [apply contains_both_ways |].
  split; [apply land_lor_lnot |].
  split; [apply lor_land_lnot |].
  split.
  { destruct (Z.eqb_spec (Z.land a b) b) as [H | H];
      destruct (Z.eqb_spec (Z.lor a b) a) as [H' | H']; try reflexivity; exfalso.
    - apply H', land_eq_iff_lor_eq, H.
    - apply H, land_eq_iff_lor_eq, H'. }
  split; [apply Z.eqb_eq, land_land_lnot |].
  split; [apply Z.eqb_eq, land_land_self |].
  rewrite Z.land_0_r. reflexivity.
Qed.

(** Containment of [ClientCapabilities] is transitive. *)
Theorem ClientCapabilities_contains_transitive
    (a b c : ClientCapabilities.Fove_ClientCapabilities)
    (Hab : ClientCapabilities.__contains__ a b = true)
    (Hbc : ClientCapabilities.__contains__ b c = true) :
  ClientCapabilities.__contains__ a c = true.
Proof.
  unfold ClientCapabilities.__contains__, ClientCapabilities.operator_and in *.
  apply Z.eqb_eq in Hab. apply Z.eqb_eq in Hbc. apply Z.eqb_eq.
  rewrite <- Hbc at 1. rewrite Z.land_assoc, Hab. exact Hbc.
Qed.

Lemma ClientCapabilities_contains_transitive_witness :
  ClientCapabilities.__contains__ 7 3 = true
  /\ ClientCapabilities.__contains__ 3 1 = true
  /\ ClientCapabilities.__contains__ 7 1 = true.
Proof.
  split; [reflexivity |]. split; [reflexivity |].
  exact (@ClientCapabilities_contains_transitive 7 3 1 eq_refl eq_refl).
Defined.

(** The object groups: the mask a [CameraObject] gets by default contains
    every group, so that such a camera renders all objects; a group that
    was removed from a set is no longer contained in it, unless it is the
    empty group; and adding back what was removed gives the union. *)
Theorem ObjectGroup_laws (fove_ObjectIdInvalid : Z) (grp1 grp2 : Fove_ObjectGroup) :
  ObjectGroup.__contains__
    (Fove_CameraObject.groupMask (CameraObject.__init__ fove_ObjectIdInvalid None None None))
    grp1 = true
  /\ ObjectGroup.__contains__ (ObjectGroup.__sub__ grp1 grp2) grp2 = (grp2 =? 0)
  /\ ObjectGroup.__add__ (ObjectGroup.__sub__ grp1 grp2) grp2 = ObjectGroup.__add__ grp1 grp2
  /\ ObjectGroup.__contains__ (ObjectGroup.__add__ grp1 grp2) grp1 = true
  /\ ObjectGroup.__contains__ grp1 (ObjectGroup.__sub__ grp1 grp2) = true.
Proof.
  unfold ObjectGroup.__contains__, ObjectGroup.__sub__, ObjectGroup.__add__,
    ObjectGroup.operator_and, ObjectGroup.operator_or, ObjectGroup.operator_not.
  split.
  { change (Fove_CameraObject.groupMask _) with (-1). rewrite Z.land_m1_l.
    apply Z.eqb_refl. }
  split.
  { rewrite ClientCapabilitiesFacts.sub_disjoint.
    destruct (Z.eqb_spec 0 grp2) as [<- | H]; [reflexivity |].
    symmetry. apply Z.eqb_neq. intros E. apply H. symmetry. exact E. }
  split; [apply land_lor_lnot |].
  split.
  { apply Z.eqb_eq. rewrite Z.lor_comm. apply ClientCapabilitiesFacts.or_absorbs. }
  apply Z.eqb_eq, land_land_lnot.
Qed.

End FlagFacts.

(** ** Further properties of the float structs *)

Module FloatStructFacts.
Import Float32 MoreSpec.

Ltac feqb_case :=
  let K := fresh "K" in
  let K1 := fresh "K" in
  let K2 := fresh "K" in
  split; intros K;
  [ try discriminate; auto
  | try reflexivity;
    destruct K as [[K1 K2] | [K1 K2]]; try discriminate;
    try (injection K1; intros; subst; lia) ].

(** [a == b] on floats: both are zeros, or both are the same number. *)
Lemma feqb_true_iff (x y : float) :
  feqb x y = true
  <-> (is_zero x = true /\ is_zero y = true) \/ (x = y /\ is_nan x = false).
Proof.
  destruct x as [sx | sx | | sx mx ex], y as [sy | sy | | sy my ey];
    unfold feqb, SFeqb; simpl;
    try (destruct sx); try (destruct sy); try solve [feqb_case].
  all: change (Pos.compare_cont Eq mx my) with (Pos.compare mx my);
    destruct (Z.compare_spec ex ey); destruct (Pos.compare_spec mx my); simpl;
    subst; try solve [feqb_case].
Qed.

Lemma feqb_sym (x y : float) : feqb x y = feqb y x.
Proof.
  destruct (feqb x y) eqn:E.
  - symmetry. apply feqb_true_iff. apply feqb_true_iff in E.
    destruct E as [[? ?] | [? ?]]; [left; auto | right; subst; auto].
  - destruct (feqb y x) eqn:E'; [| reflexivity].
    apply feqb_true_iff in E'.
    assert (feqb x y = true); [| congruence].
    apply feqb_true_iff. destruct E' as [[? ?] | [? ?]]; [left; auto | right; subst; auto].
Qed.

Lemma feqb_refl (x : float) : feqb x x = negb (is_nan x).
Proof.
  destruct (is_nan x) eqn:N; simpl.
  - destruct x; try discriminate. reflexivity.
  - apply feqb_true_iff. right. auto.
Qed.

Lemma feqb_zeros (s t : bool) : feqb (S754_zero s) (S754_zero t) = true.
Proof. reflexivity. Qed.

Lemma fadd_comm (x y : float) : fadd x y = fadd y x.
Proof.
  destruct x as [sx | sx | | sx mx ex], y as [sy | sy | | sy my ey]; simpl;
    try reflexivity; try (destruct sx, sy; reflexivity).
  unfold fadd, SFadd. rewrite (Z.min_comm ex ey), Z.add_comm. reflexivity.
Qed.

Lemma fneg_binary_round_aux (s : bool) (m e : Z) (l : location) :
  fneg (binary_round_aux prec emax s m e l) = binary_round_aux prec emax (negb s) m e l.
Proof.
  unfold binary_round_aux.
  destruct (shr_fexp prec emax m e l) as [mrs' e'].
  destruct (shr_fexp prec emax _ e' loc_Exact) as [mrs'' e''].
  destruct (shr_m mrs''); simpl; try reflexivity.
  match goal with |- context [if ?c then _ else _] => destruct c end; reflexivity.
Qed.

(** The sign of a product is the product of the signs. *)
Lemma fneg_fmul (a x : float) : fneg (fmul a x) = fmul (fneg a) x.
Proof.
  destruct a as [sa | sa | | sa ma ea], x as [sx | sx | | sx mx ex]; simpl;
    try reflexivity; try (destruct sa, sx; reflexivity).
  unfold fmul, SFmul. rewrite fneg_binary_round_aux.
  destruct sa, sx; reflexivity.
Qed.

Lemma fmul_fneg_fneg (a x : float) : fmul (fneg a) (fneg x) = fmul a x.
Proof. rewrite OperatorFacts.fmul_fneg, OperatorFacts.fneg_involutive. reflexivity. Qed.

Lemma is_nan_eq (x : float) : is_nan x = true -> x = S754_nan.
Proof. destruct x; simpl; intros H; try discriminate; reflexivity. Qed.

Lemma fmul_nan_l (x : float) : fmul S754_nan x = S754_nan.
Proof. reflexivity. Qed.
Lemma fmul_nan_r (x : float) : fmul x S754_nan = S754_nan.
Proof. destruct x; reflexivity. Qed.
Lemma fadd_nan_l (x : float) : fadd S754_nan x = S754_nan.
Proof. reflexivity. Qed.
Lemma fadd_nan_r (x : float) : fadd x S754_nan = S754_nan.
Proof. destruct x; reflexivity. Qed.
Lemma fsub_nan_l (x : float) : fsub S754_nan x = S754_nan.
Proof. reflexivity. Qed.
Lemma fsub_nan_r (x : float) : fsub x S754_nan = S754_nan.
Proof. destruct x; reflexivity. Qed.
Lemma fdiv_nan_r (x : float) : fdiv x S754_nan = S754_nan.
Proof. destruct x; reflexivity. Qed.

Ltac nan_simpl :=
  repeat (rewrite fmul_nan_l || rewrite fmul_nan_r || rewrite fadd_nan_l
          || rewrite fadd_nan_r || rewrite fsub_nan_l || rewrite fsub_nan_r
          || rewrite fdiv_nan_r).

(** The equality of the float structs.  [==] compares component by
    component with the [==] of [float]: it is symmetric; a struct equals
    itself exactly when none of its components is a NaN; two components are
    equal exactly when they are the same number or are both zeros, of
    whatever sign. *)
Theorem float_struct_equality (q q' : Fove_Quaternion.t) (v v' : Fove_Vec3.t)
    (u u' : Fove_Vec2.t) (p p' : Fove_ObjectPose.t) :
  (Quaternion.__eq__ q q' = Quaternion.__eq__ q' q
   /\ Quaternion.__eq__ q q = negb (Quaternion_has_nan q)
   /\ Quaternion.__ne__ q q = Quaternion_has_nan q)
  /\ (Vec3.__eq__ v v' = Vec3.__eq__ v' v
      /\ Vec3.__eq__ v v = negb (Vec3_has_nan v)
      /\ (Vec3.__eq__ v v' = true
          <-> ((is_zero (Fove_Vec3.x v) = true /\ is_zero (Fove_Vec3.x v') = true)
               \/ (Fove_Vec3.x v = Fove_Vec3.x v' /\ is_nan (Fove_Vec3.x v) = false))
              /\ ((is_zero (Fove_Vec3.y v) = true /\ is_zero (Fove_Vec3.y v') = true)
                  \/ (Fove_Vec3.y v = Fove_Vec3.y v' /\ is_nan (Fove_Vec3.y v) = false))
              /\ ((is_zero (Fove_Vec3.z v) = true /\ is_zero (Fove_Vec3.z v') = true)
                  \/ (Fove_Vec3.z v = Fove_Vec3.z v' /\ is_nan (Fove_Vec3.z v) = false))))
  /\ (Vec2.__eq__ u u' = Vec2.__eq__ u' u
      /\ Vec2.__eq__ u u = negb (Vec2_has_nan u))
  /\ operator_eq_ObjectPose p p' = operator_eq_ObjectPose p' p
  /\ (forall s1 s2 s3 t1 t2 t3 : bool,
        Vec3.__eq__ (Fove_Vec3.mk (S754_zero s1) (S754_zero s2) (S754_zero s3))
                    (Fove_Vec3.mk (S754_zero t1) (S754_zero t2) (S754_zero t3)) = true).
Proof.
  unfold Quaternion.__eq__, Quaternion.__ne__, Vec3.__eq__, Vec2.__eq__,
    operator_eq_ObjectPose, operator_eq_Quaternion, operator_eq_Vec3, operator_eq_Vec2,
    Quaternion_has_nan, Vec3_has_nan, Vec2_has_nan.
  split; [| split; [| split; [| split]]].
  - split; [| split].
    + rewrite (feqb_sym (Fove_Quaternion.x q)), (feqb_sym (Fove_Quaternion.y q)),
        (feqb_sym (Fove_Quaternion.z q)), (feqb_sym (Fove_Quaternion.w q)). reflexivity.
    + rewrite !feqb_refl, !negb_orb. reflexivity.
    + rewrite !feqb_refl, <- !negb_orb, negb_involutive. reflexivity.
  - split; [| split].
    + rewrite (feqb_sym (Fove_Vec3.x v)), (feqb_sym (Fove_Vec3.y v)),
        (feqb_sym (Fove_Vec3.z v)). reflexivity.
    + rewrite !feqb_refl, !negb_orb. reflexivity.
    + rewrite !andb_true_iff, !feqb_true_iff. tauto.
  - split.
    + rewrite (feqb_sym (Fove_Vec2.x u)), (feqb_sym (Fove_Vec2.y u)). reflexivity.
    + rewrite !feqb_refl, !negb_orb. reflexivity.
  - repeat match goal with
           | |- context [feqb (?f p) (?f ?r)] => rewrite (feqb_sym (f p) (f r))
           end.
    rewrite (feqb_sym (Fove_Vec3.x (Fove_ObjectPose.scale p))),
      (feqb_sym (Fove_Vec3.y (Fove_ObjectPose.scale p))),
      (feqb_sym (Fove_Vec3.z (Fove_ObjectPose.scale p))),
      (feqb_sym (Fove_Quaternion.x (Fove_ObjectPose.rotation p))),
      (feqb_sym (Fove_Quaternion.y (Fove_ObjectPose.rotation p))),
      (feqb_sym (Fove_Quaternion.z (Fove_ObjectPose.rotation p))),
      (feqb_sym (Fove_Quaternion.w (Fove_ObjectPose.rotation p))),
      (feqb_sym (Fove_Vec3.x (Fove_ObjectPose.position p))),
      (feqb_sym (Fove_Vec3.y (Fove_ObjectPose.position p))),
      (feqb_sym (Fove_Vec3.z (Fove_ObjectPose.position p))),
      (feqb_sym (Fove_Vec3.x (Fove_ObjectPose.velocity p))),
      (feqb_sym (Fove_Vec3.y (Fove_ObjectPose.velocity p))),
      (feqb_sym (Fove_Vec3.z (Fove_ObjectPose.velocity p))).
    reflexivity.
  - intros. reflexivity.
Qed.

(** The sums of vectors do not depend on the order of the operands, in
    float arithmetic as in [int] arithmetic. *)
Theorem vector_add_commutative (a b : Fove_Vec3.t) (c d : Fove_Vec2.t)
    (i j : Fove_Vec2i.t) :
  Vec3.__add__ a b = Vec3.__add__ b a
  /\ Vec2.__add__ c d = Vec2.__add__ d c
  /\ Vec2i.__add__ i j = Vec2i.__add__ j i.
Proof.
  unfold Vec3.__add__, Vec2.__add__, Vec2i.__add__.
  rewrite (fadd_comm (Fove_Vec3.x a)), (fadd_comm (Fove_Vec3.y a)),
    (fadd_comm (Fove_Vec3.z a)), (fadd_comm (Fove_Vec2.x c)), (fadd_comm (Fove_Vec2.y c)),
    (Z.add_comm (Fove_Vec2i.x i)), (Z.add_comm (Fove_Vec2i.y i)).
  repeat split.
Qed.

(** Conjugation and negation of a quaternion preserve the squared norm the
    binding computes, and commute with [normalise], with [invert] and with
    the rescaling by a float: no rounding gets in the way. *)
Theorem quaternion_conjugate_negate_commute (q : Fove_Quaternion.t) (a : float) :
  Quaternion.norm2 (Quaternion.conjugate q) = Quaternion.norm2 q
  /\ Quaternion.norm2 (Quaternion.__neg__ q) = Quaternion.norm2 q
  /\ Quaternion.normalise (Quaternion.conjugate q)
     = Quaternion.conjugate (Quaternion.normalise q)
  /\ Quaternion.normalise (Quaternion.__neg__ q)
     = Quaternion.__neg__ (Quaternion.normalise q)
  /\ Quaternion.invert (Quaternion.conjugate q)
     = Quaternion.conjugate (Quaternion.invert q)
  /\ Quaternion.invert (Quaternion.__neg__ q)
     = Quaternion.__neg__ (Quaternion.invert q)
  /\ Quaternion.__mul__float (Quaternion.conjugate q) a
     = Quaternion.conjugate (Quaternion.__mul__float q a)
  /\ Quaternion.__mul__float (Quaternion.__neg__ q) a
     = Quaternion.__neg__ (Quaternion.__mul__float q a)
  /\ Quaternion.conjugate (Quaternion.__neg__ q)
     = Quaternion.__neg__ (Quaternion.conjugate q).
Proof.
  destruct q as [x y z w].
  assert (Nc : Quaternion.norm2 (Quaternion.conjugate (Fove_Quaternion.mk x y z w))
               = Quaternion.norm2 (Fove_Quaternion.mk x y z w)).
  { unfold Quaternion.norm2, Quaternion.conjugate. simpl.
    rewrite !fmul_fneg_fneg. reflexivity. }
  assert (Nn : Quaternion.norm2 (Quaternion.__neg__ (Fove_Quaternion.mk x y z w))
               = Quaternion.norm2 (Fove_Quaternion.mk x y z w)).
  { unfold Quaternion.norm2, Quaternion.__neg__. simpl.
    rewrite !fmul_fneg_fneg. reflexivity. }
  split; [exact Nc |]. split; [exact Nn |].
  unfold Quaternion.normalise, Quaternion.invert. rewrite Nc, Nn.
  unfold Quaternion.conjugate, Quaternion.__neg__, Quaternion.__mul__float. simpl.
  rewrite !fmul_fneg_fneg, !fneg_fmul, !OperatorFacts.fneg_involutive,
    <- !OperatorFacts.fmul_fneg.
  repeat split.
Qed.

Lemma is_finite_fadd (a b : float) :
  is_finite (fadd a b) = true -> is_finite a = true /\ is_finite b = true.
Proof.
  destruct a as [sa | sa | | sa ma ea], b as [sb | sb | | sb mb eb]; simpl;
    try (intros; split; reflexivity); try discriminate;
    destruct sa, sb; simpl; discriminate.
Qed.

Lemma is_finite_fmul_self (a : float) :
  is_finite (fmul a a) = true -> is_finite a = true.
Proof. destruct a; simpl; try discriminate; reflexivity. Qed.

Lemma is_zero_is_finite (a : float) : is_zero a = true -> is_finite a = true.
Proof. destruct a; simpl; try discriminate; reflexivity. Qed.

Lemma norm2_finite (q : Fove_Quaternion.t) :
  is_finite (Quaternion.norm2 q) = true -> Quaternion_all is_finite q = true.
Proof.
  destruct q as [x y z w]. unfold Quaternion.norm2, Quaternion_all. simpl.
  intros H.
  apply is_finite_fadd in H. destruct H as [H Hw].
  apply is_finite_fadd in H. destruct H as [H Hz].
  apply is_finite_fadd in H. destruct H as [Hx Hy].
  apply is_finite_fmul_self in Hx, Hy, Hz, Hw.
  rewrite Hx, Hy, Hz, Hw. reflexivity.
Qed.

Lemma finfinity_fmul_value (s : bool) (c : float) :
  is_finite c = true -> fmul (S754_infinity s) c = infinity_times s c.
Proof. destruct c; simpl; try discriminate; intros _; reflexivity. Qed.

Lemma infinity_times_nan (s : bool) (c : float) :
  is_finite c = true ->
  is_nan (infinity_times s c) = is_zero c
  /\ is_infinite (infinity_times s c) = negb (is_zero c).
Proof. destruct c; simpl; try discriminate; intros _; split; reflexivity. Qed.

(** When the squared norm a quaternion has in [float] is zero, as it is
    for the zero quaternion and for every quaternion whose squares
    underflow, [normalise] and [invert] return no finite component: a
    component is NaN where the quaternion has a zero and infinite
    elsewhere, component by component and in the order of the components.
    The infinity in a component of [normalise] has the sign of that
    component when the zero norm is positive; [invert] flips the sign in
    [x], [y] and [z]. *)
Theorem vanishing_norm_is_not_rescued (q : Fove_Quaternion.t)
    (H : is_zero (Quaternion.norm2 q) = true) :
  Quaternion_all (fun c => negb (is_finite c)) (Quaternion.normalise q) = true
  /\ Quaternion_all (fun c => negb (is_finite c)) (Quaternion.invert q) = true
  /\ Quaternion_all is_nan (Quaternion.normalise q) = Quaternion_all is_zero q
  /\ Quaternion_all is_nan (Quaternion.invert q) = Quaternion_all is_zero q
  /\ map is_nan (Quaternion_components (Quaternion.normalise q))
     = map is_zero (Quaternion_components q)
  /\ map is_infinite (Quaternion_components (Quaternion.normalise q))
     = map (fun c => negb (is_zero c)) (Quaternion_components q)
  /\ map is_nan (Quaternion_components (Quaternion.invert q))
     = map is_zero (Quaternion_components q)
  /\ map is_infinite (Quaternion_components (Quaternion.invert q))
     = map (fun c => negb (is_zero c)) (Quaternion_components q)
  /\ Quaternion.normalise q
     = Fove_Quaternion.mk
         (infinity_times (sign (Quaternion.norm2 q)) (Fove_Quaternion.x q))
         (infinity_times (sign (Quaternion.norm2 q)) (Fove_Quaternion.y q))
         (infinity_times (sign (Quaternion.norm2 q)) (Fove_Quaternion.z q))
         (infinity_times (sign (Quaternion.norm2 q)) (Fove_Quaternion.w q))
  /\ Quaternion.invert q
     = Fove_Quaternion.mk
         (infinity_times (negb (sign (Quaternion.norm2 q))) (Fove_Quaternion.x q))
         (infinity_times (negb (sign (Quaternion.norm2 q))) (Fove_Quaternion.y q))
         (infinity_times (negb (sign (Quaternion.norm2 q))) (Fove_Quaternion.z q))
         (infinity_times (sign (Quaternion.norm2 q)) (Fove_Quaternion.w q)).
Proof.
  pose proof (norm2_finite q (is_zero_is_finite _ H)) as F.
  unfold Quaternion.normalise, Quaternion.invert.
  destruct (Quaternion.norm2 q) as [s | | |]; try discriminate. clear H.
  assert (A : fdiv f1 (fsqrt (S754_zero s)) = S754_infinity s)
    by (destruct s; reflexivity).
  assert (B : fdiv f1 (S754_zero s) = S754_infinity s) by (destruct s; reflexivity).
  cbv zeta. rewrite A, B. clear A B.
  destruct q as [x y z w]. unfold Quaternion_all, Quaternion_components in *.
  cbn [Fove_Quaternion.x Fove_Quaternion.y Fove_Quaternion.z Fove_Quaternion.w map sign]
    in F |- *.
  change (fneg (S754_infinity s)) with (S754_infinity (negb s)).
  repeat rewrite andb_true_iff in F. destruct F as [[[Fx Fy] Fz] Fw].
  rewrite !(finfinity_fmul_value _ x Fx), !(finfinity_fmul_value _ y Fy),
    !(finfinity_fmul_value _ z Fz), !(finfinity_fmul_value _ w Fw).
  destruct (infinity_times_nan s x Fx) as [X1 X2], (infinity_times_nan s y Fy) as [Y1 Y2],
    (infinity_times_nan s z Fz) as [Z1 Z2], (infinity_times_nan s w Fw) as [W1 W2],
    (infinity_times_nan (negb s) x Fx) as [X3 X4],
    (infinity_times_nan (negb s) y Fy) as [Y3 Y4],
    (infinity_times_nan (negb s) z Fz) as [Z3 Z4].
  assert (N : forall t c, is_finite c = true -> is_finite (infinity_times t c) = false)
    by (intros t c; destruct c; simpl; try discriminate; reflexivity).
  rewrite !(N _ x Fx), !(N _ y Fy), !(N _ z Fz), !(N _ w Fw).
  rewrite X1, X2, Y1, Y2, Z1, Z2, W1, W2, X3, X4, Y3, Y4, Z3, Z4.
  repeat split.
Qed.

Lemma vanishing_norm_is_not_rescued_witness :
  is_zero (Quaternion.norm2
             (Fove_Quaternion.mk (of_binary 1 (-100)) f0 f0 (of_binary (-3) (-90)))) = true
  /\ Quaternion.normalise
       (Fove_Quaternion.mk (of_binary 1 (-100)) f0 f0 (of_binary (-3) (-90)))
     = Fove_Quaternion.mk (S754_infinity false) S754_nan S754_nan (S754_infinity true)
  /\ Quaternion.invert
       (Fove_Quaternion.mk (of_binary 1 (-100)) f0 f0 (of_binary (-3) (-90)))
     = Fove_Quaternion.mk (S754_infinity true) S754_nan S754_nan (S754_infinity true).
Proof.
  split; [reflexivity |].
  pose proof (vanishing_norm_is_not_rescued
                (Fove_Quaternion.mk (of_binary 1 (-100)) f0 f0 (of_binary (-3) (-90)))
                eq_refl) as P.
  split.
  - exact (proj1 (proj2 (proj2 (proj2 (proj2 (proj2 (proj2 (proj2 (proj2 P))))))))).
  - exact (proj2 (proj2 (proj2 (proj2 (proj2 (proj2 (proj2 (proj2 (proj2 P))))))))).
Defined.

(** A NaN in any component of a quaternion spreads to every component of
    its normalisation, of its inverse and of its products with any other
    quaternion, on either side. *)
Theorem nan_spreads (q q' : Fove_Quaternion.t) (H : Quaternion_has_nan q = true) :
  Quaternion.normalise q = Quaternion_nan
  /\ Quaternion.invert q = Quaternion_nan
  /\ Quaternion.__mul__ q q' = Quaternion_nan
  /\ Quaternion.__mul__ q' q = Quaternion_nan.
Proof.
  destruct q as [x y z w], q' as [x' y' z' w'].
  unfold Quaternion_has_nan in H. simpl in H.
  unfold Quaternion.normalise, Quaternion.invert, Quaternion.__mul__, Quaternion.norm2,
    Quaternion_nan. simpl.
  repeat rewrite orb_true_iff in H.
  destruct H as [[[H | H] | H] | H]; apply is_nan_eq in H; subst;
    nan_simpl; simpl; nan_simpl; repeat split.
Qed.

Lemma nan_spreads_witness :
  Quaternion_has_nan (Fove_Quaternion.mk f0 S754_nan f0 f1) = true
  /\ Quaternion.normalise (Fove_Quaternion.mk f0 S754_nan f0 f1) = Quaternion_nan
  /\ Quaternion.invert (Fove_Quaternion.mk f0 S754_nan f0 f1) = Quaternion_nan
  /\ Quaternion.__mul__ (Fove_Quaternion.mk f0 S754_nan f0 f1)
                        (Fove_Quaternion.mk f0 f0 f0 f1) = Quaternion_nan
  /\ Quaternion.__mul__ (Fove_Quaternion.mk f0 f0 f0 f1)
                        (Fove_Quaternion.mk f0 S754_nan f0 f1) = Quaternion_nan.
Proof.
  split; [reflexivity |].
  exact (@nan_spreads (Fove_Quaternion.mk f0 S754_nan f0 f1)
                      (Fove_Quaternion.mk f0 f0 f0 f1) eq_refl).
Defined.

End FloatStructFacts.

(** ** Further properties of the wrappers *)

Module MoreCAPIFacts.
Import CAPI CAPISpec MoreSpec.

(** *** C strings *)

Lemma c_string_no_nul (s : string) : has_nul (c_string s) = false.
Proof.
  induction s as [| c s IH]; simpl; [reflexivity |].
  destruct (Ascii.eqb c "000") eqn:E; simpl; [reflexivity |].
  rewrite E, IH. reflexivity.
Qed.

Lemma c_string_fixed (s : string) : has_nul s = false -> c_string s = s.
Proof.
  induction s as [| c s IH]; simpl; [reflexivity |].
  destruct (Ascii.eqb c "000"); simpl; [discriminate |].
  intros H. rewrite IH by assumption. reflexivity.
Qed.

Lemma c_string_idempotent (s : string) : c_string (c_string s) = c_string s.
Proof. apply c_string_fixed, c_string_no_nul. Qed.

Lemma c_string_prefix (s : string) : exists rest : string, s = c_string s ++ rest.
Proof.
  induction s as [| c s [rest IH]]; simpl.
  - exists "". reflexivity.
  - destruct (Ascii.eqb c "000").
    + exists (String c s). reflexivity.
    + exists rest. simpl. rewrite <- IH. reflexivity.
Qed.

(** A [std::string] argument reaches the library as a C string: what the
    library receives from [Headset_createProfile] holds no NUL, is an
    initial part of the caller's string, and is the caller's string itself
    exactly when that holds no NUL.  The strings
    [Headset_queryHardwareInfo] hands back hold no NUL either. *)
Theorem strings_cross_as_C_strings (World : Type) (native : library World)
    (headset : Headset) (profileName : string) (info : Fove_HeadsetHardwareInfo.t)
    (outHardwareInfo : Python_HeadsetHardwareInfo.t) (w : World) :
  (exists (received : string) (code : Fove_ErrorCode.t),
      trace native (Headset_createProfile headset profileName) w
      = [mkEvent (fove_Headset_createProfile (val headset) received) tt code tt]
      /\ has_nul received = false
      /\ (exists rest : string, profileName = received ++ rest)
      /\ (received = profileName <-> has_nul profileName = false))
  /\ (let r := snd (result native
                      (Headset_queryHardwareInfo info headset outHardwareInfo) w) in
      has_nul (Python_HeadsetHardwareInfo.serialNumber r) = false
      /\ has_nul (Python_HeadsetHardwareInfo.manufacturer r) = false
      /\ has_nul (Python_HeadsetHardwareInfo.modelName r) = false).
Proof.
  split.
  - exists (c_string profileName).
    unfold trace, Headset_createProfile. simpl.
    destruct (native _ _ tt w) as [[e []] w']. simpl.
    exists e.
    split; [reflexivity |].
    split; [apply c_string_no_nul |].
    split; [apply c_string_prefix |].
    split.
    + intros E. rewrite <- E. apply c_string_no_nul.
    + apply c_string_fixed.
  - unfold result, Headset_queryHardwareInfo. simpl.
    destruct (native _ _ info w) as [[e o] w']. simpl.
    repeat split; apply c_string_no_nul.
Qed.

(** *** Callbacks *)

Lemma fold_left_push_back (l : list string) (acc : list string) :
  fold_left callback_push_back l acc = (acc ++ map c_string l)%list.
Proof.
  revert acc. induction l as [| s l IH]; intros acc; simpl.
  - rewrite app_nil_r. reflexivity.
  - rewrite IH. unfold callback_push_back. rewrite <- app_assoc. reflexivity.
Qed.

Lemma last_cons_default {A : Type} (l : list A) (x a b : A) :
  last (x :: l) a = last (x :: l) b.
Proof.
  revert x. induction l as [| y l IH]; intros x; [reflexivity |].
  change (last (x :: y :: l) a) with (last (y :: l) a).
  change (last (x :: y :: l) b) with (last (y :: l) b).
  apply IH.
Qed.

(** A callback that overwrites: the last invocation wins, and without an
    invocation the value stays. *)
Lemma fold_left_overwrite {A B : Type} (f : B -> A) (l : list B) (a : A) :
  fold_left (fun (_ : A) (b : B) => f b) l a = last (map f l) a.
Proof.
  revert a. induction l as [| b l IH]; intros a; [reflexivity |].
  change (fold_left (fun (_ : A) (b : B) => f b) (b :: l) a)
    with (fold_left (fun (_ : A) (b : B) => f b) l (f b)).
  rewrite IH. destruct l as [| b' l]; [reflexivity |].
  change (map f (b :: b' :: l)) with (f b :: map f (b' :: l)).
  change (last (f b :: map f (b' :: l)) a) with (last (map f (b' :: l)) a).
  apply last_cons_default.
Qed.

(** [Headset_listProfiles] returns one string for every invocation of its
    callback, in the order of the invocations, each cut at its first NUL.
    The list is returned whatever code the call returns, and the value
    [err] had before is never looked at. *)
Theorem listProfiles_collects (World : Type) (native : library World)
    (headset : Headset) (err err' : Fove_ErrorCode.t) (w : World) :
  let answer := fst (native _ (fove_Headset_listProfiles (val headset)) [] w) in
  result native (Headset_listProfiles headset err) w
  = (map c_string (snd answer), fst answer)
  /\ List.length (fst (result native (Headset_listProfiles headset err) w))
     = List.length (snd answer)
  /\ forallb (fun s => negb (has_nul s))
             (fst (result native (Headset_listProfiles headset err) w)) = true
  /\ result native (Headset_listProfiles headset err) w
     = result native (Headset_listProfiles headset err') w.
Proof.
  unfold result, Headset_listProfiles. simpl.
  destruct (native _ (fove_Headset_listProfiles (val headset)) [] w) as [[e l] w'].
  simpl. rewrite fold_left_push_back. simpl.
  split; [reflexivity |].
  split; [apply length_map |].
  split; [| reflexivity].
  apply forallb_forall. intros s Hs. apply in_map_iff in Hs.
  destruct Hs as [s0 [<- _]]. rewrite c_string_no_nul. reflexivity.
Qed.

(** The string getters with a callback ([Headset_queryCurrentProfile],
    [Headset_queryProfileDataPath], [Config_getValue_string]) leave in the
    box the string of the last invocation of the callback, cut at its first
    NUL; when the library never invokes the callback, the box keeps the
    string it held, whatever code is returned. *)
Theorem string_getters_keep_last (World : Type) (native : library World)
    (headset : Headset) (key profileName : string) (box : Obj string) (w : World) :
  (let answer := fst (native _ (fove_Headset_queryCurrentProfile (val headset)) [] w) in
   result native (Headset_queryCurrentProfile headset box) w
   = (fst answer, mkObj (last (map c_string (snd answer)) (val box))))
  /\ (let answer :=
        fst (native _ (fove_Headset_queryProfileDataPath (val headset)
                                                         (c_string profileName)) [] w) in
      result native (Headset_queryProfileDataPath headset profileName box) w
      = (fst answer, mkObj (last (map c_string (snd answer)) (val box))))
  /\ (let answer := fst (native _ (fove_Config_getValue_string key) [] w) in
      result native (Config_getValue_string key box) w
      = (fst answer, mkObj (last (map c_string (snd answer)) (val box)))).
Proof.
  unfold result, Headset_queryCurrentProfile, Headset_queryProfileDataPath,
    Config_getValue_string. simpl.
  split; [| split].
  - destruct (native _ (fove_Headset_queryCurrentProfile (val headset)) [] w)
      as [[e l] w']. simpl. unfold callback_assign. rewrite fold_left_overwrite.
    reflexivity.
  - destruct (native _ (fove_Headset_queryProfileDataPath _ _) [] w) as [[e l] w'].
    simpl. unfold callback_assign. rewrite fold_left_overwrite. reflexivity.
  - destruct (native _ (fove_Config_getValue_string key) [] w) as [[e l] w'].
    simpl. unfold callback_assign. rewrite fold_left_overwrite. reflexivity.
Qed.

(** The calibration getters ([Headset_getEyeTrackingCalibrationStateDetails],
    [Headset_tickEyeTrackingCalibration]) leave in [data] the conversion of
    the native data of the last invocation of the callback; the values
    [data] held are kept only when the callback is never invoked. *)
Theorem calibration_getters_keep_last (World : Type) (native : library World)
    (headset : Headset) (deltaTime : Float32.float) (isVisible : bool)
    (data : CalibrationData.t) (w : World) :
  (let answer :=
     fst (native _ (fove_Headset_getEyeTrackingCalibrationStateDetails (val headset))
                 [] w) in
   result native (Headset_getEyeTrackingCalibrationStateDetails headset data) w
   = (fst answer, last (map CalibrationData.FromNative (snd answer)) data))
  /\ (let answer :=
        fst (native _ (fove_Headset_tickEyeTrackingCalibration (val headset) deltaTime
                                                               isVisible) [] w) in
      result native (Headset_tickEyeTrackingCalibration headset deltaTime isVisible data) w
      = (fst answer, last (map CalibrationData.FromNative (snd answer)) data)).
Proof.
  unfold result, Headset_getEyeTrackingCalibrationStateDetails,
    Headset_tickEyeTrackingCalibration. simpl.
  split.
  - destruct (native _ (fove_Headset_getEyeTrackingCalibrationStateDetails _) [] w)
      as [[e l] w']. simpl. unfold callback_CalibrationData.
    rewrite fold_left_overwrite. reflexivity.
  - destruct (native _ (fove_Headset_tickEyeTrackingCalibration _ _ _) [] w)
      as [[e l] w']. simpl. unfold callback_CalibrationData.
    rewrite fold_left_overwrite. reflexivity.
Qed.

(** *** Licenses *)

Lemma copy_licenses_spec (licenses : list Fove_LicenseInfo.t) (n : Z)
    (l : list Python_LicenseInfo.t) :
  copy_licenses licenses n = Some l ->
  List.length l = Z.to_nat n
  /\ Forall (fun x => Python_LicenseInfo.uuid x = "") l.
Proof.
  unfold copy_licenses.
  destruct (Nat.leb_spec (Z.to_nat n) (List.length licenses)) as [Hle | Hlt];
    [| discriminate].
  intros H. injection H as <-. split.
  - rewrite length_map. apply firstn_length_le. exact Hle.
  - apply Forall_forall. intros x Hx. apply in_map_iff in Hx.
    destruct Hx as [y [<- _]]. reflexivity.
Qed.

Lemma copy_licenses_defined (licenses : list Fove_LicenseInfo.t) (n : Z) :
  match copy_licenses licenses n with Some _ => false | None => true end
  = (List.length licenses <? Z.to_nat n)%nat.
Proof.
  unfold copy_licenses.
  destruct (Nat.leb_spec (Z.to_nat n) (List.length licenses)) as [Hle | Hlt];
    symmetry; [apply Nat.ltb_ge | apply Nat.ltb_lt]; assumption.
Qed.

Lemma array_after_length (before : list Fove_LicenseInfo.t)
    (written : option (list Fove_LicenseInfo.t)) :
  List.length (array_after before written) = List.length before.
Proof.
  destruct written as [l |]; simpl; [| reflexivity].
  rewrite length_firstn, length_app, length_skipn. lia.
Qed.

(** Whatever the library does, a list that [Headset_queryLicenses] returns
    holds no license after an error and otherwise as many licenses as the
    last call reported, and the [uuid] of every license in it is the empty
    string: the wrapper never copies the uuid.  The wrapper returns no
    defined list in exactly one case: two calls were made, neither failed,
    and the second reported more licenses than the first, which is more
    than the array the wrapper had allocated holds. *)
Theorem queryLicenses_result (World : Type) (native : library World)
    (headset : Headset) (error : Fove_ErrorCode.t) (w : World) :
  match fst (result native (Headset_queryLicenses headset error) w) with
  | Some l =>
      List.length l = licenses_due (trace native (Headset_queryLicenses headset error) w)
      /\ Forall (fun x => Python_LicenseInfo.uuid x = "") l
  | None =>
      Fove_ErrorCode.is_error (snd (result native (Headset_queryLicenses headset error) w))
      = false
  end
  /\ match fst (result native (Headset_queryLicenses headset error) w) with
     | Some _ => false
     | None => true
     end
     = over_reported (trace native (Headset_queryLicenses headset error) w).
Proof.
  unfold result, trace, Headset_queryLicenses. simpl.
  destruct (native _ (fove_Headset_queryLicenses (val headset)) (None, 0) w)
    as [[e1 [l1 n1]] w1]; simpl.
  destruct (Fove_ErrorCode.is_error e1) eqn:E1; simpl.
  - unfold licenses_due. simpl. rewrite E1. repeat split. constructor.
  - destruct (n1 >? 0) eqn:N1; simpl.
    + destruct (native _ (fove_Headset_queryLicenses (val headset)) _ w1)
        as [[e2 [l2 n2]] w2]; simpl.
      destruct (Fove_ErrorCode.is_error e2) eqn:E2; simpl;
        unfold over_reported; simpl; rewrite E1, E2; simpl.
      * unfold licenses_due. simpl. rewrite E2. repeat split. constructor.
      * pose proof (copy_licenses_defined
                      (array_after (repeat zero_LicenseInfo (Z.to_nat n1)) l2) n2) as D.
        rewrite array_after_length, repeat_length in D.
        assert (P : 0 < n1) by (apply Z.gtb_lt; exact N1).
        assert (B : (Z.to_nat n1 <? Z.to_nat n2)%nat = (n1 <? n2)).
        { destruct (Z.ltb_spec n1 n2); [apply Nat.ltb_lt | apply Nat.ltb_ge]; lia. }
        rewrite B in D.
        destruct (copy_licenses _ n2) as [l |] eqn:C.
        -- split; [| exact D].
           unfold licenses_due. simpl. rewrite ?E2. unfold reported_count. simpl.
           apply copy_licenses_spec in C. exact C.
        -- split; [reflexivity | exact D].
    + unfold over_reported. simpl.
      destruct (copy_licenses [] n1) as [l |] eqn:C.
      * split; [| reflexivity].
        unfold licenses_due. simpl. rewrite E1. unfold reported_count. simpl.
        apply copy_licenses_spec in C. exact C.
      * exfalso. unfold copy_licenses in C.
        assert (Hn : Z.to_nat n1 = 0%nat).
        { destruct (Z.gtb_spec n1 0); [discriminate | lia]. }
        rewrite Hn in C. discriminate C.
Qed.

(** Against a library that reports more licenses on the second call than
    the array holds, the copy loop runs past the array: no list. *)
Example queryLicenses_over_reported :
  run over_reporting (Headset_queryLicenses (mkObj 1) Fove_ErrorCode.None_) tt
  = ((None, Fove_ErrorCode.None_),
     [mkEvent (fove_Headset_queryLicenses 1) (None, 0) Fove_ErrorCode.None_ (None, 1);
      mkEvent (fove_Headset_queryLicenses 1) (Some [zero_LicenseInfo], 1)
              Fove_ErrorCode.None_
              (Some [CAPISpec.one_license; CAPISpec.one_license], 2)],
     tt).
Proof. reflexivity. Qed.

(** *** No call after an error *)

Ltac stops_case :=
  let World := fresh "World" in
  let native := fresh "native" in
  let args := fresh "args" in
  let w := fresh "w" in
  intros World native args w;
  simpl in args;
  repeat match goal with
         | a : (_ * _)%type |- _ => destruct a
         end;
  unfold trace;
  cbv beta iota zeta delta [body code py_name Args Res];
  simpl;
  match goal with
  | |- context [native ?O ?c ?out w] => destruct (native O c out w) as [[? ?] ?]
  end;
  reflexivity.

(** No function of the module calls the library again after a call that
    returned an error: in every run, every call but the last returned
    [None]. *)
Theorem no_call_after_an_error :
  Forall (fun b : binding =>
            forall (World : Type) (native : library World) (args : Args b) (w : World),
              stops_at_first_error (trace native (body b args) w) = true)
         bind_CAPIs.
Proof.
  unfold bind_CAPIs.
  repeat match goal with
         | |- Forall _ [] => constructor
         | |- Forall _ (def "Headset_queryLicenses" _ _ _ :: _) => constructor; [|]
         | |- Forall _ (_ :: _) => constructor; [stops_case |]
         end.
  intros World native [headset error] w.
  cbv beta iota zeta delta [body code py_name Args Res].
  unfold trace, Headset_queryLicenses. simpl.
  destruct (native _ (fove_Headset_queryLicenses (val headset)) (None, 0) w)
    as [[e1 [l1 n1]] w1]; simpl.
  destruct (Fove_ErrorCode.is_error e1) eqn:E1; simpl; [reflexivity |].
  destruct (n1 >? 0); simpl; [| reflexivity].
  destruct (native _ (fove_Headset_queryLicenses (val headset)) _ w1)
    as [[e2 [l2 n2]] w2]; simpl.
  destruct (Fove_ErrorCode.is_error e2); simpl; unfold stops_at_first_error; simpl;
    rewrite E1; reflexivity.
Qed.

(** *** One call after another *)

Lemma run_and_then {World A B : Type} (native : library World) (p : Prog A)
    (k : A -> Prog B) (w : World) :
  run native (and_then p k) w
  = let first := run native p w in
    let second := run native (k (fst (fst first))) (snd first) in
    (fst (fst second), (snd (fst first) ++ snd (fst second))%list, snd second).
Proof.
  revert w. induction p as [a | O c out f IH]; intros w; simpl.
  - destruct (run native (k a) w) as [[b tr] w']. reflexivity.
  - destruct (native O c out w) as [r w1]. rewrite IH. simpl.
    destruct (run native (f r) w1) as [[a tr] w2]. simpl.
    destruct (run native (k a) w2) as [[b tr'] w3]. reflexivity.
Qed.

(** The box carries the headset from [createHeadset] to [Headset_destroy]:
    the pointer [Headset_destroy] hands to the library is the one the
    library wrote into the box in [createHeadset], and the library is
    called exactly twice, in that order. *)
Theorem headset_reaches_destroy (World : Type) (native : library World)
    (capabilities : ClientCapabilities.Fove_ClientCapabilities) (outHeadset : Headset)
    (w : World) :
  let created := native _ (fove_createHeadset capabilities) (val outHeadset) w in
  let destroyed :=
    native _ (fove_Headset_destroy (snd (fst created))) tt (snd created) in
  run native (create_and_destroy capabilities outHeadset) w
  = ((fst (fst created), fst (fst destroyed)),
     [mkEvent (fove_createHeadset capabilities) (val outHeadset)
              (fst (fst created)) (snd (fst created));
      mkEvent (fove_Headset_destroy (snd (fst created))) tt
              (fst (fst destroyed)) (snd (fst destroyed))],
     snd destroyed).
Proof.
  unfold create_and_destroy. rewrite run_and_then. simpl.
  destruct (native _ (fove_createHeadset capabilities) (val outHeadset) w)
    as [[e h] w1]. simpl.
  destruct (native _ (fove_Headset_destroy h) tt w1) as [[e' o] w2]. reflexivity.
Qed.

End MoreCAPIFacts.

(** ** Further properties of the classes *)

Module ClassFacts.
Import BufferProtocol MoreSpec.

(** *** Colliders *)

Lemma fold_left_add (cs : list Fove_ObjectCollider.t) (a : ColliderArray.t) :
  ColliderArray.colliders (fold_left ColliderArray.add cs a)
  = (ColliderArray.colliders a ++ cs)%list.
Proof.
  revert a. induction cs as [| c cs IH]; intros a; simpl.
  - rewrite app_nil_r. reflexivity.
  - rewrite IH. simpl. rewrite <- app_assoc. reflexivity.
Qed.

(** A [ColliderArray] holds the colliders that were added to it, in the
    order of the calls and with repetitions.  [setColliders] hands them to
    the object and sets [colliderCount] to their number, provided that
    number fits an [unsigned int]; [id], [pose] and [group] are left
    alone, and the colliders an earlier [setColliders] had set are
    dropped. *)
Theorem colliders_reach_the_object (self : Fove_GazableObject.t)
    (earlier cs : list Fove_ObjectCollider.t)
    (H : Z.of_nat (List.length cs) < 2 ^ 32) :
  let before := GazableObject.setColliders self (ColliderArray_of earlier) in
  let obj := GazableObject.setColliders before (ColliderArray_of cs) in
  ColliderArray.colliders (ColliderArray_of cs) = cs
  /\ Fove_GazableObject.colliders obj = cs
  /\ Fove_GazableObject.colliderCount obj = Z.of_nat (List.length cs)
  /\ Fove_GazableObject.id obj = Fove_GazableObject.id self
  /\ Fove_GazableObject.pose obj = Fove_GazableObject.pose self
  /\ Fove_GazableObject.group obj = Fove_GazableObject.group self.
Proof.
  unfold ColliderArray_of, GazableObject.setColliders. simpl.
  rewrite !fold_left_add. simpl.
  repeat split.
  unfold CInt.to_unsigned_int. apply Z.mod_small. lia.
Qed.

Lemma colliders_reach_the_object_witness :
  Z.of_nat (List.length [cube_collider; sphere_collider; cube_collider]) < 2 ^ 32
  /\ Fove_GazableObject.colliderCount
       (GazableObject.setColliders
          (GazableObject.setColliders (GazableObject.__init__ (-1) 1 None None None)
                                      (ColliderArray_of [sphere_collider]))
          (ColliderArray_of [cube_collider; sphere_collider; cube_collider]))
     = 3.
Proof.
  split; [reflexivity |].
  exact (proj1 (proj2 (proj2
           (colliders_reach_the_object (GazableObject.__init__ (-1) 1 None None None)
              [sphere_collider] [cube_collider; sphere_collider; cube_collider]
              eq_refl)))).
Defined.

(** The properties [vertexBuffer] and [indexBuffer] of a [ColliderMesh]:
    a getter returns what its setter stored, storing what the getter
    returns changes nothing, a second assignment overrides the first, and
    the two properties and [boundingBox] do not disturb each other. *)
Theorem ColliderMesh_properties (self : Fove_ColliderMesh.t) (v v' : VertexBuffer.t)
    (i i' : IndexBuffer.t) :
  ColliderMesh.get_vertexBuffer (ColliderMesh.set_vertexBuffer self v) = v
  /\ ColliderMesh.get_indexBuffer (ColliderMesh.set_indexBuffer self i) = i
  /\ ColliderMesh.set_vertexBuffer self (ColliderMesh.get_vertexBuffer self) = self
  /\ ColliderMesh.set_indexBuffer self (ColliderMesh.get_indexBuffer self) = self
  /\ ColliderMesh.set_vertexBuffer (ColliderMesh.set_vertexBuffer self v) v'
     = ColliderMesh.set_vertexBuffer self v'
  /\ ColliderMesh.set_indexBuffer (ColliderMesh.set_indexBuffer self i) i'
     = ColliderMesh.set_indexBuffer self i'
  /\ ColliderMesh.get_indexBuffer (ColliderMesh.set_vertexBuffer self v)
     = ColliderMesh.get_indexBuffer self
  /\ ColliderMesh.get_vertexBuffer (ColliderMesh.set_indexBuffer self i)
     = ColliderMesh.get_vertexBuffer self
  /\ ColliderMesh.set_indexBuffer (ColliderMesh.set_vertexBuffer self v) i
     = ColliderMesh.set_vertexBuffer (ColliderMesh.set_indexBuffer self i) v
  /\ Fove_ColliderMesh.boundingBox
       (ColliderMesh.set_indexBuffer (ColliderMesh.set_vertexBuffer self v) i)
     = Fove_ColliderMesh.boundingBox self.
Proof. destruct self, v, v', i, i'. repeat split. Qed.

(** *** The mesh buffers and the buffers of the classes *)

(** What the two mesh constructors make of the buffers the helpers of the
    binding describe.  [VertexBuffer] takes a two-dimensional buffer of
    the helper exactly when its elements are four bytes wide with the
    format of [float] and its rows hold three of them; [IndexBuffer] takes
    a one-dimensional one exactly when its elements are four bytes wide
    and their number is a multiple of three, whatever their format.  So
    the buffer of a [Vec3] makes an [IndexBuffer] of one triangle, while
    those of [Quaternion], [Vec2] and [Vec2i] are refused for their length,
    and [VertexBuffer] refuses the buffers of [Matrix44] and [EyeShape]. *)
Theorem mesh_buffers_of_helper_buffers (e : Elem) (data : pointer) (Rows Cols Size : nat) :
  succeeds (VertexBuffer.__init__ (define_2D_buffer_protocol e data Rows Cols))
  = String.eqb (format_descriptor e) "f" && (Z.of_nat Cols =? 3) && (sizeof e =? 4)
  /\ match VertexBuffer.__init__ (define_2D_buffer_protocol e data Rows Cols) with
     | Ok vb => vb = VertexBuffer.mk data ((Z.of_nat Rows * 3) mod 2 ^ 32)
     | Throw _ => True
     end
  /\ succeeds (IndexBuffer.__init__ (define_1D_buffer_protocol e data Size))
     = (sizeof e =? 4) && (Z.of_nat Size mod 3 =? 0)
  /\ match IndexBuffer.__init__ (define_1D_buffer_protocol e data Size) with
     | Ok ib => ib = IndexBuffer.mk data ((Z.of_nat Size / 3) mod 2 ^ 32)
     | Throw _ => True
     end
  /\ IndexBuffer.__init__ (ClassBuffers.Vec3_def_buffer data) = Ok (IndexBuffer.mk data 1)
  /\ succeeds (IndexBuffer.__init__ (ClassBuffers.Quaternion_def_buffer data)) = false
  /\ succeeds (IndexBuffer.__init__ (ClassBuffers.Vec2_def_buffer data)) = false
  /\ succeeds (IndexBuffer.__init__ (ClassBuffers.Vec2i_def_buffer data)) = false
  /\ succeeds (VertexBuffer.__init__ (ClassBuffers.Matrix44_def_buffer data)) = false
  /\ succeeds (VertexBuffer.__init__ (ClassBuffers.EyeShape_def_buffer data)) = false.
Proof.
  assert (R : Z.rem (Z.of_nat Size) 3 = Z.of_nat Size mod 3)
    by (apply Z.rem_mod_nonneg; lia).
  assert (Q : Z.quot (Z.of_nat Size) 3 = Z.of_nat Size / 3)
    by (apply Z.quot_div_nonneg; lia).
  unfold VertexBuffer.__init__, IndexBuffer.__init__, define_2D_buffer_protocol,
    define_1D_buffer_protocol, CInt.to_unsigned_int.
  cbn [ptr itemsize format ndim shape strides nth].
  rewrite R, Q.
  change (sizeof c_float) with 4. change (sizeof c_unsigned_int) with 4.
  change (format_descriptor c_float) with "f".
  change (3 * 4) with 12.
  change (2 =? 2) with true. change (1 =? 1) with true. cbn [negb].
  destruct (String.eqb (format_descriptor e) "f");
    destruct (Z.eqb_spec (Z.of_nat Cols) 3) as [C3 | C3];
    destruct (Z.eqb_spec (sizeof e) 4) as [S4 | S4];
    destruct (Z.eqb_spec (Z.of_nat Size mod 3) 0) as [M3 | M3];
    try rewrite C3; try rewrite S4;
    try change (4 * 3 =? 12) with true; try change (4 =? 4) with true;
    cbn [negb andb succeeds];
    try (destruct (Z.eqb_spec (sizeof e * 3) 12); [exfalso; lia |]);
    cbn [negb andb succeeds];
    repeat split; try reflexivity.
Qed.

(** The counts the mesh constructors store are exact on the buffers Python
    can make: a buffer that [VertexBuffer] accepts, of [n] rows with
    [3 * n] below [2^32], gives [vertexCount = 3 * n], and a buffer that
    [IndexBuffer] accepts, of [n] elements with [n] below [3 * 2^32],
    gives a [triangleCount] whose triple is [n]. *)
Theorem mesh_counts_exact (info : buffer_info) (vb : VertexBuffer.t) (ib : IndexBuffer.t)
    (n : Z) (Hn : nth 0 (shape info) 0 = n) :
  (VertexBuffer.__init__ info = Ok vb -> 0 <= 3 * n < 2 ^ 32 ->
   VertexBuffer.vertices vb = ptr info /\ VertexBuffer.vertexCount vb = 3 * n)
  /\ (IndexBuffer.__init__ info = Ok ib -> 0 <= n < 3 * 2 ^ 32 ->
      IndexBuffer.indices ib = ptr info /\ 3 * IndexBuffer.triangleCount ib = n).
Proof.
  unfold VertexBuffer.__init__, IndexBuffer.__init__, CInt.to_unsigned_int.
  change (2 ^ 32) with 4294967296.
  rewrite Hn. split.
  - repeat match goal with
           | |- context [if ?c then _ else _] => destruct c; [discriminate |]
           end.
    intros E B. injection E as <-.
    cbn [VertexBuffer.vertices VertexBuffer.vertexCount]. split; [reflexivity |].
    rewrite Z.mod_small by lia. lia.
  - destruct (negb (ndim info =? 1)); [discriminate |].
    destruct (negb (nth 0 (strides info) 0 =? sizeof c_unsigned_int)); [discriminate |].
    destruct (Z.eqb_spec (Z.rem n 3) 0) as [R | R]; [| discriminate]. cbn [negb].
    intros E B. injection E as <-.
    cbn [IndexBuffer.indices IndexBuffer.triangleCount]. split; [reflexivity |].
    rewrite Z.rem_mod_nonneg in R by lia.
    rewrite Z.quot_div_nonneg by lia.
    rewrite Z.mod_small by (split; [apply Z.div_pos; lia | apply Z.div_lt_upper_bound; lia]).
    pose proof (Z.div_mod n 3). lia.
Qed.

Lemma mesh_counts_exact_witness :
  VertexBuffer.vertexCount (VertexBuffer.mk 4096 6) = 3 * 2
  /\ 3 * IndexBuffer.triangleCount (IndexBuffer.mk 8192 2) = 6.
Proof.
  split.
  - apply (proj1 (mesh_counts_exact MeshBufferSpec.two_vertices (VertexBuffer.mk 4096 6)
                    (IndexBuffer.mk 0 0) eq_refl));
      [reflexivity | cbv; split; [discriminate | reflexivity]].
  - apply (proj2 (mesh_counts_exact MeshBufferSpec.six_indices (VertexBuffer.mk 0 0)
                    (IndexBuffer.mk 8192 2) eq_refl));
      [reflexivity | cbv; split; [discriminate | reflexivity]].
Defined.

(** What [assert_layout] buys: when its two assertions hold for a struct
    and [Size] elements, the buffer [define_1D_buffer_protocol] describes
    over the struct exposes [Size] elements that all lie within the bytes
    of the struct, and together they take up all of them. *)
Theorem asserted_layout_fits (is_standard_layout : bool) (sizeof_Struct : Z) (e : Elem)
    (Size : nat) (obj : pointer)
    (H : ClassBuffers.assert_layout is_standard_layout sizeof_Struct e Size = true) :
  let b := define_1D_buffer_protocol e obj Size in
  within sizeof_Struct b = true
  /\ List.length (element_offsets b) = Size
  /\ Z.of_nat (List.length (element_offsets b)) * itemsize b = sizeof_Struct
  /\ NoDup (element_offsets b).
Proof.
  unfold ClassBuffers.assert_layout in H. apply andb_true_iff in H.
  destruct H as [_ H]. apply Z.eqb_eq in H.
  pose proof (sizeof_pos e) as P.
  unfold within, element_offsets, define_1D_buffer_protocol.
  cbn [shape strides itemsize]. rewrite BufferProtocolFacts.offsets_1D.
  split; [| split; [| split]].
  - apply forallb_forall. intros o Ho. apply in_map_iff in Ho.
    destruct Ho as [k [<- Hk]]. apply in_seq in Hk.
    apply andb_true_iff. split; [apply Z.leb_le | apply Z.leb_le]; nia.
  - rewrite length_map, length_seq. reflexivity.
  - rewrite length_map, length_seq. lia.
  - apply (BufferProtocolFacts.native_layout_NoDup e Size).
Qed.

Lemma asserted_layout_fits_witness :
  ClassBuffers.assert_layout true 16 c_float 4 = true
  /\ within 16 (ClassBuffers.Quaternion_def_buffer 4096) = true
  /\ List.length (element_offsets (ClassBuffers.Quaternion_def_buffer 4096)) = 4%nat.
Proof.
  split; [reflexivity |].
  pose proof (asserted_layout_fits true 16 c_float 4 4096 eq_refl) as P.
  split; [exact (proj1 P) | exact (proj1 (proj2 P))].
Defined.

(** The two buffers written out by hand agree with the helpers: the
    buffer of [EyeShape] is the one [define_2D_buffer_protocol] gives for
    a [float[12][2]], so that it walks the 24 floats of [outline] in memory
    order, and the buffer of a [Buffer] of [n] bytes is the one
    [define_1D_buffer_protocol] gives for an [unsigned char[n]], exposing
    the bytes [0 .. n-1] and nothing when [n] is zero. *)
Theorem handwritten_buffers_agree (outline data : pointer) (n : nat) :
  ClassBuffers.EyeShape_def_buffer outline = define_2D_buffer_protocol c_float outline 12 2
  /\ element_offsets (ClassBuffers.EyeShape_def_buffer outline) = native_layout c_float 24
  /\ ClassBuffers.Buffer_def_buffer (Fove_Buffer.mk data (Z.of_nat n))
     = define_1D_buffer_protocol c_unsigned_char data n
  /\ element_offsets (ClassBuffers.Buffer_def_buffer (Fove_Buffer.mk data (Z.of_nat n)))
     = map Z.of_nat (seq 0 n)
  /\ element_offsets (ClassBuffers.Buffer_def_buffer (Buffer.__init__ None None)) = [].
Proof.
  split; [reflexivity |].
  split; [reflexivity |].
  split; [reflexivity |].
  split; [| reflexivity].
  unfold element_offsets, ClassBuffers.Buffer_def_buffer. cbn [shape strides Fove_Buffer.length].
  rewrite BufferProtocolFacts.offsets_1D. apply map_ext. intros k. change (sizeof c_unsigned_char) with 1. lia.
Qed.

(** *** [CalibrationData] *)

Lemma CalibrationData_assign_keeps_string (self : CalibrationData.t)
    (a : CalibrationData_assignment) :
  CalibrationData.stateInfo (CalibrationData_assign self a) = CalibrationData.stateInfo self.
Proof. destruct a; reflexivity. Qed.

(** The attribute [stateInfo] of [CalibrationData] is a second name of the
    member [state]: it reads the state, assigning it changes what [state]
    reads, and the string the constructor and [FromNative] store in the
    member [stateInfo] is out of reach: no attribute shows it and no
    sequence of assignments changes it. *)
Theorem stateInfo_is_state (self : CalibrationData.t) (value : Fove_CalibrationState.t)
    (method : option Fove_CalibrationMethod.t) (state : option Fove_CalibrationState.t)
    (info info' : option string) (targetL targetR : option Fove_CalibrationTarget.t)
    (native : Fove_CalibrationData.t) (text : string)
    (assignments : list CalibrationData_assignment) :
  CalibrationDataAttributes.get_stateInfo self = CalibrationDataAttributes.get_state self
  /\ CalibrationDataAttributes.get_state (CalibrationDataAttributes.set_stateInfo self value)
     = value
  /\ CalibrationDataAttributes.get_stateInfo (CalibrationDataAttributes.set_state self value)
     = value
  /\ CalibrationData_view (CalibrationData.__init__ method state info targetL targetR)
     = CalibrationData_view (CalibrationData.__init__ method state info' targetL targetR)
  /\ CalibrationData_view (CalibrationData.FromNative native)
     = CalibrationData_view
         (CalibrationData.FromNative
            (Fove_CalibrationData.mk (Fove_CalibrationData.method native)
               (Fove_CalibrationData.state native) text
               (Fove_CalibrationData.targetL native)
               (Fove_CalibrationData.targetR native)))
  /\ CalibrationData.stateInfo (fold_left CalibrationData_assign assignments self)
     = CalibrationData.stateInfo self.
Proof.
  repeat split.
  revert self. induction assignments as [| a l IH]; intros self; simpl; [reflexivity |].
  rewrite IH. apply CalibrationData_assign_keeps_string.
Qed.

(** *** The boxes and [Vec2i] *)

Lemma to_int_id (z : Z) : CInt.in_int z -> CInt.to_int z = z.
Proof.
  unfold CInt.in_int, CInt.int_min, CInt.int_max, CInt.to_int. intros H.
  rewrite Z.mod_small by lia. lia.
Qed.

(** Negation on the boxes.  [Bool.__not__] and [Float.__neg__] undo
    themselves on every value; [Int.__neg__] gives the opposite and undoes
    itself on every [int] but the least, whose opposite is no [int].  A
    [Float] that holds a NaN differs from itself, and from its negation. *)
Theorem box_negations (b : Obj bool) (f : Obj Float32.float) (i : Obj Z)
    (H : CInt.int_min < val i <= CInt.int_max) :
  BoolBox.__not__ (BoolBox.__not__ b) = b
  /\ BoolBox.__ne__ (BoolBox.__not__ b) b = true
  /\ Wrappers.Float.__neg__ (Wrappers.Float.__neg__ f) = f
  /\ FloatBox.__eq__ f f = negb (is_nan (val f))
  /\ FloatBox.__ne__ (Wrappers.Float.__neg__ f) f
     = negb (is_zero (val f))
  /\ val (Wrappers.Int.__neg__ i) = - val i
  /\ Wrappers.Int.__neg__ (Wrappers.Int.__neg__ i) = i
  /\ IntBox.__eq__ (Wrappers.Int.__neg__ i) i = (val i =? 0).
Proof.
  destruct b as [b], f as [f], i as [i]. simpl in H.
  assert (N : CInt.to_int (- i) = - i).
  { apply to_int_id. unfold CInt.in_int, CInt.int_min, CInt.int_max in *. lia. }
  unfold BoolBox.__not__, BoolBox.__ne__, Wrappers.Float.__neg__, Wrappers.Int.__neg__,
    FloatBox.__eq__, FloatBox.__ne__, IntBox.__eq__, operator_eq_Obj, operator_ne_Obj.
  simpl. rewrite N.
  split; [rewrite negb_involutive; reflexivity |].
  split; [destruct b; reflexivity |].
  split; [rewrite OperatorFacts.fneg_involutive; reflexivity |].
  split; [apply FloatStructFacts.feqb_refl |].
  split.
  { destruct f as [s | s | | s m e]; try reflexivity; destruct s; reflexivity. }
  split; [reflexivity |].
  split.
  { rewrite Z.opp_involutive. rewrite to_int_id; [reflexivity |].
    unfold CInt.in_int, CInt.int_min, CInt.int_max in *. lia. }
  destruct (Z.eqb_spec (- i) i), (Z.eqb_spec i 0); try reflexivity; lia.
Qed.

Lemma box_negations_witness :
  CInt.int_min < val (Wrappers.Int.__init__ (Some 2147483647)) <= CInt.int_max
  /\ Wrappers.Int.__neg__ (Wrappers.Int.__neg__ (Wrappers.Int.__init__ (Some 2147483647)))
     = Wrappers.Int.__init__ (Some 2147483647).
Proof.
  assert (H : CInt.int_min
              < val (Wrappers.Int.__init__ (Some 2147483647)) <= CInt.int_max)
    by (unfold CInt.int_min, CInt.int_max; simpl; lia).
  split; [exact H |].
  pose proof (box_negations (Wrappers.Bool.__init__ None) (Wrappers.Float.__init__ None)
                (Wrappers.Int.__init__ (Some 2147483647)) H) as P.
  exact (proj1 (proj2 (proj2 (proj2 (proj2 (proj2 (proj2 P))))))).
Defined.

(** [Vec2i] computes exactly where [int] does: when the components and
    their sums are in the range of [int], the sum has the sums of the
    components, subtracting a summand gives the other back, and [__eq__]
    holds between two vectors exactly when they are the same vector. *)
Theorem Vec2i_exact (a b : Fove_Vec2i.t)
    (Hx : CInt.in_int (Fove_Vec2i.x a)) (Hy : CInt.in_int (Fove_Vec2i.y a))
    (Hsx : CInt.in_int (Fove_Vec2i.x a + Fove_Vec2i.x b))
    (Hsy : CInt.in_int (Fove_Vec2i.y a + Fove_Vec2i.y b)) :
  Vec2i.__add__ a b
  = Fove_Vec2i.mk (Fove_Vec2i.x a + Fove_Vec2i.x b) (Fove_Vec2i.y a + Fove_Vec2i.y b)
  /\ Vec2i.__sub__ (Vec2i.__add__ a b) b = a
  /\ Vec2i.__eq__ (Vec2i.__sub__ (Vec2i.__add__ a b) b) a = true
  /\ (Vec2i.__eq__ a b = true <-> a = b)
  /\ (Vec2i.__ne__ a b = true <-> a <> b).
Proof.
  destruct a as [ax ay], b as [bx by_]. simpl in *.
  unfold Vec2i.__add__, Vec2i.__sub__, Vec2i.__eq__, Vec2i.__ne__, operator_eq_Vec2i. simpl.
  rewrite (to_int_id Hsx), (to_int_id Hsy).
  replace (ax + bx - bx) with ax by lia. replace (ay + by_ - by_) with ay by lia.
  rewrite (to_int_id Hx), (to_int_id Hy), !Z.eqb_refl.
  split; [reflexivity |].
  split; [reflexivity |].
  split; [reflexivity |].
  split.
  - rewrite andb_true_iff, !Z.eqb_eq. split.
    + intros [-> ->]. reflexivity.
    + intros E. injection E as -> ->. split; reflexivity.
  - rewrite negb_true_iff. split.
    + intros F E. injection E as -> ->. rewrite !Z.eqb_refl in F. discriminate.
    + intros N. destruct (Z.eqb_spec ax bx) as [-> |]; [| reflexivity].
      destruct (Z.eqb_spec ay by_) as [-> |]; [| reflexivity].
      exfalso. apply N. reflexivity.
Qed.

Lemma Vec2i_exact_witness :
  Vec2i.__sub__ (Vec2i.__add__ (Fove_Vec2i.mk 2147483000 (-5)) (Fove_Vec2i.mk 647 (-7)))
                (Fove_Vec2i.mk 647 (-7))
  = Fove_Vec2i.mk 2147483000 (-5).
Proof.
  assert (Hx : CInt.in_int 2147483000) by (unfold CInt.in_int, CInt.int_min, CInt.int_max; lia).
  assert (Hy : CInt.in_int (-5)) by (unfold CInt.in_int, CInt.int_min, CInt.int_max; lia).
  assert (Hsx : CInt.in_int (2147483000 + 647))
    by (unfold CInt.in_int, CInt.int_min, CInt.int_max; lia).
  assert (Hsy : CInt.in_int (-5 + -7))
    by (unfold CInt.in_int, CInt.int_min, CInt.int_max; lia).
  exact (proj1 (proj2 (Vec2i_exact (Fove_Vec2i.mk 2147483000 (-5)) (Fove_Vec2i.mk 647 (-7))
                         Hx Hy Hsx Hsy))).
Defined.

End ClassFacts.
